(** * JetNet dataset assembly: a shallow embedding of [JetNet.getData]

    Source: [src/jetnet/datasets/jetnet.py].  The class method [getData]
    resolves the requested jet types and feature lists, loads one HDF5
    file per jet type, truncates and relabels the raw arrays, reorders
    their feature channels, concatenates the per-type arrays, and finally
    shuffles the rows with a seeded permutation and keeps one contiguous
    block of the shuffled rows.

    Conventions of the embedding:
    - numpy arrays are nested lists (rows first); array entries are exact
      rationals [Q], so the embedding says nothing about NaN or rounding
      of floating-point entries; the arrays of one dataset share their
      trailing dimensions, and numpy's shape checks on concatenation are
      not part of the model;
    - Python [int]s are [Z]; array lengths and positions are [nat];
    - exceptions are values of [error], named as in the specification's
      taxonomy where it has a name for them and as in Python otherwise;
      a computation returns [Ok v] or [Raise e] together with the final
      [world];
    - the global numpy generator and the file traffic are the two parts
      of [world]: [rng] and [trace];
    - the remote archive / HDF5 reader and numpy's generator are outside
      the repository: they are the interfaces [RawSource] and
      [Generator]. *)

From Stdlib Require Import String Ascii List Bool Arith ZArith QArith Qminmax Lia Permutation.
Import ListNotations.

(** ** Python and numpy primitives *)

Module Py.

(** Position of the first occurrence, [list.index]. *)
Fixpoint index (x : string) (l : list string) : option nat :=
  match l with
  | [] => None
  | y :: l' => if String.eqb x y then Some 0%nat
               else option_map S (index x l')
  end.

(** [x in l] on lists of strings. *)
Definition mem (x : string) (l : list string) : bool :=
  existsb (String.eqb x) l.

(** [l1 == l2] on lists of strings. *)
Fixpoint list_eqb (l1 l2 : list string) : bool :=
  match l1, l2 with
  | [], [] => true
  | x :: l1', y :: l2' => String.eqb x y && list_eqb l1' l2'
  | _, _ => false
  end.

(** A slice bound [i] on a sequence of length [len]: negative bounds
    count from the end, and every bound is clipped to [0, len]. *)
Definition bound (len : nat) (i : Z) : nat :=
  if (i <? 0)%Z then Z.to_nat (Z.max 0 (i + Z.of_nat len))
  else Nat.min (Z.to_nat i) len.

(** [xs[start:stop]] with unit step; [None] is an omitted bound. *)
Definition slice {A} (start stop : option Z) (xs : list A) : list A :=
  let n := length xs in
  let a := match start with None => 0%nat | Some i => bound n i end in
  let b := match stop with None => n | Some i => bound n i end in
  firstn (b - a) (skipn a xs).

(** All-or-nothing traversal. *)
Fixpoint all_some {A} (l : list (option A)) : option (list A) :=
  match l with
  | [] => Some []
  | None :: _ => None
  | Some x :: l' =>
      match all_some l' with
      | Some xs => Some (x :: xs)
      | None => None
      end
  end.

(** [xs[idx]] for an index array [idx] of non-negative positions
    (numpy integer-array indexing along axis 0): [None] stands for the
    [IndexError] of a position past the end. *)
Definition take {A} (xs : list A) (idx : list nat) : option (list A) :=
  all_some (map (nth_error xs) idx).

End Py.

(** ** Tensors *)

Definition row := list Q.
Definition tensor2 := list row.            (* [examples, channels] *)
Definition tensor3 := list (list row).     (* [examples, elements, channels] *)

(** The two shapes [getData] handles, for [len(firstNotNoneElement(..))]. *)
Inductive ndarray :=
| Rank3 (t : tensor3)
| Rank2 (t : tensor2).

Definition len (a : ndarray) : nat :=
  match a with
  | Rank3 t => length t
  | Rank2 t => length t
  end.

(** ** Errors, events and the world *)

Inductive error :=
| UnknownFeatureError
| InvalidCategoryError
| InvalidSplitError
| InvalidFractionError
| EmptyRequestError
| RetrievalError
| IndexError
| ValueError
| KeyError
| TypeError.

Inductive result (A : Type) :=
| Ok (a : A)
| Raise (e : error).
Arguments Ok {A} a.
Arguments Raise {A} e.

(** File traffic, in the order it happens: [Download] is a call of
    [checkDownloadZenodoDataset] (look the file up in [data_dir], fetch
    it from the archive record when it is not there), [OpenFile] a call
    of [h5py.File]. *)
Inductive event :=
| Download (data_dir dataset_name : string) (record_id : Z) (key : string)
| OpenFile (path : string).

(** The content of one raw HDF5 file: its two named arrays. *)
Module Hdf5.
Record file := {
  particle_features : tensor3;
  jet_features : tensor2
}.
End Hdf5.
Definition hdf5 := Hdf5.file.

(** The raw-source collaborator: [checkDownloadZenodoDataset] returns the
    local path of the file (fetching it when needed) and [h5py.File]
    opens it.  [None] is a failed retrieval or a failed open. *)
Class RawSource := {
  ensureLocal : string -> string -> Z -> string -> option string;
  openFile : string -> option hdf5
}.

(** numpy's global generator.  [permutation s n] is
    [np.random.permutation(n)] from state [s]: the drawn index array and
    the advanced state.  numpy documents the draw as a permutation of
    [range(n)]. *)
Class Generator := {
  rng_state : Type;
  seed_state : Z -> rng_state;
  permutation : rng_state -> nat -> list nat * rng_state;
  permutation_spec : forall s n, Permutation (fst (permutation s n)) (seq 0 n)
}.

Section World.

Context {G : Generator}.

Record world := {
  rng : rng_state;
  trace : list event
}.

(** State and exceptions: the world survives a raised error. *)
Definition M (A : Type) := world -> result A * world.

Definition ret {A} (a : A) : M A := fun w => (Ok a, w).

Definition bind {A B} (m : M A) (k : A -> M B) : M B :=
  fun w =>
    match m w with
    | (Ok a, w') => k a w'
    | (Raise e, w') => (Raise e, w')
    end.

Definition raise {A} (e : error) : M A := fun w => (Raise e, w).

Definition lift {A} (r : result A) : M A := fun w => (r, w).

Definition log (e : event) : M unit :=
  fun w => (Ok tt, {| rng := rng w; trace := trace w ++ [e] |}).

(** numpy accepts seeds in [0, 2**32 - 1]. *)
Definition seed_accepted (seed : Z) : bool :=
  ((0 <=? seed) && (seed <? 2 ^ 32))%Z.

(** [np.random.seed(seed)]. *)
Definition np_random_seed (seed : Z) : M unit :=
  fun w =>
    if seed_accepted seed
    then (Ok tt, {| rng := seed_state seed; trace := trace w |})
    else (Raise ValueError, w).

(** [np.random.permutation(n)] on the global generator. *)
Definition np_random_permutation (n : nat) : M (list nat) :=
  fun w =>
    let (p, s) := permutation (rng w) n in
    (Ok p, {| rng := s; trace := trace w |}).

(** The result of [m] does not depend on the world it starts from. *)
Definition world_independent {A} (m : M A) : Prop :=
  forall w1 w2 : world, fst (m w1) = fst (m w2).

(** The first thing [m] does to the trace is to append [e]. *)
Definition starts_with {A} (e : event) (m : M A) : Prop :=
  forall w : world, exists evs, trace (snd (m w)) = trace w ++ e :: evs.

(** What [m] appends to the trace satisfies [P] event by event. *)
Definition appends {A} (P : event -> Prop) (m : M A) : Prop :=
  forall w : world,
    exists evs, trace (snd (m w)) = trace w ++ evs /\ Forall P evs.

End World.

Declare Scope jet_scope.
Delimit Scope jet_scope with jet.
Notation "x <- m ;; k" := (bind m (fun x => k))
  (at level 61, m at next level, right associativity) : jet_scope.
Notation "' p <- m ;; k" := (bind m (fun x => let p := x in k))
  (at level 61, p pattern, m at next level, right associativity) : jet_scope.

(** ** The helpers of [jetnet/datasets/utils.py]

    [jetnet.py] imports these helpers from a module of the repository
    whose source is not part of [src/]; each is modelled from the
    specification's description of the component it implements. *)

Module Utils.

(** The caller's category selection: one name (possibly the shorthand
    [all]) or a set of names. *)
Inductive selection :=
| One (name : string)
| Many (names : list string).

(** A feature-list argument as the caller writes it:
    [None], a single name, or a list of names. *)
Inductive feature_arg :=
| NoFeatures
| OneFeature (name : string)
| FeatureList (names : list string).

(** Modelled from the spec: [checkConvertElements] (utils.py is not in
    [src/]).  It resolves the requested category set, supports the
    shorthand [all] for all categories, fails with
    [InvalidCategoryError] on a name outside the closed set, and hands
    back the categories in the fixed order of the closed set. *)
Definition checkConvertElements (elem : selection) (valid_types : list string)
  : result (list string) :=
  match elem with
  | One name =>
      if String.eqb name "all" then Ok valid_types
      else if Py.mem name valid_types then Ok [name]
      else Raise InvalidCategoryError
  | Many names =>
      if forallb (fun j => Py.mem j valid_types) names
      then Ok (filter (fun j => Py.mem j names) valid_types)
      else Raise InvalidCategoryError
  end.

(** Modelled from the spec: [checkStrToList] (utils.py is not in
    [src/]).  A list is returned unchanged and a single name is
    wrapped into a one-element list; an absent list stays absent. *)
Definition checkStrToList (inp : feature_arg) : option (list string) :=
  match inp with
  | NoFeatures => None
  | OneFeature name => Some [name]
  | FeatureList names => Some names
  end.

(** Modelled from the spec: [checkListNotEmpty] (utils.py is not in
    [src/]).  An empty or absent list means no features of this
    kind. *)
Definition checkListNotEmpty (inp : option (list string)) : bool :=
  match inp with
  | None => false
  | Some [] => false
  | Some (_ :: _) => true
  end.

(** Modelled from the spec: [firstNotNoneElement] (utils.py is not in
    [src/]).  The length is computed from whichever tensor is
    present: the first of the inputs that is not [None].  When every
    input is [None] there is no element to hand back and the result is
    [None]. *)
Fixpoint firstNotNoneElement (inputs : list (option ndarray)) : option ndarray :=
  match inputs with
  | [] => None
  | Some a :: _ => Some a
  | None :: rest => firstNotNoneElement rest
  end.

(** ** FeatureOrderCatalog *)

(** Modelled from the spec: [validate(requested, canonical)] fails
    with [UnknownFeatureError] if any requested name is absent from
    the canonical order. *)
Definition validate (requested canonical : list string) : result (list string) :=
  if forallb (fun name => Py.mem name canonical) requested
  then Ok requested
  else Raise UnknownFeatureError.

(** Modelled from the spec: [computePermutation(requested, canonical)]
    maps each requested position to its canonical column index. *)
Definition computePermutation (requested canonical : list string)
  : option (list nat) :=
  Py.all_some (map (fun name => Py.index name canonical) requested).

(** Modelled from the spec: applying the permutation to one row of
    [getOrderedFeatures] (utils.py is not in [src/]): the channels are
    picked in the order of [perm]; a column index past the row's end is
    numpy's [IndexError]. *)
Definition pick (perm : list nat) (r : row) : option row :=
  Py.take r perm.

(** Modelled from the spec: [reorder(tensor, requested, canonical)]
    applies the permutation along the feature-channel axis and is a
    no-op when the requested order equals the canonical one. *)
Definition reorder (data : tensor2) (requested canonical : list string)
  : result tensor2 :=
  if Py.list_eqb requested canonical then Ok data
  else
    match computePermutation requested canonical with
    | None => Raise UnknownFeatureError
    | Some perm =>
        match Py.all_some (map (pick perm) data) with
        | Some data' => Ok data'
        | None => Raise IndexError
        end
    end.

(** Modelled from the spec: [getOrderedFeatures] (utils.py is not in
    [src/]) on a 2-D array: validation, then reordering. *)
Definition getOrderedFeatures2 (data : tensor2) (features features_order : list string)
  : result tensor2 :=
  match validate features features_order with
  | Raise e => Raise e
  | Ok requested => reorder data requested features_order
  end.

(** Modelled from the spec: [reorder] of [getOrderedFeatures] (utils.py
    is not in [src/]) along the last axis of a 3-D array, example by
    example. *)
Fixpoint reorder_each (data : tensor3) (requested canonical : list string)
  : result tensor3 :=
  match data with
  | [] => Ok []
  | example :: rest =>
      match reorder example requested canonical with
      | Raise e => Raise e
      | Ok example' =>
          match reorder_each rest requested canonical with
          | Raise e => Raise e
          | Ok rest' => Ok (example' :: rest')
          end
      end
  end.

(** Modelled from the spec: [getOrderedFeatures] (utils.py is not in
    [src/]) on a 3-D array: the feature-channel axis is the last one, so
    every example is reordered the same way. *)
Definition getOrderedFeatures3 (data : tensor3) (features features_order : list string)
  : result tensor3 :=
  match validate features features_order with
  | Raise e => Raise e
  | Ok requested => reorder_each data requested features_order
  end.

(** ** SplitPartitioner *)

(** Modelled from the spec: the [round] of the cut points of
    [getSplitting] (utils.py is not in [src/]), as rounding to the
    nearest integer with ties to the even neighbour (Python's
    [round]). *)
Definition round (q : Q) : Z :=
  let n := Qnum q in
  let d := Z.pos (Qden q) in
  let fl := (n / d)%Z in
  match (2 * (n mod d) ?= d)%Z with
  | Lt => fl
  | Gt => (fl + 1)%Z
  | Eq => if Z.even fl then fl else (fl + 1)%Z
  end.

(** Modelled from the spec: the fraction check of [getSplitting]
    (utils.py is not in [src/]): fractions are non-negative and sum to
    at most 1. *)
Definition valid_fractions (fr : Q * Q * Q) : bool :=
  let '(f_train, f_valid, f_test) := fr in
  Qle_bool 0 f_train && Qle_bool 0 f_valid && Qle_bool 0 f_test
  && Qle_bool (f_train + f_valid + f_test) 1.

(** Modelled from the spec: [getSplitting] (utils.py is not in
    [src/]).  With [c0 = round(f_train * N)] and
    [c1 = round((f_train + f_valid) * N)] the boundaries are
    train [0, c0), valid [c0, c1), test [c1, N) and all [0, N).
    It fails with [InvalidSplitError] on a name outside the closed
    set and with [InvalidFractionError] on negative fractions or a sum
    above 1; [all] yields the full range regardless of fractions. *)
Definition getSplitting (length : nat) (split : string) (splits : list string)
    (split_fraction : Q * Q * Q) : result (Z * Z) :=
  let N := Z.of_nat length in
  if negb (Py.mem split splits) then Raise InvalidSplitError
  else if String.eqb split "all" then Ok (0%Z, N)
  else if negb (valid_fractions split_fraction) then Raise InvalidFractionError
  else
    let '(f_train, f_valid, _) := split_fraction in
    let c0 := round (f_train * inject_Z N) in
    let c1 := round ((f_train + f_valid) * inject_Z N) in
    if String.eqb split "train" then Ok (0%Z, c0)
    else if String.eqb split "valid" then Ok (c0, c1)
    else if String.eqb split "test" then Ok (c1, N)
    else Raise InvalidSplitError.

End Utils.

(** ** numpy array operations used by [getData] *)

Module Np.

(** [np.full([n, 1], v)]: a column of [n] copies of [v]. *)
Definition full_column (n : nat) (v : Q) : tensor2 := repeat [v] n.

(** Two arrays side by side (axis 1), row by row. *)
Definition hstack (a b : tensor2) : tensor2 :=
  map (fun xy => fst xy ++ snd xy) (combine a b).

(** [np.concatenate((a, b, c), axis=1)]. *)
Definition concatenate_axis1 (a b c : tensor2) : tensor2 :=
  hstack a (hstack b c).

(** [np.minimum(t, bound)], element-wise. *)
Definition minimum (t : tensor2) (bound : Q) : tensor2 :=
  map (map (fun v => Qmin v bound)) t.

(** [t[:, start:stop]] on a 2-D array. *)
Definition columns (start stop : option Z) (t : tensor2) : tensor2 :=
  map (Py.slice start stop) t.

(** [np.concatenate(arrays, axis=0)] on a Python list of arrays:
    numpy refuses an empty list, and an entry that is not an array
    ([None]), with a [ValueError]. *)
Definition concatenate {A} (arrays : list (option (list A))) : result (list A) :=
  match arrays with
  | [] => Raise ValueError
  | _ :: _ =>
      match Py.all_some arrays with
      | Some ts => Ok (concat ts)
      | None => Raise ValueError
      end
  end.

(** [data[randperm][lcut:rcut]]; subscripting [None] is a
    [TypeError]. *)
Definition shuffle_slice {A} (data : option (list A)) (randperm : list nat)
    (lcut rcut : Z) : result (option (list A)) :=
  match data with
  | None => Raise TypeError
  | Some t =>
      match Py.take t randperm with
      | None => Raise IndexError
      | Some t' => Ok (Some (Py.slice (Some lcut) (Some rcut) t'))
      end
  end.

End Np.

(** ** The class [JetNet] *)

Module JetNet.

Import Utils.

Definition _zenodo_record_ids : list (string * Z) :=
  [("30"%string, 6975118%Z); ("150"%string, 6975117%Z)].

Definition jet_types : list string :=
  ["g"; "t"; "q"; "w"; "z"]%string.
Definition particle_features_order : list string :=
  ["etarel"; "phirel"; "ptrel"; "mask"]%string.
Definition jet_features_order : list string :=
  ["type"; "pt"; "eta"; "mass"; "num_particles"]%string.
Definition splits : list string :=
  ["train"; "valid"; "test"; "all"]%string.

(** Dictionary subscript on string keys. *)
Fixpoint dict_get (d : list (string * Z)) (k : string) : result Z :=
  match d with
  | [] => Raise KeyError
  | (k', v) :: d' => if String.eqb k k' then Ok v else dict_get d' k
  end.

(** The feature names of a resolved feature list. *)
Definition names (features : option (list string)) : list string :=
  match features with
  | Some l => l
  | None => []
  end.

(** Line 161: the dataset name of jet type [j]. *)
Definition dataset_name (use_150 : bool) (j : string) : string :=
  append j (if use_150 then "150"%string else EmptyString).

(** Line 172: [particle_features[:, :num_particles]]. *)
Definition truncate (num_particles : Z) (pf : tensor3) : tensor3 :=
  map (Py.slice None (Some num_particles)) pf.

(** Lines 185-193: the class index as first jet feature, the next
    three raw channels, and the remaining ones bounded by
    [num_particles]. *)
Definition add_class_index (class_index : nat) (num_particles : Z) (jf : tensor2)
  : tensor2 :=
  Np.concatenate_axis1
    (Np.full_column (length jf) (inject_Z (Z.of_nat class_index)))
    (Np.columns None (Some 3%Z) jf)
    (Np.minimum (Np.columns (Some 3%Z) None jf) (inject_Z num_particles)).

Section GetData.

Context {S : RawSource} {G : Generator}.
Local Open Scope jet_scope.

(** [checkDownloadZenodoDataset]: the request is recorded, then the
    collaborator answers with the local path or fails. *)
Definition checkDownloadZenodoDataset (data_dir dataset_name : string)
    (record_id : Z) (key : string) : M string :=
  _ <- log (Download data_dir dataset_name record_id key) ;;
  match ensureLocal data_dir dataset_name record_id key with
  | Some path => ret path
  | None => raise RetrievalError
  end.

(** [h5py.File(hdf5_file, "r")]. *)
Definition h5py_File (hdf5_file : string) : M hdf5 :=
  _ <- log (OpenFile hdf5_file) ;;
  match openFile hdf5_file with
  | Some f => ret f
  | None => raise RetrievalError
  end.

(** Lines 161-198: the body of the loop over jet types. *)
Definition load_jet_type (data_dir : string)
    (particle_features jet_features : option (list string))
    (use_particle_features use_jet_features use_150 : bool)
    (num_particles : Z) (j : string)
  : M (option tensor3 * option tensor2) :=
  let dname := dataset_name use_150 j in
  record_id <- lift (dict_get _zenodo_record_ids
                       (if use_150 then "150" else "30")%string) ;;
  hdf5_file <- checkDownloadZenodoDataset data_dir dname record_id
                 (append dname ".hdf5") ;;
  f <- h5py_File hdf5_file ;;
  pf <- (if use_particle_features
         then
           pf <- lift (getOrderedFeatures3
                         (truncate num_particles (Hdf5.particle_features f))
                         (names particle_features) particle_features_order) ;;
           ret (Some pf)
         else ret None) ;;
  jf <- (if use_jet_features
         then
           match Py.index j jet_types with
           | None => raise ValueError
           | Some class_index =>
               jf <- lift (getOrderedFeatures2
                             (add_class_index class_index num_particles
                                (Hdf5.jet_features f))
                             (names jet_features) jet_features_order) ;;
               ret (Some jf)
           end
         else ret None) ;;
  ret (pf, jf).

(** Lines 160 and 197-198: the loop, appending to both lists. *)
Fixpoint load_jet_types (data_dir : string)
    (particle_features jet_features : option (list string))
    (use_particle_features use_jet_features use_150 : bool)
    (num_particles : Z) (jet_type : list string)
  : M (list (option tensor3) * list (option tensor2)) :=
  match jet_type with
  | [] => ret ([], [])
  | j :: rest =>
      '(pf, jf) <- load_jet_type data_dir particle_features jet_features
                     use_particle_features use_jet_features use_150
                     num_particles j ;;
      '(particle_data, jet_data) <-
         load_jet_types data_dir particle_features jet_features
           use_particle_features use_jet_features use_150
           num_particles rest ;;
      ret (pf :: particle_data, jf :: jet_data)
  end.

(** Lines 203-209: the length of the present tensor, the cut
    boundaries, and the seeded permutation.  Line 203 is a bare
    [len(firstNotNoneElement(..))]: when no tensor is present the helper
    hands back [None], and [len(None)] is Python's [TypeError]. *)
Definition shuffle_and_split (particle_data : option tensor3)
    (jet_data : option tensor2) (split : string)
    (split_fraction : Q * Q * Q) (seed : Z)
  : M (Z * Z * list nat) :=
  length <- match firstNotNoneElement
                    [option_map Rank3 particle_data;
                     option_map Rank2 jet_data] with
            | Some a => ret (len a)
            | None => raise TypeError
            end ;;
  '(lcut, rcut) <- lift (getSplitting length split splits split_fraction) ;;
  _ <- np_random_seed seed ;;
  randperm <- np_random_permutation length ;;
  ret (lcut, rcut, randperm).

(** [JetNet.getData], lines 150-217. *)
Definition getData (jet_type : selection) (data_dir : string)
    (particle_features jet_features : feature_arg)
    (num_particles : Z) (split : string)
    (split_fraction : Q * Q * Q) (seed : Z)
  : M (option tensor3 * option tensor2) :=
  jet_type <- lift (checkConvertElements jet_type jet_types) ;;
  let particle_features := checkStrToList particle_features in
  let jet_features := checkStrToList jet_features in
  let use_particle_features := checkListNotEmpty particle_features in
  let use_jet_features := checkListNotEmpty jet_features in
  let use_150 := (30 <? num_particles)%Z in
  '(particle_data, jet_data) <-
     load_jet_types data_dir particle_features jet_features
       use_particle_features use_jet_features use_150
       num_particles jet_type ;;
  particle_data <- (if use_particle_features
                    then t <- lift (Np.concatenate particle_data) ;; ret (Some t)
                    else ret None) ;;
  jet_data <- (if use_jet_features
               then t <- lift (Np.concatenate jet_data) ;; ret (Some t)
               else ret None) ;;
  '(lcut, rcut, randperm) <-
     shuffle_and_split particle_data jet_data split split_fraction seed ;;
  particle_data <- (if use_particle_features
                    then lift (Np.shuffle_slice particle_data randperm lcut rcut)
                    else ret particle_data) ;;
  jet_data <- (if use_jet_features
               then lift (Np.shuffle_slice jet_data randperm lcut rcut)
               else ret jet_data) ;;
  ret (particle_data, jet_data).

End GetData.

End JetNet.

(** ** Closed forms of the per-type arrays

    What one raw file contributes to the concatenated arrays, written
    row by row.  The properties below relate [getData] to these. *)

Module View.

Import Utils JetNet.

(** The canonical column of a feature name. *)
Definition column (canonical : list string) (name : string) : nat :=
  match Py.index name canonical with
  | Some i => i
  | None => length canonical
  end.

(** The value of feature [name] in a canonically ordered row. *)
Definition feature (canonical : list string) (name : string) (r : row) : Q :=
  nth (column canonical name) r 0.

(** A row listing the requested features in the requested order. *)
Definition select (requested canonical : list string) (r : row) : row :=
  map (fun name => feature canonical name r) requested.

(** A raw jet row with its label in front and its tail bounded. *)
Definition labelled (class_index : nat) (num_particles : Z) (r : row) : row :=
  inject_Z (Z.of_nat class_index)
  :: firstn 3 r ++ map (fun v => Qmin v (inject_Z num_particles)) (skipn 3 r).

(** The ordinal of a jet type in the closed list. *)
Definition class_of (j : string) : nat := column jet_types j.

(** The particle rows one file contributes. *)
Definition particle_block (requested : list string) (num_particles : Z) (f : hdf5)
  : tensor3 :=
  map (fun example =>
         map (select requested particle_features_order)
             (Py.slice None (Some num_particles) example))
      (Hdf5.particle_features f).

(** The jet rows one file of jet type [j] contributes. *)
Definition jet_block (requested : list string) (num_particles : Z)
    (j : string) (f : hdf5) : tensor2 :=
  map (fun r => select requested jet_features_order
                  (labelled (class_of j) num_particles r))
      (Hdf5.jet_features f).

(** A raw file as the dataset ships it: the two arrays describe the same
    jets, and every particle and every jet has the four raw channels. *)
Definition well_formed (f : hdf5) : Prop :=
  length (Hdf5.particle_features f) = length (Hdf5.jet_features f)
  /\ Forall (Forall (fun r : row => length r = 4%nat)) (Hdf5.particle_features f)
  /\ Forall (fun r : row => length r = 4%nat) (Hdf5.jet_features f).

(** The record and file key of a resolution variant: [true] is the
    150-particle dataset, [false] the 30-particle one. *)
Definition record_of (use_150 : bool) : Z :=
  if use_150 then 6975117%Z else 6975118%Z.

Definition key_of (use_150 : bool) (j : string) : string :=
  append (dataset_name use_150 j) ".hdf5".

(** The download request getData issues for jet type [j]. *)
Definition request (data_dir : string) (use_150 : bool) (j : string) : event :=
  Download data_dir (dataset_name use_150 j) (record_of use_150) (key_of use_150 j).

(** Every download in the trace asks for the given variant of some jet
    type of the closed list. *)
Definition fetches (use_150 : bool) (e : event) : Prop :=
  match e with
  | Download data_dir dataset_name record_id key =>
      exists j, In j jet_types /\ e = request data_dir use_150 j
  | OpenFile _ => True
  end.

(** The file of jet type [j] is retrievable: the collaborator hands out
    [path] for the request of [getData], and [path] opens as [f]. *)
Definition available {S : RawSource} (data_dir : string) (use_150 : bool)
    (j : string) (path : string) (f : hdf5) : Prop :=
  ensureLocal data_dir (dataset_name use_150 j) (record_of use_150)
    (key_of use_150 j) = Some path
  /\ openFile path = Some f.

(** The concatenated arrays before the shuffle, for the selected jet
    types paired with their files. *)
Definition particle_rows (requested : list string) (num_particles : Z)
    (loaded : list (string * hdf5)) : tensor3 :=
  concat (map (fun jf => particle_block requested num_particles (snd jf)) loaded).

Definition jet_rows (requested : list string) (num_particles : Z)
    (loaded : list (string * hdf5)) : tensor2 :=
  concat (map (fun jf => jet_block requested num_particles (fst jf) (snd jf)) loaded).

(** The number of jets in the loaded files. *)
Definition total (loaded : list (string * hdf5)) : nat :=
  list_sum (map (fun jf => length (Hdf5.jet_features (snd jf))) loaded).

(** Rows picked by an index array, then cut to [lcut, rcut). *)
Definition shuffled {A} (randperm : list nat) (lcut rcut : Z) (t : list (list A))
  : list (list A) :=
  Py.slice (Some lcut) (Some rcut) (map (fun i => nth i t []) randperm).

(** World [w] after the events [evs]. *)
Definition logged {G : Generator} (w : world) (evs : list event) : world :=
  {| rng := rng w; trace := trace w ++ evs |}.

(** The part of the loop body after the file is open, as a value. *)
Definition processed (pfeat jfeat : option (list string)) (up uj : bool)
    (K : Z) (j : string) (f : hdf5) : result (option tensor3 * option tensor2) :=
  match (if up
         then match getOrderedFeatures3 (truncate K (Hdf5.particle_features f))
                      (names pfeat) particle_features_order with
              | Ok pf => Ok (Some pf)
              | Raise e => Raise e
              end
         else Ok None) with
  | Raise e => Raise e
  | Ok pf =>
      match (if uj
             then match Py.index j jet_types with
                  | None => Raise ValueError
                  | Some c =>
                      match getOrderedFeatures2
                              (add_class_index c K (Hdf5.jet_features f))
                              (names jfeat) jet_features_order with
                      | Ok jf => Ok (Some jf)
                      | Raise e => Raise e
                      end
                  end
             else Ok None) with
      | Raise e => Raise e
      | Ok jf => Ok (pf, jf)
      end
  end.

(** The selected jet types, paired with their files, can all be
    retrieved, and the files are well formed. *)
Definition retrievable {S : RawSource} (data_dir : string) (use_150 : bool)
    (loaded : list (string * hdf5)) : Prop :=
  Forall (fun jf => exists path,
            available data_dir use_150 (fst jf) path (snd jf)) loaded
  /\ Forall (fun jf => well_formed (snd jf)) loaded.

(** Every requested name is in the canonical order. *)
Definition known (requested canonical : list string) : bool :=
  forallb (fun name => Py.mem name canonical) requested.

(** A split name of the closed set, with valid fractions unless the
    name is [all]. *)
Definition valid_split (split : string) (fr : Q * Q * Q) : Prop :=
  Py.mem split splits = true
  /\ (split = "all"%string \/ valid_fractions fr = true).

(** The particle row of raw example [raw] in the returned tensor. *)
Definition particle_example (requested : list string) (num_particles : Z)
    (raw : list row) : list row :=
  map (select requested particle_features_order)
      (Py.slice None (Some num_particles) raw).

(** The jet row of raw row [raw] of jet type [j] in the returned
    tensor. *)
Definition jet_example (requested : list string) (num_particles : Z)
    (j : string) (raw : row) : row :=
  select requested jet_features_order (labelled (class_of j) num_particles raw).

(** The request names a feature that the canonical order of its kind
    does not have. *)
Definition unknown_requested (particle_features jet_features : feature_arg)
  : Prop :=
  (exists name, In name (names (checkStrToList particle_features))
                /\ ~ In name particle_features_order)
  \/ (exists name, In name (names (checkStrToList jet_features))
                   /\ ~ In name jet_features_order).

(** The reading of the specification under which feature names are
    checked before any file is touched: an unknown name makes [getData]
    raise [UnknownFeatureError] with the trace as it was. *)
Definition validated_before_io : Prop :=
  forall (S : RawSource) (G : Generator) (jet_type : selection)
         (data_dir : string) (particle_features jet_features : feature_arg)
         (num_particles : Z) (split : string) (fr : Q * Q * Q) (seed : Z)
         (w : world),
    unknown_requested particle_features jet_features ->
    fst (getData jet_type data_dir particle_features jet_features
           num_particles split fr seed w) = Raise UnknownFeatureError
    /\ trace (snd (getData jet_type data_dir particle_features jet_features
                     num_particles split fr seed w)) = trace w.

(** A half-open index range [l, r). *)
Definition in_range (lr : Z * Z) (i : Z) : Prop :=
  (fst lr <= i < snd lr)%Z.

(** Lines 172-180: the particle array the loop body makes of file [f]. *)
Definition particle_part (pfeat : option (list string)) (up : bool) (K : Z)
    (f : hdf5) : result (option tensor3) :=
  if up
  then match getOrderedFeatures3 (truncate K (Hdf5.particle_features f))
               (names pfeat) particle_features_order with
       | Ok pf => Ok (Some pf)
       | Raise e => Raise e
       end
  else Ok None.

(** Lines 176-195: the jet array the loop body makes of file [f] of jet
    type [j]. *)
Definition jet_part (jfeat : option (list string)) (uj : bool) (K : Z)
    (j : string) (f : hdf5) : result (option tensor2) :=
  if uj
  then match Py.index j jet_types with
       | None => Raise ValueError
       | Some c =>
           match getOrderedFeatures2 (add_class_index c K (Hdf5.jet_features f))
                   (names jfeat) jet_features_order with
           | Ok jf => Ok (Some jf)
           | Raise e => Raise e
           end
       end
  else Ok None.

(** Truncation as the specification words it: the raw particle array
    of a file with every example cut to its first [K] elements.  The
    properties compare it with what the loop body computes. *)
Definition first_elements (K : Z) (f : hdf5) : tensor3 :=
  map (firstn (Z.to_nat K)) (Hdf5.particle_features f).

(** Label injection and clamping as the specification words them: the
    raw jet array of a file of jet type [j] with the ordinal of [j] in
    front of every row, the first three raw channels as they are and
    every later channel bounded by [K].  The properties compare it with
    what the loop body computes. *)
Definition label_first (K : Z) (j : string) (f : hdf5) : tensor2 :=
  map (fun raw : row =>
         inject_Z (Z.of_nat (class_of j))
         :: firstn 3 raw ++ map (fun v => Qmin v (inject_Z K)) (skipn 3 raw))
      (Hdf5.jet_features f).

(** The download of the file of jet type [j] of the 150-particle
    dataset, and of the 30-particle dataset, written out. *)
Definition coarse_file (data_dir j : string) : event :=
  Download data_dir (append j "150") 6975117%Z (append j "150.hdf5").

Definition fine_file (data_dir j : string) : event :=
  Download data_dir j 6975118%Z (append j ".hdf5").

(** Event [e] is no download, or it is the download [file j] of a jet
    type [j] of the closed list. *)
Definition asks_for (file : string -> event) (e : event) : Prop :=
  match e with
  | Download _ _ _ _ => exists j, In j jet_types /\ e = file j
  | OpenFile _ => True
  end.


End View.

(** ** The stages of [getData]

    The three parts of the body of [getData] after the loop, named so
    that runs can be followed stage by stage, and what a run leaves in
    the world. *)

Module Stages.

Import Utils JetNet View.

Section Stages.

Context {G : Generator}.

(** Lines 200-201: [np.concatenate(arrays, axis=0) if use else None]. *)
Definition gather {A} (use : bool) (arrays : list (option (list A)))
  : M (option (list A)) :=
  if use
  then bind (lift (Np.concatenate arrays)) (fun t => ret (Some t))
  else ret None.

(** Lines 211-217: both tensors indexed by [randperm] and cut to
    [lcut:rcut]. *)
Definition select_rows (up uj : bool) (particle_data : option tensor3)
    (jet_data : option tensor2) (cut : Z * Z * list nat)
  : M (option tensor3 * option tensor2) :=
  let '(lcut, rcut, randperm) := cut in
  bind (if up
        then lift (Np.shuffle_slice particle_data randperm lcut rcut)
        else ret particle_data)
    (fun particle_data =>
       bind (if uj
             then lift (Np.shuffle_slice jet_data randperm lcut rcut)
             else ret jet_data)
         (fun jet_data => ret (particle_data, jet_data))).

(** Lines 200-217: everything after the loop. *)
Definition after_loading (up uj : bool) (split : string) (fr : Q * Q * Q)
    (seed : Z) (data : list (option tensor3) * list (option tensor2))
  : M (option tensor3 * option tensor2) :=
  let '(ps, js) := data in
  bind (gather up ps)
    (fun particle_data =>
       bind (gather uj js)
         (fun jet_data =>
            bind (shuffle_and_split particle_data jet_data split fr seed)
              (select_rows up uj particle_data jet_data))).

(** [m] leaves the generator as it found it. *)
Definition keeps_rng {A} (m : M A) : Prop :=
  forall w : world, rng (snd (m w)) = rng w.

(** [m] leaves the generator as it found it, or in the state that
    follows one draw of [n] indices from the generator seeded with
    [seed]. *)
Definition reseeds {A} (seed : Z) (m : M A) : Prop :=
  forall w : world,
    rng (snd (m w)) = rng w
    \/ exists n, rng (snd (m w)) = snd (permutation (seed_state seed) n).

End Stages.

(** The events of loading the jet types [seen], each paired with the
    path of its file: one request and one open per type, in order. *)
Definition visits (data_dir : string) (use_150 : bool)
    (seen : list (string * string)) : list event :=
  flat_map (fun jp => [request data_dir use_150 (fst jp); OpenFile (snd jp)])
    seen.

Definition is_download (e : event) : bool :=
  match e with
  | Download _ _ _ _ => true
  | OpenFile _ => false
  end.

(** What the loop body appends to the trace when the file of [j]
    cannot be retrieved or opened; [None] when it can. *)
Definition failure_events {S : RawSource} (data_dir : string) (use_150 : bool)
    (j : string) : option (list event) :=
  match ensureLocal data_dir (dataset_name use_150 j) (record_of use_150)
          (key_of use_150 j) with
  | None => Some [request data_dir use_150 j]
  | Some path =>
      match openFile path with
      | None => Some [request data_dir use_150 j; OpenFile path]
      | Some _ => None
      end
  end.

(** Each selected jet type with its file and the path of the file. *)
Definition located {S : RawSource} (data_dir : string) (use_150 : bool)
    (loaded : list (string * hdf5)) (paths : list string) : Prop :=
  Forall2 (fun jf path => available data_dir use_150 (fst jf) path (snd jf))
    loaded paths.

End Stages.

(** ** A small concrete world

    Two raw files per resolution variant and a toy generator, used to run
    the model on concrete requests. *)

Module Sample.

(** A generator whose draw is the rotation of [range(n)] by the state;
    every draw advances the state. *)
Definition rotate (s : Z) (n : nat) : list nat :=
  let k := Z.to_nat (s mod Z.of_nat (Nat.max 1 n)) in
  skipn k (seq 0 n) ++ firstn k (seq 0 n).

#[export] Instance generator : Generator.
Proof.
  refine {| rng_state := Z;
            seed_state := fun seed => seed;
            permutation := fun s n => (rotate s n, (s + 1)%Z) |}.
  intros s n. unfold rotate. cbn [fst].
  rewrite Permutation_app_comm.
  now rewrite firstn_skipn.
Defined.

Definition particle (a b c : Z) (m : Z) : row :=
  [a # 10; b # 10; c # 100; inject_Z m].

Definition g30 : hdf5 := {|
  Hdf5.particle_features :=
    [ [particle 1 2 30 1; particle (-1) 3 20 1; particle 0 0 0 0];
      [particle 2 1 50 1; particle 4 (-2) 25 1; particle 3 3 10 1];
      [particle 5 5 60 1; particle 0 0 0 0; particle 0 0 0 0] ];
  Hdf5.jet_features :=
    [ [1000 # 1; 1 # 2; 80 # 1; 2 # 1];
      [1100 # 1; (-1) # 2; 90 # 1; 3 # 1];
      [1200 # 1; 1 # 4; 70 # 1; 1 # 1] ]
|}.

Definition t30 : hdf5 := {|
  Hdf5.particle_features :=
    [ [particle 7 7 40 1; particle 6 6 30 1; particle 5 5 20 1];
      [particle 9 8 90 1; particle 0 0 0 0; particle 0 0 0 0] ];
  Hdf5.jet_features :=
    [ [1500 # 1; 0 # 1; 170 # 1; 3 # 1];
      [1600 # 1; 3 # 4; 175 # 1; 1 # 1] ]
|}.

(** The coarse files carry four particles per jet. *)
Definition g150 : hdf5 := {|
  Hdf5.particle_features :=
    [ [particle 1 2 30 1; particle (-1) 3 20 1; particle 2 2 10 1; particle 0 0 0 0];
      [particle 2 1 50 1; particle 4 (-2) 25 1; particle 3 3 10 1; particle 1 1 5 1] ];
  Hdf5.jet_features :=
    [ [1000 # 1; 1 # 2; 80 # 1; 3 # 1];
      [1100 # 1; (-1) # 2; 90 # 1; 4 # 1] ]
|}.

Definition open (path : string) : option hdf5 :=
  if String.eqb path "./g.hdf5" then Some g30
  else if String.eqb path "./t.hdf5" then Some t30
  else if String.eqb path "./g150.hdf5" then Some g150
  else None.

#[export] Instance source : RawSource := {|
  ensureLocal := fun data_dir dataset_name record_id key => Some (append data_dir key);
  openFile := open
|}.

Definition w0 : world := {| rng := 7%Z; trace := [] |}.

(** A world in which the generator has been used and a file opened. *)
Definition later : world :=
  {| rng := 1234%Z; trace := [OpenFile "./g.hdf5"] |}.

Definition fractions : Q * Q * Q := (7 # 10, 15 # 100, 15 # 100).

(** The gluon and top files of the 30-particle variant, and the gluon
    file of the 150-particle variant. *)
Definition loaded30 : list (string * hdf5) :=
  [("g"%string, g30); ("t"%string, t30)].

Definition loaded150 : list (string * hdf5) := [("g"%string, g150)].

Definition paths30 : list string := ["./g.hdf5"; "./t.hdf5"]%string.

Definition paths150 : list string := ["./g150.hdf5"%string].

End Sample.

(** * Properties *)

(** ** Rounding *)

Section Rounding.

Import Utils.
Local Open Scope Z_scope.

Lemma round_cases (q : Q) :
  let n := Qnum q in
  let d := Z.pos (Qden q) in
  n = d * (n / d) + n mod d /\ 0 <= n mod d < d /\
  ((2 * (n mod d) < d /\ round q = n / d) \/
   (2 * (n mod d) > d /\ round q = n / d + 1) \/
   (2 * (n mod d) = d /\ round q = if Z.even (n / d) then n / d else n / d + 1)).
Proof.
  intros n d.
  assert (Hd : 0 < d) by (unfold d; lia).
  split; [apply Z.div_mod; lia|].
  split; [apply Z.mod_pos_bound; lia|].
  unfold round. fold n. fold d.
  destruct (Z.compare_spec (2 * (n mod d)) d) as [E|L|Gt].
  - right. right. split; [exact E | reflexivity].
  - left. split; [exact L | reflexivity].
  - right. left. split; [lia | reflexivity].
Qed.

Lemma round_monotone (p q : Q) : (p <= q)%Q -> round p <= round q.
Proof.
  unfold Qle. intros Hle.
  destruct (round_cases p) as (Ep & Bp & Cp).
  destruct (round_cases q) as (Eq & Bq & Cq).
  cbv zeta in *.
  set (n1 := Qnum p) in *. set (d1 := Z.pos (Qden p)) in *.
  set (n2 := Qnum q) in *. set (d2 := Z.pos (Qden q)) in *.
  assert (H1 : 0 < d1) by (unfold d1; lia).
  assert (H2 : 0 < d2) by (unfold d2; lia).
  set (a := n1 / d1) in *. set (r := n1 mod d1) in *.
  set (b := n2 / d2) in *. set (s := n2 mod d2) in *.
  clearbody a r b s n1 n2 d1 d2.
  assert (Hab : a <= b \/ b + 1 <= a) by lia.
  destruct Hab as [Hab | Hba].
  - assert (Hab' : a = b \/ a + 1 <= b) by lia.
    destruct Hab' as [-> | Hlt].
    + assert (Hrs : r * d2 <= s * d1) by nia.
      destruct Cp as [[Lp ->] | [[Gp ->] | [Tp ->]]];
      destruct Cq as [[Lq ->] | [[Gq ->] | [Tq ->]]];
      try destruct (Z.even b); try lia; nia.
    + destruct Cp as [[Lp ->] | [[Gp ->] | [Tp ->]]];
      destruct Cq as [[Lq ->] | [[Gq ->] | [Tq ->]]];
      try destruct (Z.even a); try destruct (Z.even b); lia.
  - exfalso. subst n1 n2.
    assert (d1 * d2 * (a - b) <= s * d1 - r * d2) by nia.
    assert (d1 * d2 <= d1 * d2 * (a - b)) by nia.
    nia.
Qed.

Lemma round_inject_Z (n : Z) : round (inject_Z n) = n.
Proof.
  unfold round, inject_Z. cbn [Qnum Qden].
  rewrite Z.mod_1_r, Z.div_1_r. reflexivity.
Qed.

End Rounding.

(** ** Slices *)

Section Slices.

Variable A : Type.
Implicit Types xs : list A.

Lemma bound_inside (n : nat) (i : Z) :
  (0 <= i <= Z.of_nat n)%Z -> Py.bound n i = Z.to_nat i.
Proof.
  intros Hi. unfold Py.bound.
  destruct (Z.ltb_spec i 0); lia.
Qed.

Lemma bound_le (n : nat) (i : Z) : (Py.bound n i <= n)%nat.
Proof.
  unfold Py.bound. destruct (Z.ltb_spec i 0); lia.
Qed.

Lemma slice_inside xs (l r : Z) :
  (0 <= l <= r)%Z -> (r <= Z.of_nat (length xs))%Z ->
  Py.slice (Some l) (Some r) xs
  = firstn (Z.to_nat r - Z.to_nat l) (skipn (Z.to_nat l) xs).
Proof.
  intros Hl Hr. unfold Py.slice.
  rewrite !bound_inside by lia. reflexivity.
Qed.

(** [xs[:k]] for a count [k] is the first [k] elements. *)
Lemma slice_prefix xs (k : Z) :
  (0 <= k)%Z -> Py.slice None (Some k) xs = firstn (Z.to_nat k) xs.
Proof.
  intros Hk. unfold Py.slice, Py.bound.
  destruct (Z.ltb_spec k 0); [lia|].
  rewrite Nat.sub_0_r. cbn [skipn].
  destruct (Nat.le_gt_cases (Z.to_nat k) (length xs)).
  - now rewrite Nat.min_l.
  - rewrite Nat.min_r by lia. now rewrite !firstn_all2 by lia.
Qed.

(** [xs[k:]] for a count [k] drops the first [k] elements. *)
Lemma slice_suffix xs (k : Z) :
  (0 <= k)%Z -> Py.slice (Some k) None xs = skipn (Z.to_nat k) xs.
Proof.
  intros Hk. unfold Py.slice, Py.bound.
  destruct (Z.ltb_spec k 0); [lia|].
  destruct (Nat.le_gt_cases (Z.to_nat k) (length xs)).
  - rewrite Nat.min_l by lia.
    apply firstn_all2. rewrite length_skipn. lia.
  - rewrite Nat.min_r by lia. rewrite Nat.sub_diag. cbn [firstn].
    symmetry. apply skipn_all2. lia.
Qed.

Lemma firstn_skipn_step xs (a b : nat) :
  (a <= b)%nat -> firstn (b - a) (skipn a xs) ++ skipn b xs = skipn a xs.
Proof.
  intros Hab.
  rewrite <- (firstn_skipn (b - a) (skipn a xs)) at 2.
  rewrite skipn_skipn.
  replace (b - a + a)%nat with b by lia. reflexivity.
Qed.

(** Three consecutive slices with cut points [0 <= c0 <= c1 <= len]
    give the sequence back. *)
Lemma slice_cover xs (c0 c1 : Z) :
  (0 <= c0 <= c1)%Z -> (c1 <= Z.of_nat (length xs))%Z ->
  Py.slice (Some 0%Z) (Some c0) xs
  ++ Py.slice (Some c0) (Some c1) xs
  ++ Py.slice (Some c1) (Some (Z.of_nat (length xs))) xs
  = xs.
Proof.
  intros H0 H1.
  rewrite !slice_inside by lia.
  rewrite Nat2Z.id. change (Z.to_nat 0) with 0%nat.
  rewrite Nat.sub_0_r. cbn [skipn].
  set (a := Z.to_nat c0). set (b := Z.to_nat c1).
  assert (Hab : (a <= b <= length xs)%nat) by lia.
  rewrite (firstn_all2 (n := length xs - b)) by (rewrite length_skipn; lia).
  rewrite firstn_skipn_step by lia.
  apply firstn_skipn.
Qed.

End Slices.

(** ** The split boundaries *)

Section Splitting.

Import Utils JetNet View.

Lemma inject_nat_nonneg (n : nat) : (0 <= inject_Z (Z.of_nat n))%Q.
Proof. unfold Qle. cbn. lia. Qed.

Lemma valid_fractions_spec (ft fv fe : Q) :
  valid_fractions (ft, fv, fe) = true ->
  (0 <= ft /\ 0 <= fv /\ 0 <= fe /\ ft + fv + fe <= 1)%Q.
Proof.
  unfold valid_fractions. rewrite !andb_true_iff, !Qle_bool_iff. tauto.
Qed.

(** The two cut points are ordered and lie inside [0, N]. *)
Lemma cuts_ordered (N : nat) (ft fv fe : Q) :
  valid_fractions (ft, fv, fe) = true ->
  (0 <= round (ft * inject_Z (Z.of_nat N))
   <= round ((ft + fv) * inject_Z (Z.of_nat N)))%Z
  /\ (round ((ft + fv) * inject_Z (Z.of_nat N)) <= Z.of_nat N)%Z.
Proof.
  intros Hv. apply valid_fractions_spec in Hv.
  destruct Hv as (Ht & Hv & He & Hs).
  pose proof (inject_nat_nonneg N) as HN.
  set (n := inject_Z (Z.of_nat N)) in *.
  repeat split.
  - change 0%Z with (round (inject_Z 0)) at 1.
    apply round_monotone. change (inject_Z 0) with 0%Q.
    now apply Qmult_le_0_compat.
  - apply round_monotone. apply Qmult_le_compat_r; [|exact HN].
    rewrite <- (Qplus_0_r ft) at 1. apply Qplus_le_r. exact Hv.
  - rewrite <- (round_inject_Z (Z.of_nat N)). fold n.
    apply round_monotone.
    apply Qle_trans with (1 * n)%Q.
    + apply Qmult_le_compat_r; [|exact HN].
      apply Qle_trans with (ft + fv + fe)%Q; [|exact Hs].
      rewrite <- (Qplus_0_r (ft + fv)) at 1. apply Qplus_le_r. exact He.
    + rewrite Qmult_1_l. apply Qle_refl.
Qed.

Lemma getSplitting_all (N : nat) (fr : Q * Q * Q) :
  getSplitting N "all" splits fr = Ok (0%Z, Z.of_nat N).
Proof. reflexivity. Qed.

Lemma getSplitting_named (N : nat) (ft fv fe : Q) :
  valid_fractions (ft, fv, fe) = true ->
  let c0 := round (ft * inject_Z (Z.of_nat N)) in
  let c1 := round ((ft + fv) * inject_Z (Z.of_nat N)) in
  getSplitting N "train" splits (ft, fv, fe) = Ok (0%Z, c0)
  /\ getSplitting N "valid" splits (ft, fv, fe) = Ok (c0, c1)
  /\ getSplitting N "test" splits (ft, fv, fe) = Ok (c1, Z.of_nat N).
Proof.
  intros Hv c0 c1. unfold getSplitting.
  cbn [Py.mem existsb splits String.eqb Ascii.eqb Bool.eqb orb negb].
  rewrite Hv. cbn. repeat split; reflexivity.
Qed.

End Splitting.

Section SplitRanges.

Import Utils JetNet View.

(** C2.  For every row count [N] and every valid fraction triple, the
    index ranges computed for the split names train, valid and test
    are pairwise disjoint and their union is [0, N); cutting any index
    array of length [N] (the permutation of whatever seed) by the three
    ranges gives three blocks that together are the whole array; and
    the split name all yields the full range [0, N) for every fraction
    triple. *)
Theorem split_ranges_partition (N : nat) (fr : Q * Q * Q) :
  valid_fractions fr = true ->
  exists tr va te : Z * Z,
    getSplitting N "train" splits fr = Ok tr
    /\ getSplitting N "valid" splits fr = Ok va
    /\ getSplitting N "test" splits fr = Ok te
    /\ (forall i, ~ (in_range tr i /\ in_range va i))
    /\ (forall i, ~ (in_range tr i /\ in_range te i))
    /\ (forall i, ~ (in_range va i /\ in_range te i))
    /\ (forall i, (0 <= i < Z.of_nat N)%Z
                  <-> in_range tr i \/ in_range va i \/ in_range te i)
    /\ (forall (A : Type) (p : list A), length p = N ->
          Py.slice (Some (fst tr)) (Some (snd tr)) p
          ++ Py.slice (Some (fst va)) (Some (snd va)) p
          ++ Py.slice (Some (fst te)) (Some (snd te)) p = p)
    /\ (forall fr', getSplitting N "all" splits fr' = Ok (0%Z, Z.of_nat N)).
Proof.
  destruct fr as [[ft fv] fe]. intros Hv.
  destruct (getSplitting_named N _ _ _ Hv) as (Htr & Hva & Hte).
  destruct (cuts_ordered N _ _ _ Hv) as (H01 & H1N).
  set (c0 := round (ft * inject_Z (Z.of_nat N))) in *.
  set (c1 := round ((ft + fv) * inject_Z (Z.of_nat N))) in *.
  exists (0%Z, c0), (c0, c1), (c1, Z.of_nat N).
  unfold in_range. cbn [fst snd].
  repeat split; try assumption; try lia.
  intros A p Hp. subst N. apply slice_cover; lia.
Qed.

Lemma split_ranges_partition_witness :
  valid_fractions (7 # 10, 15 # 100, 15 # 100) = true
  /\ exists tr va te : Z * Z,
       getSplitting 150 "train" splits (7 # 10, 15 # 100, 15 # 100) = Ok tr
       /\ getSplitting 150 "valid" splits (7 # 10, 15 # 100, 15 # 100) = Ok va
       /\ getSplitting 150 "test" splits (7 # 10, 15 # 100, 15 # 100) = Ok te
       /\ (forall i, (0 <= i < 150)%Z
                     <-> in_range tr i \/ in_range va i \/ in_range te i).
Proof.
  split; [reflexivity|].
  destruct (split_ranges_partition 150 (7 # 10, 15 # 100, 15 # 100) eq_refl)
    as (tr & va & te & Htr & Hva & Hte & _ & _ & _ & Hcover & _).
  exists tr, va, te.
  split; [exact Htr|]. split; [exact Hva|]. split; [exact Hte|]. exact Hcover.
Defined.

End SplitRanges.

(** ** Lists of names *)

Section Names.

Lemma index_Some (x : string) (l : list string) (i : nat) :
  Py.index x l = Some i -> nth_error l i = Some x /\ (i < length l)%nat.
Proof.
  revert i. induction l as [|y l IH]; intros i; cbn; [discriminate|].
  destruct (String.eqb_spec x y) as [->|Hne].
  - intros [= <-]. split; [reflexivity | lia].
  - destruct (Py.index x l) as [i'|]; cbn; [|discriminate].
    intros [= <-]. destruct (IH i' eq_refl). split; [assumption | lia].
Qed.

Lemma index_In (x : string) (l : list string) :
  In x l -> exists i, Py.index x l = Some i.
Proof.
  induction l as [|y l IH]; cbn; [tauto|].
  intros Hin. destruct (String.eqb_spec x y) as [->|Hne]; [now exists 0%nat|].
  destruct Hin as [->|Hin]; [congruence|].
  destruct (IH Hin) as [i ->]. now exists (S i).
Qed.

Lemma mem_In (x : string) (l : list string) : Py.mem x l = true <-> In x l.
Proof.
  unfold Py.mem. rewrite existsb_exists. split.
  - intros (y & Hy & He). apply String.eqb_eq in He. now subst.
  - intros Hin. exists x. split; [assumption | apply String.eqb_refl].
Qed.

Lemma list_eqb_eq (l1 l2 : list string) : Py.list_eqb l1 l2 = true <-> l1 = l2.
Proof.
  revert l2. induction l1 as [|x l1 IH]; intros [|y l2]; cbn;
    try (split; (reflexivity || discriminate)).
  rewrite andb_true_iff, String.eqb_eq, IH.
  split; [intros [-> ->]; reflexivity | intros [= -> ->]; auto].
Qed.

End Names.

(** ** The per-type arrays, row by row *)

Section Blocks.

Import Utils JetNet View.

Lemma truncate_counts (K : Z) (pf : tensor3) :
  (0 <= K)%Z -> truncate K pf = map (firstn (Z.to_nat K)) pf.
Proof.
  intros HK. unfold truncate. apply map_ext.
  intros example. now apply slice_prefix.
Qed.

Lemma add_class_index_rows (c : nat) (K : Z) (jf : tensor2) :
  add_class_index c K jf = map (labelled c K) jf.
Proof.
  unfold add_class_index, Np.concatenate_axis1, Np.hstack, Np.full_column,
    Np.minimum, Np.columns.
  induction jf as [|r jf IH]; [reflexivity|].
  cbn [length repeat map combine fst snd].
  rewrite IH. f_equal.
  rewrite slice_prefix, slice_suffix by lia. reflexivity.
Qed.

Lemma labelled_head (c : nat) (K : Z) (r : row) :
  nth_error (labelled c K r) 0 = Some (inject_Z (Z.of_nat c)).
Proof. reflexivity. Qed.

Lemma labelled_verbatim (c : nat) (K : Z) (r : row) (i : nat) :
  (i < 3)%nat -> nth_error (labelled c K r) (S i) = nth_error r i.
Proof.
  intros Hi. unfold labelled. cbn [nth_error].
  rewrite nth_error_app, length_firstn.
  destruct (Nat.ltb_spec i (Nat.min 3 (length r))) as [Hlt|Hge].
  - rewrite nth_error_firstn.
    destruct (Nat.ltb_spec i 3); [reflexivity | lia].
  - assert (Hlen : (length r <= i)%nat) by lia.
    rewrite nth_error_map, nth_error_skipn.
    apply nth_error_None in Hlen as Hnone. rewrite Hnone.
    assert (Hlen' : (length r <= 3 + (i - Nat.min 3 (length r)))%nat) by lia.
    apply nth_error_None in Hlen'. now rewrite Hlen'.
Qed.

Lemma labelled_clamped (c : nat) (K : Z) (r : row) (i : nat) :
  (3 <= i)%nat ->
  nth_error (labelled c K r) (S i)
  = option_map (fun v => Qmin v (inject_Z K)) (nth_error r i).
Proof.
  intros Hi. unfold labelled. cbn [nth_error].
  rewrite nth_error_app, length_firstn.
  destruct (Nat.ltb_spec i (Nat.min 3 (length r))) as [Hlt|Hge]; [lia|].
  rewrite nth_error_map, nth_error_skipn.
  destruct (Nat.le_gt_cases 3 (length r)) as [H3|H3].
  - rewrite Nat.min_l by lia. do 2 f_equal. lia.
  - assert (Hn1 : (length r <= i)%nat) by lia.
    assert (Hn2 : (length r <= 3 + (i - Nat.min 3 (length r)))%nat) by lia.
    apply nth_error_None in Hn1, Hn2. now rewrite Hn1, Hn2.
Qed.

End Blocks.

(** ** Running computations *)

Section Running.

Context {G : Generator}.

Lemma bind_ok {A B} (m : M A) (k : A -> M B) (w w' : world) (a : A) :
  m w = (Ok a, w') -> bind m k w = k a w'.
Proof. unfold bind. now intros ->. Qed.

Lemma bind_raise {A B} (m : M A) (k : A -> M B) (w w' : world) (e : error) :
  m w = (Raise e, w') -> bind m k w = (Raise e, w').
Proof. unfold bind. now intros ->. Qed.

Lemma independent_ret {A} (a : A) : world_independent (ret a).
Proof. intros w1 w2. reflexivity. Qed.

Lemma independent_raise {A} (e : error) : world_independent (raise (A := A) e).
Proof. intros w1 w2. reflexivity. Qed.

Lemma independent_lift {A} (r : result A) : world_independent (lift r).
Proof. intros w1 w2. reflexivity. Qed.

Lemma independent_log (e : event) : world_independent (log e).
Proof. intros w1 w2. reflexivity. Qed.

Lemma independent_bind {A B} (m : M A) (k : A -> M B) :
  world_independent m -> (forall a, world_independent (k a)) ->
  world_independent (bind m k).
Proof.
  intros Hm Hk w1 w2. unfold bind.
  specialize (Hm w1 w2).
  destruct (m w1) as [[a1|e1] w1'], (m w2) as [[a2|e2] w2']; cbn in Hm;
    try discriminate.
  - injection Hm as <-. apply Hk.
  - cbn. congruence.
Qed.

Lemma appends_ret {A} (P : event -> Prop) (a : A) : appends P (ret a).
Proof. intros w. exists []. now rewrite app_nil_r. Qed.

Lemma appends_raise {A} (P : event -> Prop) (e : error) :
  appends P (raise (A := A) e).
Proof. intros w. exists []. now rewrite app_nil_r. Qed.

Lemma appends_lift {A} (P : event -> Prop) (r : result A) : appends P (lift r).
Proof. intros w. exists []. now rewrite app_nil_r. Qed.

Lemma appends_log (P : event -> Prop) (e : event) : P e -> appends P (log e).
Proof. intros He w. exists [e]. split; [reflexivity | now constructor]. Qed.

Lemma appends_bind {A B} (P : event -> Prop) (m : M A) (k : A -> M B) :
  appends P m -> (forall a, appends P (k a)) -> appends P (bind m k).
Proof.
  intros Hm Hk w. unfold bind.
  destruct (Hm w) as (evs & Ht & Hp).
  destruct (m w) as [[a|e] w']; cbn [snd] in *.
  - destruct (Hk a w') as (evs' & Ht' & Hp').
    exists (evs ++ evs'). rewrite Ht', Ht, app_assoc.
    split; [reflexivity | now apply Forall_app].
  - now exists evs.
Qed.

Lemma appends_seed (P : event -> Prop) (seed : Z) : appends P (np_random_seed seed).
Proof.
  intros w. exists []. unfold np_random_seed.
  destruct (seed_accepted seed); cbn; now rewrite app_nil_r.
Qed.

Lemma appends_permutation (P : event -> Prop) (n : nat) :
  appends P (np_random_permutation n).
Proof.
  intros w. exists []. unfold np_random_permutation.
  destruct (permutation (rng w) n). cbn. now rewrite app_nil_r.
Qed.

Lemma starts_with_log {A} (e : event) (k : unit -> M A) :
  appends (fun _ => True) (k tt) -> starts_with e (bind (log e) k).
Proof.
  intros Hk w. unfold bind, log.
  destruct (Hk {| rng := rng w; trace := trace w ++ [e] |}) as (evs & Ht & _).
  exists evs. rewrite Ht. cbn [trace]. now rewrite <- app_assoc.
Qed.

Lemma starts_with_lift {A B} (e : event) (r : result A) (k : A -> M B) (a : A) :
  r = Ok a -> starts_with e (k a) -> starts_with e (bind (lift r) k).
Proof. intros -> Hk w. apply Hk. Qed.

Lemma starts_with_bind {A B} (e : event) (m : M A) (k : A -> M B) :
  starts_with e m -> (forall a, appends (fun _ => True) (k a)) ->
  starts_with e (bind m k).
Proof.
  intros Hm Hk w. unfold bind.
  destruct (Hm w) as (evs & Ht).
  destruct (m w) as [[a|err] w']; cbn [snd] in *.
  - destruct (Hk a w') as (evs' & Ht' & _).
    exists (evs ++ evs'). rewrite Ht', Ht, <- app_assoc. reflexivity.
  - now exists evs.
Qed.

Lemma appends_weaken {A} (P Q : event -> Prop) (m : M A) :
  (forall e, P e -> Q e) -> appends P m -> appends Q m.
Proof.
  intros HPQ Hm w. destruct (Hm w) as (evs & Ht & Hp).
  exists evs. split; [exact Ht|]. revert Hp. apply Forall_impl. exact HPQ.
Qed.

End Running.

Create HintDb jetnet.
#[local] Hint Resolve independent_ret independent_raise independent_lift
  independent_log appends_ret appends_raise appends_lift appends_seed
  appends_permutation : jetnet.

(** ** The seeded shuffle *)

Section Shuffle.

Import Utils JetNet View.
Context {S : RawSource} {G : Generator}.

(** The shuffle-and-split step, run from any world. *)
Lemma shuffle_and_split_run (particle_data : option tensor3)
    (jet_data : option tensor2) (split : string) (fr : Q * Q * Q) (seed : Z)
    (w : world) :
  shuffle_and_split particle_data jet_data split fr seed w =
  match firstNotNoneElement
          [option_map Rank3 particle_data; option_map Rank2 jet_data] with
  | None => (Raise TypeError, w)
  | Some a =>
      match getSplitting (len a) split splits fr with
      | Raise e => (Raise e, w)
      | Ok (lcut, rcut) =>
          if seed_accepted seed
          then (Ok (lcut, rcut, fst (permutation (seed_state seed) (len a))),
                {| rng := snd (permutation (seed_state seed) (len a));
                   trace := trace w |})
          else (Raise ValueError, w)
      end
  end.
Proof.
  unfold shuffle_and_split, bind.
  destruct (firstNotNoneElement _) as [a|]; [|reflexivity].
  cbn [ret]. unfold lift.
  destruct (getSplitting _ _ _ _) as [[lcut rcut]|e]; [|reflexivity].
  unfold np_random_seed.
  destruct (seed_accepted seed); [|reflexivity].
  unfold np_random_permutation. cbn [rng trace].
  destruct (permutation (seed_state seed) (len a)) as [p s]. reflexivity.
Qed.

Lemma independent_shuffle_and_split (particle_data : option tensor3)
    (jet_data : option tensor2) (split : string) (fr : Q * Q * Q) (seed : Z) :
  world_independent (shuffle_and_split particle_data jet_data split fr seed).
Proof.
  intros w1 w2. rewrite !shuffle_and_split_run.
  destruct (firstNotNoneElement _) as [a|]; [|reflexivity].
  destruct (getSplitting _ _ _ _) as [[lcut rcut]|e]; [|reflexivity].
  destruct (seed_accepted seed); reflexivity.
Qed.

Lemma independent_load_jet_type (data_dir : string)
    (pfeat jfeat : option (list string)) (up uj u150 : bool) (K : Z) (j : string) :
  world_independent (load_jet_type data_dir pfeat jfeat up uj u150 K j).
Proof.
  unfold load_jet_type, checkDownloadZenodoDataset, h5py_File.
  repeat (apply independent_bind; [|intros ?]); auto with jetnet.
  - destruct (ensureLocal _ _ _ _); auto with jetnet.
  - destruct (openFile _); auto with jetnet.
  - destruct up; auto with jetnet.
    apply independent_bind; auto with jetnet.
  - destruct uj; auto with jetnet.
    destruct (Py.index j jet_types); auto with jetnet.
    apply independent_bind; auto with jetnet.
Qed.

Lemma independent_load_jet_types (data_dir : string)
    (pfeat jfeat : option (list string)) (up uj u150 : bool) (K : Z)
    (jet_type : list string) :
  world_independent (load_jet_types data_dir pfeat jfeat up uj u150 K jet_type).
Proof.
  induction jet_type as [|j rest IH]; cbn [load_jet_types]; auto with jetnet.
  apply independent_bind; [apply independent_load_jet_type|].
  intros [pf jf]. apply independent_bind; [exact IH|].
  intros [ps js]. auto with jetnet.
Qed.

Lemma independent_getData (jet_type : selection) (data_dir : string)
    (particle_features jet_features : feature_arg) (num_particles : Z)
    (split : string) (fr : Q * Q * Q) (seed : Z) :
  world_independent
    (getData jet_type data_dir particle_features jet_features num_particles
       split fr seed).
Proof.
  unfold getData.
  apply independent_bind; auto with jetnet. intros cats.
  apply independent_bind; [apply independent_load_jet_types|].
  intros [ps js].
  apply independent_bind.
  { destruct (checkListNotEmpty _); auto with jetnet.
    apply independent_bind; auto with jetnet. }
  intros particle_data.
  apply independent_bind.
  { destruct (checkListNotEmpty _); auto with jetnet.
    apply independent_bind; auto with jetnet. }
  intros jet_data.
  apply independent_bind; [apply independent_shuffle_and_split|].
  intros [[lcut rcut] randperm].
  apply independent_bind.
  { destruct (checkListNotEmpty _); auto with jetnet. }
  intros particle_data'.
  apply independent_bind.
  { destruct (checkListNotEmpty _); auto with jetnet. }
  intros jet_data'. auto with jetnet.
Qed.

Lemma getSplitting_valid (N : nat) (split : string) (fr : Q * Q * Q) :
  Py.mem split splits = true ->
  split = "all"%string \/ valid_fractions fr = true ->
  exists lcut rcut,
    getSplitting N split splits fr = Ok (lcut, rcut)
    /\ (0 <= lcut <= rcut)%Z /\ (rcut <= Z.of_nat N)%Z.
Proof.
  intros Hmem Hvalid. apply mem_In in Hmem.
  assert (Hall : split = "all"%string ->
                 exists lcut rcut,
                   getSplitting N split splits fr = Ok (lcut, rcut)
                   /\ (0 <= lcut <= rcut)%Z /\ (rcut <= Z.of_nat N)%Z).
  { intros ->. exists 0%Z, (Z.of_nat N).
    split; [apply getSplitting_all | lia]. }
  destruct Hvalid as [Heq|Hv]; [now apply Hall|].
  destruct fr as [[ft fv] fe].
  destruct (getSplitting_named N _ _ _ Hv) as (Htr & Hva & Hte).
  destruct (cuts_ordered N _ _ _ Hv) as (H01 & H1N).
  cbn in Hmem.
  destruct Hmem as [<-|[<-|[<-|[<-|[]]]]]; [| | |now apply Hall].
  - eexists _, _. split; [exact Htr | lia].
  - eexists _, _. split; [exact Hva | lia].
  - eexists _, _. split; [exact Hte | lia].
Qed.

(** C1.  The shuffle-and-split step of [getData] gives the same cut
    boundaries and the same index array from whatever state the global
    generator is in, because it reseeds the generator first; hence two
    invocations of [getData] with the same arguments return the same
    result, whatever happened in between.  For a present tensor of [N]
    rows, a valid split configuration and a seed numpy accepts, the step
    succeeds, its boundaries are those of [getSplitting], and its index
    array is the draw of the freshly seeded generator, a permutation of
    [0, N). *)
Theorem seeded_shuffle_deterministic (particle_data : option tensor3)
    (jet_data : option tensor2) (split : string) (fr : Q * Q * Q) (seed : Z)
    (w1 w2 : world) :
  fst (shuffle_and_split particle_data jet_data split fr seed w1)
  = fst (shuffle_and_split particle_data jet_data split fr seed w2)
  /\ (forall jet_type data_dir particle_features jet_features num_particles,
        fst (getData jet_type data_dir particle_features jet_features
               num_particles split fr seed w1)
        = fst (getData jet_type data_dir particle_features jet_features
                 num_particles split fr seed w2))
  /\ (forall a,
        firstNotNoneElement
          [option_map Rank3 particle_data; option_map Rank2 jet_data] = Some a ->
        Py.mem split splits = true ->
        split = "all"%string \/ valid_fractions fr = true ->
        seed_accepted seed = true ->
        exists lcut rcut randperm,
          fst (shuffle_and_split particle_data jet_data split fr seed w1)
          = Ok (lcut, rcut, randperm)
          /\ fst (shuffle_and_split particle_data jet_data split fr seed w2)
             = Ok (lcut, rcut, randperm)
          /\ getSplitting (len a) split splits fr = Ok (lcut, rcut)
          /\ randperm = fst (permutation (seed_state seed) (len a))
          /\ Permutation randperm (seq 0 (len a))).
Proof.
  split; [apply independent_shuffle_and_split|].
  split; [intros; apply independent_getData|].
  intros a Ha Hmem Hvalid Hseed.
  destruct (getSplitting_valid (len a) split fr Hmem Hvalid)
    as (lcut & rcut & Hsplit & _).
  exists lcut, rcut, (fst (permutation (seed_state seed) (len a))).
  rewrite !shuffle_and_split_run, Ha, Hsplit, Hseed. cbn [fst].
  repeat split; try reflexivity. apply permutation_spec.
Qed.

End Shuffle.

(** ** File traffic *)

Section Traffic.

Import Utils JetNet View.
Context {S : RawSource} {G : Generator}.

Lemma appends_bind_lift {A B} (P : event -> Prop) (r : result A) (k : A -> M B) :
  (forall a, r = Ok a -> appends P (k a)) -> appends P (bind (lift r) k).
Proof.
  intros Hk w. unfold bind, lift.
  destruct r as [a|e]; [now apply Hk|].
  exists []. cbn. now rewrite app_nil_r.
Qed.

Lemma checkConvertElements_valid (elem : selection) (valid_types cats : list string) :
  checkConvertElements elem valid_types = Ok cats ->
  Forall (fun j => In j valid_types) cats.
Proof.
  unfold checkConvertElements. destruct elem as [name|names].
  - destruct (String.eqb name "all").
    + intros [= <-]. apply Forall_forall. auto.
    + destruct (Py.mem name valid_types) eqn:Hm; [|discriminate].
      intros [= <-]. constructor; [now apply mem_In | constructor].
  - destruct (forallb _ names); [|discriminate].
    intros [= <-]. apply Forall_forall. intros j Hj.
    now apply filter_In in Hj.
Qed.

Lemma record_lookup (use_150 : bool) :
  dict_get _zenodo_record_ids (if use_150 then "150" else "30")%string
  = Ok (record_of use_150).
Proof. destruct use_150; reflexivity. Qed.

Lemma appends_load_jet_type (P : event -> Prop) (data_dir : string)
    (pfeat jfeat : option (list string)) (up uj u150 : bool) (K : Z) (j : string) :
  P (request data_dir u150 j) -> (forall path, P (OpenFile path)) ->
  appends P (load_jet_type data_dir pfeat jfeat up uj u150 K j).
Proof.
  intros Hreq Hopen.
  unfold load_jet_type, checkDownloadZenodoDataset, h5py_File.
  apply appends_bind_lift. intros rid Hrid.
  rewrite record_lookup in Hrid. injection Hrid as <-.
  repeat (apply appends_bind; [|intros ?]); auto with jetnet.
  - now apply appends_log.
  - destruct (ensureLocal _ _ _ _); auto with jetnet.
  - now apply appends_log.
  - destruct (openFile _); auto with jetnet.
  - destruct up; auto with jetnet.
    apply appends_bind; auto with jetnet.
  - destruct uj; auto with jetnet.
    destruct (Py.index j jet_types); auto with jetnet.
    apply appends_bind; auto with jetnet.
Qed.

Lemma appends_load_jet_types (P : event -> Prop) (data_dir : string)
    (pfeat jfeat : option (list string)) (up uj u150 : bool) (K : Z)
    (jet_type : list string) :
  Forall (fun j => P (request data_dir u150 j)) jet_type ->
  (forall path, P (OpenFile path)) ->
  appends P (load_jet_types data_dir pfeat jfeat up uj u150 K jet_type).
Proof.
  intros Hreq Hopen.
  induction Hreq as [|j rest Hj Hrest IH]; cbn [load_jet_types];
    auto with jetnet.
  apply appends_bind; [now apply appends_load_jet_type|].
  intros [pf jf]. apply appends_bind; [exact IH|].
  intros [ps js]. auto with jetnet.
Qed.

(** What follows the loop leaves the trace alone. *)
Lemma appends_after_loading (P : event -> Prop) (up uj : bool)
    (split : string) (fr : Q * Q * Q) (seed : Z)
    (ps : list (option tensor3)) (js : list (option tensor2)) :
  appends P
    (bind (if up then bind (lift (Np.concatenate ps)) (fun t => ret (Some t))
           else ret None)
       (fun particle_data =>
          bind (if uj then bind (lift (Np.concatenate js)) (fun t => ret (Some t))
                else ret None)
            (fun jet_data =>
               bind (shuffle_and_split particle_data jet_data split fr seed)
                 (fun x =>
                    let '(lcut, rcut, randperm) := x in
                    bind (if up
                          then lift (Np.shuffle_slice particle_data randperm lcut rcut)
                          else ret particle_data)
                      (fun particle_data =>
                         bind (if uj
                               then lift (Np.shuffle_slice jet_data randperm lcut rcut)
                               else ret jet_data)
                           (fun jet_data => ret (particle_data, jet_data))))))).
Proof.
  apply appends_bind.
  { destruct up; auto with jetnet. apply appends_bind; auto with jetnet. }
  intros particle_data. apply appends_bind.
  { destruct uj; auto with jetnet. apply appends_bind; auto with jetnet. }
  intros jet_data. apply appends_bind.
  { unfold shuffle_and_split.
    repeat (apply appends_bind; [|intros ?]); auto with jetnet.
    - destruct (firstNotNoneElement _); auto with jetnet.
    - destruct a0 as [lcut rcut].
      repeat (apply appends_bind; [|intros ?]); auto with jetnet. }
  intros [[lcut rcut] randperm].
  apply appends_bind; [destruct up; auto with jetnet|].
  intros particle_data'.
  apply appends_bind; [destruct uj; auto with jetnet|].
  intros jet_data'. auto with jetnet.
Qed.

Lemma appends_getData (jet_type : selection) (data_dir : string)
    (particle_features jet_features : feature_arg) (num_particles : Z)
    (split : string) (fr : Q * Q * Q) (seed : Z) :
  appends (fetches (30 <? num_particles)%Z)
    (getData jet_type data_dir particle_features jet_features num_particles
       split fr seed).
Proof.
  unfold getData. apply appends_bind_lift. intros cats Hcats.
  apply checkConvertElements_valid in Hcats.
  apply appends_bind.
  - apply appends_load_jet_types; [|intros path; exact I].
    revert Hcats. apply Forall_impl. intros j Hj. cbn. now exists j.
  - intros [ps js]. apply appends_after_loading.
Qed.

Lemma starts_with_load_jet_type (data_dir : string)
    (pfeat jfeat : option (list string)) (up uj u150 : bool) (K : Z) (j : string) :
  starts_with (request data_dir u150 j)
    (load_jet_type data_dir pfeat jfeat up uj u150 K j).
Proof.
  unfold load_jet_type.
  eapply starts_with_lift; [apply record_lookup|].
  unfold checkDownloadZenodoDataset.
  apply starts_with_bind.
  - apply starts_with_log.
    destruct (ensureLocal _ _ _ _); auto with jetnet.
  - intros path. unfold h5py_File.
    repeat (apply appends_bind; [|intros ?]); auto with jetnet.
    + now apply appends_log.
    + destruct (openFile _); auto with jetnet.
    + destruct up; auto with jetnet.
      apply appends_bind; auto with jetnet.
    + destruct uj; auto with jetnet.
      destruct (Py.index j jet_types); auto with jetnet.
      apply appends_bind; auto with jetnet.
Qed.

Lemma starts_with_getData (jet_type : selection) (data_dir : string)
    (particle_features jet_features : feature_arg) (num_particles : Z)
    (split : string) (fr : Q * Q * Q) (seed : Z) (j : string) (rest : list string) :
  checkConvertElements jet_type jet_types = Ok (j :: rest) ->
  starts_with (request data_dir (30 <? num_particles)%Z j)
    (getData jet_type data_dir particle_features jet_features num_particles
       split fr seed).
Proof.
  intros Hcats. unfold getData.
  eapply starts_with_lift; [exact Hcats|].
  cbn [load_jet_types].
  apply starts_with_bind.
  - apply starts_with_bind; [apply starts_with_load_jet_type|].
    intros [pf jf]. apply appends_bind.
    + apply appends_load_jet_types; [|auto].
      apply Forall_forall. auto.
    + intros [ps js]. auto with jetnet.
  - intros [ps js]. apply appends_after_loading.
Qed.

End Traffic.

(** ** Reordering the feature channels *)

Section Reordering.

Import Utils JetNet View.

Lemma all_some_map {A B} (f : A -> option B) (g : A -> B) (l : list A) :
  (forall x, In x l -> f x = Some (g x)) ->
  Py.all_some (map f l) = Some (map g l).
Proof.
  induction l as [|x l IH]; intros Hfg; [reflexivity|].
  cbn. rewrite (Hfg x) by (left; reflexivity).
  rewrite IH by (intros y Hy; apply Hfg; now right). reflexivity.
Qed.

Lemma all_some_Some {A} (l : list A) : Py.all_some (map Some l) = Some l.
Proof.
  rewrite (all_some_map Some (fun x => x)) by reflexivity.
  now rewrite map_id.
Qed.

Lemma Forall_firstn {A} (P : A -> Prop) (n : nat) (l : list A) :
  Forall P l -> Forall P (firstn n l).
Proof.
  intros H. revert n. induction H; intros [|n]; cbn; constructor; auto.
Qed.

Lemma Forall_skipn {A} (P : A -> Prop) (n : nat) (l : list A) :
  Forall P l -> Forall P (skipn n l).
Proof.
  intros H. revert n. induction H; intros [|n]; cbn; auto.
Qed.

Lemma Forall_slice {A} (P : A -> Prop) (start stop : option Z) (l : list A) :
  Forall P l -> Forall P (Py.slice start stop l).
Proof.
  intros H. unfold Py.slice. now apply Forall_firstn, Forall_skipn.
Qed.

Lemma column_index (canonical : list string) (name : string) :
  In name canonical ->
  Py.index name canonical = Some (column canonical name)
  /\ (column canonical name < length canonical)%nat.
Proof.
  intros Hin. destruct (index_In _ _ Hin) as [i Hi].
  unfold column. rewrite Hi. split; [reflexivity|].
  apply (index_Some _ _ _ Hi).
Qed.

Lemma known_In (requested canonical : list string) :
  forallb (fun name => Py.mem name canonical) requested = true ->
  forall name, In name requested -> In name canonical.
Proof.
  intros Hall name Hin. rewrite forallb_forall in Hall.
  now apply mem_In, Hall.
Qed.

Lemma computePermutation_columns (requested canonical : list string) :
  forallb (fun name => Py.mem name canonical) requested = true ->
  computePermutation requested canonical
  = Some (map (column canonical) requested).
Proof.
  intros Hall. unfold computePermutation. apply all_some_map.
  intros name Hin. apply column_index. eapply known_In; eassumption.
Qed.

Lemma pick_select (requested canonical : list string) (r : row) :
  forallb (fun name => Py.mem name canonical) requested = true ->
  length r = length canonical ->
  pick (map (column canonical) requested) r = Some (select requested canonical r).
Proof.
  intros Hall Hlen. unfold pick, Py.take, select, feature.
  rewrite map_map. apply all_some_map.
  intros name Hin. apply nth_error_nth'. rewrite Hlen.
  apply column_index. eapply known_In; eassumption.
Qed.

Section Canonical.

Variable canonical : list string.
Hypothesis identity :
  forall r : row, length r = length canonical -> select canonical canonical r = r.

Lemma reorder_select (data : tensor2) (requested : list string) :
  forallb (fun name => Py.mem name canonical) requested = true ->
  Forall (fun r : row => length r = length canonical) data ->
  reorder data requested canonical = Ok (map (select requested canonical) data).
Proof.
  intros Hall Hlen. unfold reorder.
  destruct (Py.list_eqb requested canonical) eqn:Heq.
  - apply list_eqb_eq in Heq. subst requested. f_equal.
    induction Hlen as [|r data Hr Hdata IH]; [reflexivity|].
    cbn. now rewrite identity, <- IH.
  - rewrite computePermutation_columns by assumption.
    rewrite (all_some_map _ (select requested canonical)); [reflexivity|].
    intros r Hr. apply pick_select; [assumption|].
    rewrite Forall_forall in Hlen. now apply Hlen.
Qed.

Lemma getOrderedFeatures2_select (data : tensor2) (features : list string) :
  forallb (fun name => Py.mem name canonical) features = true ->
  Forall (fun r : row => length r = length canonical) data ->
  getOrderedFeatures2 data features canonical
  = Ok (map (select features canonical) data).
Proof.
  intros Hall Hlen. unfold getOrderedFeatures2, validate.
  rewrite Hall. now apply reorder_select.
Qed.

Lemma getOrderedFeatures3_select (data : tensor3) (features : list string) :
  forallb (fun name => Py.mem name canonical) features = true ->
  Forall (Forall (fun r : row => length r = length canonical)) data ->
  getOrderedFeatures3 data features canonical
  = Ok (map (map (select features canonical)) data).
Proof.
  intros Hall Hlen. unfold getOrderedFeatures3, validate.
  rewrite Hall.
  induction Hlen as [|example data Hex Hdata IH]; [reflexivity|].
  cbn [reorder_each map]. rewrite reorder_select by assumption.
  now rewrite IH.
Qed.

End Canonical.

Lemma unknown_feature2 (data : tensor2) (features canonical : list string) :
  forallb (fun name => Py.mem name canonical) features = false ->
  getOrderedFeatures2 data features canonical = Raise UnknownFeatureError.
Proof. intros H. unfold getOrderedFeatures2, validate. now rewrite H. Qed.

Lemma unknown_feature3 (data : tensor3) (features canonical : list string) :
  forallb (fun name => Py.mem name canonical) features = false ->
  getOrderedFeatures3 data features canonical = Raise UnknownFeatureError.
Proof. intros H. unfold getOrderedFeatures3, validate. now rewrite H. Qed.

Lemma particle_identity (r : row) :
  length r = length particle_features_order ->
  select particle_features_order particle_features_order r = r.
Proof.
  destruct r as [|a [|b [|c [|d [|e r]]]]]; try discriminate. reflexivity.
Qed.

Lemma jet_identity (r : row) :
  length r = length jet_features_order ->
  select jet_features_order jet_features_order r = r.
Proof.
  destruct r as [|a [|b [|c [|d [|e [|x r]]]]]]; try discriminate. reflexivity.
Qed.

Lemma labelled_length (c : nat) (K : Z) (r : row) :
  length r = 4%nat -> length (labelled c K r) = length jet_features_order.
Proof.
  destruct r as [|a [|b [|d [|e [|x r]]]]]; try discriminate. reflexivity.
Qed.

End Reordering.

(** ** Loading one jet type *)

Section LoadingRuns.

Import Utils JetNet View.
Context {S : RawSource} {G : Generator}.

Lemma checkDownloadZenodoDataset_run (data_dir dname : string) (rid : Z)
    (key : string) (w : world) :
  checkDownloadZenodoDataset data_dir dname rid key w
  = (match ensureLocal data_dir dname rid key with
     | Some path => Ok path
     | None => Raise RetrievalError
     end, logged w [Download data_dir dname rid key]).
Proof.
  unfold checkDownloadZenodoDataset, bind, log.
  destruct (ensureLocal _ _ _ _); reflexivity.
Qed.

Lemma h5py_File_run (path : string) (w : world) :
  h5py_File path w
  = (match openFile path with
     | Some f => Ok f
     | None => Raise RetrievalError
     end, logged w [OpenFile path]).
Proof.
  unfold h5py_File, bind, log. destruct (openFile _); reflexivity.
Qed.

Lemma logged_logged (w : world) (evs evs' : list event) :
  logged (logged w evs) evs' = logged w (evs ++ evs').
Proof. unfold logged. cbn. now rewrite app_assoc. Qed.

(** One iteration of the loop, when the file is retrievable. *)
Lemma load_jet_type_run (data_dir : string) (pfeat jfeat : option (list string))
    (up uj u150 : bool) (K : Z) (j path : string) (f : hdf5) (w : world) :
  available data_dir u150 j path f ->
  load_jet_type data_dir pfeat jfeat up uj u150 K j w
  = (processed pfeat jfeat up uj K j f,
     logged w [request data_dir u150 j; OpenFile path]).
Proof.
  intros [Hloc Hopen]. unfold key_of in Hloc.
  unfold load_jet_type. cbv zeta.
  erewrite bind_ok by (unfold lift; now rewrite record_lookup).
  erewrite bind_ok
    by (rewrite checkDownloadZenodoDataset_run; now rewrite Hloc).
  erewrite bind_ok by (rewrite h5py_File_run; now rewrite Hopen).
  rewrite logged_logged. cbn [app].
  unfold request, key_of, processed.
  set (w' := logged w _). unfold bind, lift, ret, raise.
  destruct up, uj;
    repeat match goal with
           | |- context [getOrderedFeatures3 ?a ?b ?c] =>
               destruct (getOrderedFeatures3 a b c)
           | |- context [Py.index ?a ?b] => destruct (Py.index a b)
           | |- context [getOrderedFeatures2 ?a ?b ?c] =>
               destruct (getOrderedFeatures2 a b c)
           end; reflexivity.
Qed.

End LoadingRuns.

(** ** The loop over jet types *)

Section Loop.

Import Utils JetNet View.
Context {S : RawSource} {G : Generator}.

Lemma processed_ok (pfeat jfeat : option (list string)) (up uj : bool)
    (K : Z) (j : string) (f : hdf5) :
  (up = true ->
   forallb (fun name => Py.mem name particle_features_order) (names pfeat) = true
   /\ Forall (Forall (fun r : row => length r = 4%nat)) (Hdf5.particle_features f)) ->
  (uj = true ->
   In j jet_types
   /\ forallb (fun name => Py.mem name jet_features_order) (names jfeat) = true
   /\ Forall (fun r : row => length r = 4%nat) (Hdf5.jet_features f)) ->
  processed pfeat jfeat up uj K j f
  = Ok (if up then Some (particle_block (names pfeat) K f) else None,
        if uj then Some (jet_block (names jfeat) K j f) else None).
Proof.
  intros Hp Hj. unfold processed.
  assert (Hpart :
    (if up
     then match getOrderedFeatures3 (truncate K (Hdf5.particle_features f))
                  (names pfeat) particle_features_order with
          | Ok pf => Ok (Some pf)
          | Raise e => Raise e
          end
     else Ok None)
    = Ok (if up then Some (particle_block (names pfeat) K f) else None)).
  { destruct up; [|reflexivity]. destruct (Hp eq_refl) as [Hknown Hrows].
    rewrite (getOrderedFeatures3_select _ particle_identity) by
      (try assumption; unfold truncate; apply Forall_map;
       revert Hrows; apply Forall_impl; intros example;
       apply Forall_slice).
    unfold particle_block, truncate. now rewrite map_map. }
  rewrite Hpart. clear Hpart.
  destruct uj; [|reflexivity]. destruct (Hj eq_refl) as (Hin & Hknown & Hrows).
  destruct (column_index _ _ Hin) as [Hc _]. rewrite Hc.
  rewrite add_class_index_rows.
  rewrite (getOrderedFeatures2_select _ jet_identity) by
    (try assumption; apply Forall_map; revert Hrows; apply Forall_impl;
     intros r; apply labelled_length).
  unfold jet_block, class_of. now rewrite map_map.
Qed.

(** The loop, when every file is retrievable and every iteration
    succeeds with the value [out] gives. *)
Lemma load_jet_types_run (data_dir : string) (pfeat jfeat : option (list string))
    (up uj u150 : bool) (K : Z) (loaded : list (string * hdf5))
    (out : string * hdf5 -> option tensor3 * option tensor2) :
  Forall (fun jf => exists path, available data_dir u150 (fst jf) path (snd jf))
    loaded ->
  Forall (fun jf => processed pfeat jfeat up uj K (fst jf) (snd jf) = Ok (out jf))
    loaded ->
  forall w, exists evs,
    load_jet_types data_dir pfeat jfeat up uj u150 K (map fst loaded) w
    = (Ok (map (fun jf => fst (out jf)) loaded,
           map (fun jf => snd (out jf)) loaded), logged w evs).
Proof.
  intros Havail. induction Havail as [|[j f] loaded [path Hjf] _ IH];
    intros Hout w.
  - exists []. cbn. unfold ret, logged. rewrite app_nil_r.
    now destruct w.
  - inversion Hout as [|? ? Hhead Htail]; subst. cbn [fst snd] in *.
    cbn [map load_jet_types fst].
    erewrite bind_ok by (rewrite (load_jet_type_run _ _ _ _ _ _ _ _ _ _ _ Hjf);
                         rewrite Hhead; reflexivity).
    destruct (out (j, f)) as [pf jf0] eqn:Hjout.
    destruct (IH Htail (logged w [request data_dir u150 j; OpenFile path]))
      as (evs & Hrun).
    erewrite bind_ok by exact Hrun.
    rewrite logged_logged. eexists. cbn [fst snd]. reflexivity.
Qed.

Lemma concatenate_Some {A} (ts : list (list A)) :
  ts <> [] -> Np.concatenate (map Some ts) = Ok (concat ts).
Proof.
  intros Hne. unfold Np.concatenate.
  rewrite all_some_Some. destruct ts; [congruence | reflexivity].
Qed.

End Loop.

(** ** Assembling the dataset *)

Section Assembly.

Import Utils JetNet View.
Context {S : RawSource} {G : Generator}.

Lemma take_nth {A} (t : list (list A)) (idx : list nat) :
  Forall (fun i => (i < length t)%nat) idx ->
  Py.take t idx = Some (map (fun i => nth i t []) idx).
Proof.
  intros Hidx. unfold Py.take. apply all_some_map.
  intros i Hi. apply nth_error_nth'.
  rewrite Forall_forall in Hidx. now apply Hidx.
Qed.

Lemma permutation_in_range (randperm : list nat) (N : nat) :
  Permutation randperm (seq 0 N) -> Forall (fun i => (i < N)%nat) randperm.
Proof.
  intros Hperm. apply Forall_forall. intros i Hi.
  apply (Permutation_in _ Hperm), in_seq in Hi. lia.
Qed.

Lemma shuffle_slice_ok {A} (t : list (list A)) (randperm : list nat)
    (lcut rcut : Z) :
  Permutation randperm (seq 0 (length t)) ->
  Np.shuffle_slice (Some t) randperm lcut rcut
  = Ok (Some (shuffled randperm lcut rcut t)).
Proof.
  intros Hperm. unfold Np.shuffle_slice.
  rewrite take_nth by now apply permutation_in_range. reflexivity.
Qed.

Lemma shuffle_slice_run {A} (t : list (list A)) (randperm : list nat)
    (lcut rcut : Z) (N : nat) (w : world) :
  length t = N -> Permutation randperm (seq 0 N) ->
  lift (Np.shuffle_slice (Some t) randperm lcut rcut) w
  = (Ok (Some (shuffled randperm lcut rcut t)), w).
Proof.
  intros <- Hperm. unfold lift. now rewrite shuffle_slice_ok.
Qed.

Lemma concatenate_run {A} (ts : list (list A)) (w : world) :
  ts <> [] ->
  bind (lift (Np.concatenate (map Some ts))) (fun t => ret (Some t)) w
  = (Ok (Some (concat ts)), w).
Proof.
  intros Hne. unfold bind, lift. now rewrite concatenate_Some.
Qed.

Lemma jet_rows_length (requested : list string) (K : Z)
    (loaded : list (string * hdf5)) :
  length (jet_rows requested K loaded) = total loaded.
Proof.
  unfold jet_rows, total. rewrite length_concat, map_map. f_equal.
  apply map_ext. intros [j f]. unfold jet_block. apply length_map.
Qed.

Lemma particle_rows_length (requested : list string) (K : Z)
    (loaded : list (string * hdf5)) :
  Forall (fun jf => well_formed (snd jf)) loaded ->
  length (particle_rows requested K loaded) = total loaded.
Proof.
  intros Hwf. unfold particle_rows, total. rewrite length_concat, map_map.
  f_equal. apply map_ext_in. intros [j f] Hin.
  rewrite Forall_forall in Hwf. destruct (Hwf _ Hin) as (Hlen & _).
  unfold particle_block. rewrite length_map. exact Hlen.
Qed.

(** [getData] on a request whose files are retrievable and well formed
    and whose feature names are known. *)
Lemma getData_run (jet_type : selection) (data_dir : string)
    (particle_features jet_features : feature_arg) (num_particles : Z)
    (split : string) (fr : Q * Q * Q) (seed : Z)
    (loaded : list (string * hdf5)) (w : world) :
  let pfeat := checkStrToList particle_features in
  let jfeat := checkStrToList jet_features in
  let up := checkListNotEmpty pfeat in
  let uj := checkListNotEmpty jfeat in
  let N := total loaded in
  checkConvertElements jet_type jet_types = Ok (map fst loaded) ->
  loaded <> [] ->
  Forall (fun jf => exists path,
            available data_dir (30 <? num_particles)%Z (fst jf) path (snd jf))
    loaded ->
  Forall (fun jf => well_formed (snd jf)) loaded ->
  forallb (fun name => Py.mem name particle_features_order) (names pfeat) = true ->
  forallb (fun name => Py.mem name jet_features_order) (names jfeat) = true ->
  up || uj = true ->
  Py.mem split splits = true ->
  split = "all"%string \/ valid_fractions fr = true ->
  seed_accepted seed = true ->
  exists lcut rcut,
    getSplitting N split splits fr = Ok (lcut, rcut)
    /\ (0 <= lcut <= rcut)%Z /\ (rcut <= Z.of_nat N)%Z
    /\ fst (getData jet_type data_dir particle_features jet_features
              num_particles split fr seed w)
       = Ok (if up
             then Some (shuffled (fst (permutation (seed_state seed) N)) lcut rcut
                          (particle_rows (names pfeat) num_particles loaded))
             else None,
             if uj
             then Some (shuffled (fst (permutation (seed_state seed) N)) lcut rcut
                          (jet_rows (names jfeat) num_particles loaded))
             else None).
Proof.
  intros pfeat jfeat up uj N Hcats Hne Havail Hwf Hpk Hjk Huse Hmem Hvalid Hseed.
  destruct (getSplitting_valid N split fr Hmem Hvalid)
    as (lcut & rcut & Hsplit & Hlr & HrN).
  exists lcut, rcut. split; [exact Hsplit|]. split; [exact Hlr|].
  split; [exact HrN|].
  pose proof (checkConvertElements_valid _ _ _ Hcats) as Hin.
  rewrite Forall_map in Hin.
  assert (Hout : Forall
            (fun jf => processed pfeat jfeat up uj num_particles (fst jf) (snd jf)
                       = Ok (if up then Some (particle_block (names pfeat)
                                                num_particles (snd jf)) else None,
                             if uj then Some (jet_block (names jfeat)
                                                num_particles (fst jf) (snd jf))
                             else None))
            loaded).
  { rewrite Forall_forall in *. intros jf Hjf.
    destruct (Hwf jf Hjf) as (_ & Hprows & Hjrows).
    apply processed_ok; intros _; auto. }
  destruct (load_jet_types_run data_dir pfeat jfeat up uj (30 <? num_particles)%Z
              num_particles loaded _ Havail Hout w) as (evs & Hrun).
  unfold getData. fold pfeat jfeat. fold up uj.
  erewrite bind_ok by (unfold lift; rewrite Hcats; reflexivity).
  erewrite bind_ok by exact Hrun.
  cbn [fst snd].
  pose proof (particle_rows_length (names pfeat) num_particles loaded Hwf) as HlenP.
  pose proof (jet_rows_length (names jfeat) num_particles loaded) as HlenJ.
  fold N in HlenP, HlenJ.
  assert (HneP : map (fun jf : string * hdf5 =>
                        particle_block (names pfeat) num_particles (snd jf)) loaded
                 <> []) by (destruct loaded; [congruence | discriminate]).
  assert (HneJ : map (fun jf : string * hdf5 =>
                        jet_block (names jfeat) num_particles (fst jf) (snd jf)) loaded
                 <> []) by (destruct loaded; [congruence | discriminate]).
  pose proof (permutation_spec (seed_state seed) N) as Hperm.
  destruct up, uj; try discriminate Huse.
  - rewrite <- (map_map (fun jf => particle_block _ _ (snd jf)) Some).
    rewrite <- (map_map (fun jf => jet_block _ _ (fst jf) (snd jf)) Some).
    erewrite bind_ok by (apply concatenate_run; exact HneP).
    erewrite bind_ok by (apply concatenate_run; exact HneJ).
    fold (particle_rows (names pfeat) num_particles loaded).
    fold (jet_rows (names jfeat) num_particles loaded).
    erewrite bind_ok
      by (rewrite shuffle_and_split_run; cbn [firstNotNoneElement option_map len];
          rewrite HlenP, Hsplit, Hseed; reflexivity).
    cbv beta iota.
    erewrite bind_ok by (apply (shuffle_slice_run _ _ _ _ N); assumption).
    erewrite bind_ok by (apply (shuffle_slice_run _ _ _ _ N); assumption).
    reflexivity.
  - rewrite <- (map_map (fun jf => particle_block _ _ (snd jf)) Some).
    erewrite bind_ok by (apply concatenate_run; exact HneP).
    erewrite bind_ok by reflexivity.
    fold (particle_rows (names pfeat) num_particles loaded).
    erewrite bind_ok
      by (rewrite shuffle_and_split_run; cbn [firstNotNoneElement option_map len];
          rewrite HlenP, Hsplit, Hseed; reflexivity).
    cbv beta iota.
    erewrite bind_ok by (apply (shuffle_slice_run _ _ _ _ N); assumption).
    erewrite bind_ok by reflexivity.
    reflexivity.
  - rewrite <- (map_map (fun jf => jet_block _ _ (fst jf) (snd jf)) Some).
    erewrite bind_ok by reflexivity.
    erewrite bind_ok by (apply concatenate_run; exact HneJ).
    fold (jet_rows (names jfeat) num_particles loaded).
    erewrite bind_ok
      by (rewrite shuffle_and_split_run; cbn [firstNotNoneElement option_map len];
          rewrite HlenJ, Hsplit, Hseed; reflexivity).
    cbv beta iota.
    erewrite bind_ok by reflexivity.
    erewrite bind_ok by (apply (shuffle_slice_run _ _ _ _ N); assumption).
    reflexivity.
Qed.

End Assembly.

(** ** Where the returned rows come from *)

Section Provenance.

Import Utils JetNet View.

Lemma nth_error_slice {A} (start stop : option Z) (xs : list A) (i : nat) :
  let n := length xs in
  let a := match start with None => 0%nat | Some k => Py.bound n k end in
  let b := match stop with None => n | Some k => Py.bound n k end in
  nth_error (Py.slice start stop xs) i
  = if (i <? b - a)%nat then nth_error xs (a + i) else None.
Proof.
  intros n a b. unfold Py.slice. fold n. fold a. fold b.
  rewrite nth_error_firstn, nth_error_skipn. reflexivity.
Qed.

(** The same position of two tensors shuffled alike holds the rows of
    one and the same position before the shuffle. *)
Lemma shuffled_aligned {A B} (randperm : list nat) (lcut rcut : Z)
    (t1 : list (list A)) (t2 : list (list B)) (i : nat)
    (x : list A) (y : list B) :
  nth_error (shuffled randperm lcut rcut t1) i = Some x ->
  nth_error (shuffled randperm lcut rcut t2) i = Some y ->
  exists g, In g randperm /\ x = nth g t1 [] /\ y = nth g t2 [].
Proof.
  unfold shuffled. rewrite !nth_error_slice. cbv zeta.
  rewrite !length_map.
  destruct (_ <? _)%nat; [|discriminate].
  rewrite !nth_error_map.
  destruct (nth_error randperm _) as [g|] eqn:Hg; [|discriminate].
  cbn. intros [= <-] [= <-]. exists g.
  split; [eapply nth_error_In; eassumption | split; reflexivity].
Qed.

Lemma shuffled_length {A B} (randperm : list nat) (lcut rcut : Z)
    (t1 : list (list A)) (t2 : list (list B)) :
  length (shuffled randperm lcut rcut t1)
  = length (shuffled randperm lcut rcut t2).
Proof.
  unfold shuffled, Py.slice.
  rewrite !length_firstn, !length_skipn, !length_map. reflexivity.
Qed.

Lemma shuffled_In {A} (randperm : list nat) (lcut rcut : Z) (t : list (list A)) :
  Forall (fun i => (i < length t)%nat) randperm ->
  Forall (fun x => In x t) (shuffled randperm lcut rcut t).
Proof.
  intros Hidx. unfold shuffled. apply Forall_slice, Forall_map.
  revert Hidx. apply Forall_impl. intros i Hi. now apply nth_In.
Qed.

(** Position [g] of two concatenations built block by block from the
    same list, with blocks of equal lengths, falls into the blocks of
    the same element at the same offset. *)
Lemma concat_map_aligned {X A B} (F : X -> list A) (H : X -> list B)
    (l : list X) (g : nat) :
  (forall x, In x l -> length (F x) = length (H x)) ->
  (g < length (concat (map F l)))%nat ->
  exists x k a b,
    In x l /\ nth_error (F x) k = Some a /\ nth_error (H x) k = Some b
    /\ nth_error (concat (map F l)) g = Some a
    /\ nth_error (concat (map H l)) g = Some b.
Proof.
  revert g. induction l as [|x l IH]; intros g Hlen Hg; cbn in Hg; [lia|].
  cbn [map concat]. rewrite !nth_error_app.
  rewrite <- (Hlen x) by (left; reflexivity).
  destruct (Nat.ltb_spec g (length (F x))) as [Hlt|Hge].
  - destruct (nth_error (F x) g) as [a|] eqn:Ha;
      [|apply nth_error_None in Ha; lia].
    destruct (nth_error (H x) g) as [b|] eqn:Hb;
      [|apply nth_error_None in Hb; rewrite <- (Hlen x) in Hb by (left; reflexivity); lia].
    exists x, g, a, b. repeat split; auto. now left.
  - rewrite length_app in Hg.
    destruct (IH (g - length (F x))%nat) as (x' & k & a & b & Hin & Ha & Hb & Hca & Hcb).
    + intros y Hy. apply Hlen. now right.
    + lia.
    + exists x', k, a, b. repeat split; auto. now right.
Qed.

Lemma particle_block_nth (requested : list string) (K : Z) (f : hdf5)
    (k : nat) (p : list row) :
  nth_error (particle_block requested K f) k = Some p ->
  exists raw, nth_error (Hdf5.particle_features f) k = Some raw
              /\ p = particle_example requested K raw.
Proof.
  unfold particle_block. rewrite nth_error_map.
  destruct (nth_error _ k) as [raw|]; [|discriminate].
  intros [= <-]. now exists raw.
Qed.

Lemma jet_block_nth (requested : list string) (K : Z) (j : string) (f : hdf5)
    (k : nat) (r : row) :
  nth_error (jet_block requested K j f) k = Some r ->
  exists raw, nth_error (Hdf5.jet_features f) k = Some raw
              /\ r = jet_example requested K j raw.
Proof.
  unfold jet_block. rewrite nth_error_map.
  destruct (nth_error _ k) as [raw|]; [|discriminate].
  intros [= <-]. now exists raw.
Qed.

Lemma jet_rows_In (requested : list string) (K : Z)
    (loaded : list (string * hdf5)) (r : row) :
  In r (jet_rows requested K loaded) ->
  exists j f raw, In (j, f) loaded /\ In raw (Hdf5.jet_features f)
                  /\ r = jet_example requested K j raw.
Proof.
  unfold jet_rows. rewrite in_concat. intros (block & Hblock & Hr).
  apply in_map_iff in Hblock. destruct Hblock as ([j f] & <- & Hjf).
  unfold jet_block in Hr. apply in_map_iff in Hr.
  destruct Hr as (raw & <- & Hraw). now exists j, f, raw.
Qed.

Lemma particle_rows_In (requested : list string) (K : Z)
    (loaded : list (string * hdf5)) (p : list row) :
  In p (particle_rows requested K loaded) ->
  exists j f raw, In (j, f) loaded /\ In raw (Hdf5.particle_features f)
                  /\ p = particle_example requested K raw.
Proof.
  unfold particle_rows. rewrite in_concat. intros (block & Hblock & Hp).
  apply in_map_iff in Hblock. destruct Hblock as ([j f] & <- & Hjf).
  unfold particle_block in Hp. apply in_map_iff in Hp.
  destruct Hp as (raw & <- & Hraw). now exists j, f, raw.
Qed.

End Provenance.

(** ** Guarantees of [getData] *)

Section Guarantees.

Import Utils JetNet View.
Context {S : RawSource} {G : Generator}.

Lemma names_empty (features : option (list string)) :
  checkListNotEmpty features = false -> names features = [].
Proof. destruct features as [[|x l]|]; [reflexivity | discriminate | reflexivity]. Qed.

Lemma names_requested (features : option (list string)) (name : string) :
  In name (names features) -> checkListNotEmpty features = true.
Proof. destruct features as [[|x l]|]; cbn; tauto. Qed.

Lemma unknown_not_known (requested canonical : list string) (name : string) :
  In name requested -> ~ In name canonical -> known requested canonical = false.
Proof.
  intros Hin Hnot. unfold known.
  destruct (forallb _ requested) eqn:Hall; [|reflexivity].
  exfalso. apply Hnot. eapply known_In; eassumption.
Qed.

(** C3.  When both kinds of features are requested, the files are
    retrievable and well formed, the names are known and the split
    configuration and seed are valid, [getData] returns both tensors;
    both are the concatenated per-type arrays picked by one and the same
    index array and cut by one and the same [lcut, rcut); they have the
    same number of rows, and row [i] of the particle tensor and row [i]
    of the jet tensor are built from row [k] of the two arrays of one
    and the same file. *)
Theorem rows_stay_aligned (jet_type : selection) (data_dir : string)
    (particle_features jet_features : feature_arg) (num_particles : Z)
    (split : string) (fr : Q * Q * Q) (seed : Z)
    (loaded : list (string * hdf5)) (w : world) :
  let pfeat := names (checkStrToList particle_features) in
  let jfeat := names (checkStrToList jet_features) in
  checkListNotEmpty (checkStrToList particle_features) = true ->
  checkListNotEmpty (checkStrToList jet_features) = true ->
  checkConvertElements jet_type jet_types = Ok (map fst loaded) ->
  loaded <> [] ->
  retrievable data_dir (30 <? num_particles)%Z loaded ->
  known pfeat particle_features_order = true ->
  known jfeat jet_features_order = true ->
  valid_split split fr ->
  seed_accepted seed = true ->
  exists randperm lcut rcut P J,
    fst (getData jet_type data_dir particle_features jet_features
           num_particles split fr seed w) = Ok (Some P, Some J)
    /\ P = shuffled randperm lcut rcut (particle_rows pfeat num_particles loaded)
    /\ J = shuffled randperm lcut rcut (jet_rows jfeat num_particles loaded)
    /\ length P = length J
    /\ forall i p r,
         nth_error P i = Some p -> nth_error J i = Some r ->
         exists j f k rawp rawj,
           In (j, f) loaded
           /\ nth_error (Hdf5.particle_features f) k = Some rawp
           /\ nth_error (Hdf5.jet_features f) k = Some rawj
           /\ p = particle_example pfeat num_particles rawp
           /\ r = jet_example jfeat num_particles j rawj.
Proof.
  intros pfeat jfeat Hup Huj Hcats Hne [Havail Hwf] Hpk Hjk [Hmem Hvalid] Hseed.
  destruct (getData_run jet_type data_dir particle_features jet_features
              num_particles split fr seed loaded w Hcats Hne Havail Hwf Hpk Hjk)
    as (lcut & rcut & _ & _ & _ & Hrun); try assumption.
  { now rewrite Hup. }
  rewrite Hup, Huj in Hrun. fold pfeat jfeat in Hrun.
  set (randperm := fst (permutation (seed_state seed) (total loaded))) in *.
  exists randperm, lcut, rcut.
  eexists _, _. split; [exact Hrun|].
  split; [reflexivity|]. split; [reflexivity|].
  split; [apply shuffled_length|].
  intros i p r Hp Hr.
  destruct (shuffled_aligned _ _ _ _ _ _ _ _ Hp Hr) as (g & Hg & -> & ->).
  pose proof (permutation_in_range _ _ (permutation_spec (seed_state seed) (total loaded)))
    as Hrange.
  rewrite Forall_forall in Hrange. specialize (Hrange g Hg).
  rewrite <- (particle_rows_length pfeat num_particles loaded Hwf) in Hrange.
  destruct (concat_map_aligned
              (fun jf : string * hdf5 => particle_block pfeat num_particles (snd jf))
              (fun jf : string * hdf5 => jet_block jfeat num_particles (fst jf) (snd jf))
              loaded g) as ([j f] & k & a & b & Hin & Ha & Hb & Hca & Hcb).
  { intros [j f] Hin. rewrite Forall_forall in Hwf.
    destruct (Hwf _ Hin) as (Hlen & _). cbn [fst snd] in *.
    unfold particle_block, jet_block. now rewrite !length_map. }
  { exact Hrange. }
  cbn [fst snd] in *.
  apply particle_block_nth in Ha. destruct Ha as (rawp & Hrawp & ->).
  apply jet_block_nth in Hb. destruct Hb as (rawj & Hrawj & ->).
  exists j, f, k, rawp, rawj.
  split; [exact Hin|]. split; [exact Hrawp|]. split; [exact Hrawj|].
  split.
  - now apply nth_error_nth.
  - now apply nth_error_nth.
Qed.

(** C9.  With an empty or absent particle feature list and a
    non-empty jet feature list (files retrievable and well formed,
    names known, valid split and seed), [getData] returns no particle
    tensor and a jet tensor; every row of the jet tensor lists, in the
    order of the requested feature list, the values of the requested
    features of one raw jet (its label first in the canonical order,
    its tail bounded by the cap). *)
Theorem jet_features_only (jet_type : selection) (data_dir : string)
    (particle_features jet_features : feature_arg) (num_particles : Z)
    (split : string) (fr : Q * Q * Q) (seed : Z)
    (loaded : list (string * hdf5)) (w : world) :
  let jfeat := names (checkStrToList jet_features) in
  checkListNotEmpty (checkStrToList particle_features) = false ->
  checkListNotEmpty (checkStrToList jet_features) = true ->
  checkConvertElements jet_type jet_types = Ok (map fst loaded) ->
  loaded <> [] ->
  retrievable data_dir (30 <? num_particles)%Z loaded ->
  known jfeat jet_features_order = true ->
  valid_split split fr ->
  seed_accepted seed = true ->
  exists J,
    fst (getData jet_type data_dir particle_features jet_features
           num_particles split fr seed w) = Ok (None, Some J)
    /\ Forall (fun r : row =>
                 exists j f raw,
                   In (j, f) loaded /\ In raw (Hdf5.jet_features f)
                   /\ r = map (fun name =>
                                 feature jet_features_order name
                                   (labelled (class_of j) num_particles raw))
                              jfeat)
         J.
Proof.
  intros jfeat Hup Huj Hcats Hne [Havail Hwf] Hjk [Hmem Hvalid] Hseed.
  destruct (getData_run jet_type data_dir particle_features jet_features
              num_particles split fr seed loaded w Hcats Hne Havail Hwf)
    as (lcut & rcut & _ & _ & _ & Hrun); try assumption.
  { now rewrite (names_empty _ Hup). }
  { now rewrite Huj, orb_true_r. }
  rewrite Hup, Huj in Hrun. fold jfeat in Hrun.
  eexists. split; [exact Hrun|].
  eapply Forall_impl; [|apply shuffled_In].
  - intros r Hr. apply jet_rows_In in Hr. exact Hr.
  - rewrite jet_rows_length. apply permutation_in_range, permutation_spec.
Qed.

(** C10.  An element cap above 150 is not rejected: for a valid request
    (at least one kind of features requested, the 150-particle files
    retrievable and well formed, names known, valid split and seed)
    [getData] returns the requested tensors.  Every returned particle
    example keeps [min cap n] of the [n] elements of its raw example,
    and every returned jet row is built with the oversized cap itself
    as the bound of its tail. *)
Theorem cap_above_150_accepted (jet_type : selection) (data_dir : string)
    (particle_features jet_features : feature_arg) (num_particles : Z)
    (split : string) (fr : Q * Q * Q) (seed : Z)
    (loaded : list (string * hdf5)) (w : world) :
  let pfeat := names (checkStrToList particle_features) in
  let jfeat := names (checkStrToList jet_features) in
  let up := checkListNotEmpty (checkStrToList particle_features) in
  let uj := checkListNotEmpty (checkStrToList jet_features) in
  (150 < num_particles)%Z ->
  up || uj = true ->
  checkConvertElements jet_type jet_types = Ok (map fst loaded) ->
  loaded <> [] ->
  retrievable data_dir true loaded ->
  known pfeat particle_features_order = true ->
  known jfeat jet_features_order = true ->
  valid_split split fr ->
  seed_accepted seed = true ->
  exists P J,
    fst (getData jet_type data_dir particle_features jet_features
           num_particles split fr seed w)
    = Ok (if up then Some P else None, if uj then Some J else None)
    /\ Forall (fun p : list row =>
                 exists j f raw,
                   In (j, f) loaded /\ In raw (Hdf5.particle_features f)
                   /\ p = map (select pfeat particle_features_order)
                            (firstn (Z.to_nat num_particles) raw)
                   /\ length p = Nat.min (Z.to_nat num_particles) (length raw))
         P
    /\ Forall (fun r : row =>
                 exists j f raw,
                   In (j, f) loaded /\ In raw (Hdf5.jet_features f)
                   /\ r = select jfeat jet_features_order
                            (inject_Z (Z.of_nat (class_of j))
                             :: firstn 3 raw
                                ++ map (fun v => Qmin v (inject_Z num_particles))
                                     (skipn 3 raw)))
         J.
Proof.
  intros pfeat jfeat up uj HK Huse Hcats Hne [Havail Hwf] Hpk Hjk
    [Hmem Hvalid] Hseed.
  assert (H150 : (30 <? num_particles)%Z = true) by (apply Z.ltb_lt; lia).
  rewrite <- H150 in Havail.
  destruct (getData_run jet_type data_dir particle_features jet_features
              num_particles split fr seed loaded w Hcats Hne Havail Hwf Hpk Hjk
              Huse Hmem Hvalid Hseed)
    as (lcut & rcut & _ & _ & _ & Hrun).
  fold pfeat jfeat up uj in Hrun.
  pose proof (permutation_in_range _ _
                (permutation_spec (seed_state seed) (total loaded))) as Hrange.
  eexists _, _. split; [exact Hrun|]. split.
  - eapply Forall_impl; [|apply shuffled_In].
    + intros p Hp. apply particle_rows_In in Hp.
      destruct Hp as (j & f & raw & Hin & Hraw & ->).
      exists j, f, raw. split; [exact Hin|]. split; [exact Hraw|].
      unfold particle_example. rewrite slice_prefix by lia.
      split; [reflexivity|]. rewrite length_map. apply length_firstn.
    + now rewrite particle_rows_length.
  - eapply Forall_impl; [|apply shuffled_In].
    + intros r Hr. apply jet_rows_In in Hr. exact Hr.
    + now rewrite jet_rows_length.
Qed.

End Guarantees.

(** ** Failing requests *)

Section Failures.

Import Utils JetNet View.
Context {S : RawSource} {G : Generator}.

(** C6, as the code has it.  For a request that names a feature absent
    from the canonical order of its kind, with at least one valid jet
    type selected and the file of the first one retrievable and well
    formed, [getData] raises [UnknownFeatureError] while it reorders the
    arrays of the first jet type: by then it has requested that type's
    file and opened it, and it has touched no other file. *)
Theorem unknown_feature_after_first_file (jet_type : selection)
    (data_dir : string) (particle_features jet_features : feature_arg)
    (num_particles : Z) (split : string) (fr : Q * Q * Q) (seed : Z)
    (j : string) (rest : list string) (path : string) (f : hdf5) (w : world) :
  unknown_requested particle_features jet_features ->
  checkConvertElements jet_type jet_types = Ok (j :: rest) ->
  available data_dir (30 <? num_particles)%Z j path f ->
  well_formed f ->
  getData jet_type data_dir particle_features jet_features num_particles
    split fr seed w
  = (Raise UnknownFeatureError,
     logged w [request data_dir (30 <? num_particles)%Z j; OpenFile path]).
Proof.
  intros Hunknown Hcats Havail (_ & Hprows & Hjrows).
  unfold unknown_requested in Hunknown.
  pose proof (checkConvertElements_valid _ _ _ Hcats) as Hin.
  inversion Hin as [|? ? Hj _]; subst.
  unfold getData.
  erewrite bind_ok by (unfold lift; rewrite Hcats; reflexivity).
  cbn [load_jet_types].
  set (pfeat := checkStrToList particle_features) in *.
  set (jfeat := checkStrToList jet_features) in *.
  assert (Hproc : processed pfeat jfeat (checkListNotEmpty pfeat)
                    (checkListNotEmpty jfeat) num_particles j f
                  = Raise UnknownFeatureError).
  { unfold processed.
    destruct (known (names pfeat) particle_features_order) eqn:Hpk.
    - (* the particle names are known: the jet list has the unknown name *)
      destruct Hunknown as [(name & Hname & Hnot)|(name & Hname & Hnot)].
      { rewrite (unknown_not_known _ _ _ Hname Hnot) in Hpk. discriminate. }
      rewrite (names_requested _ _ Hname).
      destruct (column_index _ _ Hj) as [Hc _]. rewrite Hc.
      rewrite (unknown_feature2 _ _ _ (unknown_not_known _ _ _ Hname Hnot)).
      destruct (checkListNotEmpty pfeat); [|reflexivity].
      rewrite (getOrderedFeatures3_select _ particle_identity); [reflexivity | exact Hpk |].
      unfold truncate. apply Forall_map. revert Hprows.
      apply Forall_impl. intros example. apply Forall_slice.
    - (* an unknown particle name: the particle list is requested *)
      assert (Hup : checkListNotEmpty pfeat = true).
      { destruct pfeat as [[|x l]|]; try discriminate Hpk; reflexivity. }
      rewrite Hup. now rewrite (unknown_feature3 _ _ _ Hpk). }
  erewrite bind_raise; [reflexivity|].
  erewrite bind_raise; [reflexivity|].
  rewrite (load_jet_type_run _ _ _ _ _ _ _ _ _ _ _ Havail), Hproc. reflexivity.
Qed.

End Failures.

Section Examples.

Import Utils JetNet View Sample.

(** C6, as stated, fails: for the request of the gluon file with the
    unknown particle feature [bogus], [getData] has already requested
    and opened [g.hdf5] when it raises the error. *)
Lemma validation_follows_io : ~ validated_before_io.
Proof.
  intros Hclaim.
  destruct (Hclaim source generator (One "g") "./"%string
              (FeatureList ["bogus"%string]) NoFeatures 30%Z "train"%string
              (7 # 10, 15 # 100, 15 # 100) 42%Z w0) as [_ Htrace].
  - left. exists "bogus"%string. split; [now left|].
    cbn. intros Hin. repeat destruct Hin as [Hin|Hin]; try discriminate Hin.
    exact Hin.
  - vm_compute in Htrace. discriminate Htrace.
Qed.

(** The scenario of the specification: 150 rows, fractions
    (0.7, 0.15, 0.15). *)
Example split_150_rows :
  getSplitting 150 "train" splits fractions = Ok (0%Z, 105%Z)
  /\ getSplitting 150 "valid" splits fractions = Ok (105%Z, 128%Z)
  /\ getSplitting 150 "test" splits fractions = Ok (128%Z, 150%Z).
Proof. repeat split; reflexivity. Qed.

Example round_ties :
  map round [1 # 2; 3 # 2; 5 # 2; - (1 # 2); 7 # 4; 9 # 4]
  = [0; 2; 2; 0; 2; 2]%Z.
Proof. reflexivity. Qed.

(** Jet features only, cap 2, on the gluon file: the counts 2, 3, 1 are
    bounded by 2 and the label 0 comes second, as requested. *)
Example jets_of_gluons :
  getData (One "g") "./" NoFeatures
    (FeatureList ["num_particles"; "type"]%string) 2 "all" fractions 42 w0
  = (Ok (None, Some [[2 # 1; 0 # 1]; [2 # 1; 0 # 1]; [1 # 1; 0 # 1]]),
     {| rng := 43%Z;
        trace := [Download "./" "g" 6975118 "g.hdf5"; OpenFile "./g.hdf5"] |}).
Proof. reflexivity. Qed.

(** A cap of 200 selects the 150-particle file and keeps all four
    particles of each of its jets. *)
Example masks_with_cap_200 :
  getData (One "g") "./" (OneFeature "mask") NoFeatures 200 "all" fractions 42 w0
  = (Ok (Some [[[1 # 1]; [1 # 1]; [1 # 1]; [0 # 1]];
               [[1 # 1]; [1 # 1]; [1 # 1]; [1 # 1]]], None),
     {| rng := 43%Z;
        trace := [Download "./" "g150" 6975117 "g150.hdf5";
                  OpenFile "./g150.hdf5"] |}).
Proof. reflexivity. Qed.

(** The unknown name is noticed after the gluon file was opened. *)
Example bogus_feature :
  getData (One "g") "./" (FeatureList ["bogus"%string]) NoFeatures 30
    "train" fractions 42 w0
  = (Raise UnknownFeatureError,
     {| rng := 7%Z;
        trace := [Download "./" "g" 6975118 "g.hdf5"; OpenFile "./g.hdf5"] |}).
Proof. reflexivity. Qed.

(** Errors that come before any file is touched, and after all. *)
Example invalid_jet_type :
  getData (One "x") "./" (OneFeature "mask") NoFeatures 30 "all" fractions 42 w0
  = (Raise InvalidCategoryError, w0).
Proof. reflexivity. Qed.

Example invalid_split_name :
  getData (One "g") "./" (OneFeature "mask") NoFeatures 30 "tests" fractions 42 w0
  = (Raise InvalidSplitError,
     {| rng := 7%Z;
        trace := [Download "./" "g" 6975118 "g.hdf5"; OpenFile "./g.hdf5"] |}).
Proof. reflexivity. Qed.

Lemma well_formed_g30 : well_formed g30.
Proof. unfold well_formed. split; [reflexivity|]. split; repeat constructor. Qed.

Lemma well_formed_t30 : well_formed t30.
Proof. unfold well_formed. split; [reflexivity|]. split; repeat constructor. Qed.

Lemma well_formed_g150 : well_formed g150.
Proof. unfold well_formed. split; [reflexivity|]. split; repeat constructor. Qed.

Lemma retrievable30 : retrievable "./" false loaded30.
Proof.
  split.
  - apply Forall_cons; [|apply Forall_cons; [|apply Forall_nil]].
    + exists "./g.hdf5"%string. split; reflexivity.
    + exists "./t.hdf5"%string. split; reflexivity.
  - apply Forall_cons; [apply well_formed_g30|].
    apply Forall_cons; [apply well_formed_t30 | apply Forall_nil].
Qed.

Lemma retrievable150 : retrievable "./" true loaded150.
Proof.
  split.
  - apply Forall_cons; [|apply Forall_nil].
    exists "./g150.hdf5"%string. split; reflexivity.
  - apply Forall_cons; [apply well_formed_g150 | apply Forall_nil].
Qed.

Lemma valid_train : valid_split "train" fractions.
Proof. split; [reflexivity | right; reflexivity]. Qed.

Lemma valid_all : valid_split "all" fractions.
Proof. split; [reflexivity | left; reflexivity]. Qed.

(** The side conditions of a concrete request, by evaluation. *)
Ltac conditions :=
  repeat match goal with |- _ /\ _ => split end;
  first [ assumption | reflexivity | lia | discriminate
        | exact retrievable30 | exact retrievable150
        | exact valid_train | exact valid_all
        | exact well_formed_g30 ].

Lemma seeded_shuffle_deterministic_witness :
  (firstNotNoneElement
     [option_map Rank3 (Some (Hdf5.particle_features g30));
      option_map Rank2 None]
   = Some (Rank3 (Hdf5.particle_features g30))
   /\ Py.mem "train" splits = true
   /\ valid_fractions fractions = true
   /\ seed_accepted 42 = true)
  /\ exists lcut rcut randperm,
       fst (shuffle_and_split (Some (Hdf5.particle_features g30)) None
              "train" fractions 42 w0) = Ok (lcut, rcut, randperm)
       /\ fst (shuffle_and_split (Some (Hdf5.particle_features g30)) None
                 "train" fractions 42 later) = Ok (lcut, rcut, randperm)
       /\ Permutation randperm (seq 0 3).
Proof.
  split; [conditions|].
  destruct (seeded_shuffle_deterministic
              (Some (Hdf5.particle_features g30)) None "train" fractions 42
              w0 later) as (_ & _ & Hvalid).
  destruct (Hvalid (Rank3 (Hdf5.particle_features g30)) eq_refl eq_refl
              (or_intror eq_refl) eq_refl)
    as (lcut & rcut & randperm & H1 & H2 & _ & _ & Hperm).
  exists lcut, rcut, randperm.
  split; [exact H1|]. split; [exact H2 | exact Hperm].
Defined.

Lemma rows_stay_aligned_witness :
  (checkListNotEmpty (checkStrToList (FeatureList ["ptrel"; "mask"]%string)) = true
   /\ checkListNotEmpty (checkStrToList (FeatureList ["mass"; "type"]%string)) = true
   /\ checkConvertElements (Many ["t"; "g"]%string) jet_types
      = Ok (map fst loaded30)
   /\ loaded30 <> []
   /\ retrievable "./" (30 <? 2)%Z loaded30
   /\ known ["ptrel"; "mask"]%string particle_features_order = true
   /\ known ["mass"; "type"]%string jet_features_order = true
   /\ valid_split "train" fractions
   /\ seed_accepted 42 = true)
  /\ exists P J,
       fst (getData (Many ["t"; "g"]%string) "./"
              (FeatureList ["ptrel"; "mask"]%string)
              (FeatureList ["mass"; "type"]%string) 2 "train" fractions 42 w0)
       = Ok (Some P, Some J)
       /\ length P = length J.
Proof.
  assert (Hne : loaded30 <> []) by discriminate.
  split; [conditions|].
  destruct (rows_stay_aligned (Many ["t"; "g"]%string) "./"
              (FeatureList ["ptrel"; "mask"]%string)
              (FeatureList ["mass"; "type"]%string) 2 "train" fractions 42
              loaded30 w0 eq_refl eq_refl eq_refl Hne retrievable30
              eq_refl eq_refl valid_train eq_refl)
    as (randperm & lcut & rcut & P & J & Hrun & _ & _ & Hlen & _).
  exists P, J. split; [exact Hrun | exact Hlen].
Defined.

Lemma jet_features_only_witness :
  (checkListNotEmpty (checkStrToList (FeatureList [])) = false
   /\ checkListNotEmpty (checkStrToList (FeatureList ["mass"; "type"]%string)) = true
   /\ checkConvertElements (Many ["t"; "g"]%string) jet_types
      = Ok (map fst loaded30)
   /\ loaded30 <> []
   /\ retrievable "./" (30 <? 30)%Z loaded30
   /\ known ["mass"; "type"]%string jet_features_order = true
   /\ valid_split "train" fractions
   /\ seed_accepted 42 = true)
  /\ exists J,
       fst (getData (Many ["t"; "g"]%string) "./" (FeatureList [])
              (FeatureList ["mass"; "type"]%string) 30 "train" fractions 42 w0)
       = Ok (None, Some J).
Proof.
  assert (Hne : loaded30 <> []) by discriminate.
  split; [conditions|].
  destruct (jet_features_only (Many ["t"; "g"]%string) "./" (FeatureList [])
              (FeatureList ["mass"; "type"]%string) 30 "train" fractions 42
              loaded30 w0 eq_refl eq_refl eq_refl Hne retrievable30
              eq_refl valid_train eq_refl)
    as (J & Hrun & _).
  exists J. exact Hrun.
Defined.

Lemma cap_above_150_accepted_witness :
  ((150 < 200)%Z
   /\ checkListNotEmpty (checkStrToList (OneFeature "mask"))
      || checkListNotEmpty (checkStrToList (OneFeature "num_particles")) = true
   /\ checkConvertElements (One "g") jet_types = Ok (map fst loaded150)
   /\ loaded150 <> []
   /\ retrievable "./" true loaded150
   /\ known ["mask"]%string particle_features_order = true
   /\ known ["num_particles"]%string jet_features_order = true
   /\ valid_split "all" fractions
   /\ seed_accepted 42 = true)
  /\ exists P J,
       fst (getData (One "g") "./" (OneFeature "mask")
              (OneFeature "num_particles") 200 "all" fractions 42 w0)
       = Ok (Some P, Some J).
Proof.
  assert (Hne : loaded150 <> []) by discriminate.
  split; [conditions|].
  destruct (cap_above_150_accepted (One "g") "./" (OneFeature "mask")
              (OneFeature "num_particles") 200 "all" fractions 42
              loaded150 w0 ltac:(lia) eq_refl eq_refl Hne retrievable150
              eq_refl eq_refl valid_all eq_refl)
    as (P & J & Hrun & _).
  exists P, J. exact Hrun.
Defined.

Lemma unknown_feature_after_first_file_witness :
  (unknown_requested (FeatureList ["bogus"%string]) NoFeatures
   /\ checkConvertElements (One "g") jet_types = Ok ["g"%string]
   /\ available "./" (30 <? 30)%Z "g" "./g.hdf5" g30
   /\ well_formed g30)
  /\ getData (One "g") "./" (FeatureList ["bogus"%string]) NoFeatures 30
       "train" fractions 42 w0
     = (Raise UnknownFeatureError,
        logged w0 [request "./" (30 <? 30)%Z "g"; OpenFile "./g.hdf5"]).
Proof.
  assert (Hunknown : unknown_requested (FeatureList ["bogus"%string]) NoFeatures).
  { left. exists "bogus"%string. split; [now left|].
    cbn. intros Hin. repeat destruct Hin as [Hin|Hin]; try discriminate Hin.
    exact Hin. }
  assert (Havail : available "./" (30 <? 30)%Z "g" "./g.hdf5" g30)
    by (split; reflexivity).
  split; [split; [exact Hunknown | conditions]|].
  apply (unknown_feature_after_first_file (One "g") "./"
           (FeatureList ["bogus"%string]) NoFeatures 30 "train" fractions 42
           "g" [] "./g.hdf5" g30 w0 Hunknown eq_refl Havail well_formed_g30).
Defined.

End Examples.

(** * Further properties of [getData] *)

(** ** Runs, stage by stage *)

Section StageRuns.

Import Utils JetNet View Stages.
Context {S : RawSource} {G : Generator}.

Lemma getData_stages (jet_type : selection) (data_dir : string)
    (particle_features jet_features : feature_arg) (num_particles : Z)
    (split : string) (fr : Q * Q * Q) (seed : Z) :
  getData jet_type data_dir particle_features jet_features num_particles
    split fr seed
  = bind (lift (checkConvertElements jet_type jet_types))
      (fun cats =>
         bind (load_jet_types data_dir (checkStrToList particle_features)
                 (checkStrToList jet_features)
                 (checkListNotEmpty (checkStrToList particle_features))
                 (checkListNotEmpty (checkStrToList jet_features))
                 (30 <? num_particles)%Z num_particles cats)
           (after_loading
              (checkListNotEmpty (checkStrToList particle_features))
              (checkListNotEmpty (checkStrToList jet_features))
              split fr seed)).
Proof. reflexivity. Qed.

(** One iteration of the loop, whatever the collaborator answers. *)
Lemma load_jet_type_cases (data_dir : string) (pfeat jfeat : option (list string))
    (up uj u150 : bool) (K : Z) (j : string) (w : world) :
  load_jet_type data_dir pfeat jfeat up uj u150 K j w
  = match ensureLocal data_dir (dataset_name u150 j) (record_of u150)
            (key_of u150 j) with
    | None => (Raise RetrievalError, logged w [request data_dir u150 j])
    | Some path =>
        match openFile path with
        | None => (Raise RetrievalError,
                   logged w [request data_dir u150 j; OpenFile path])
        | Some f => (processed pfeat jfeat up uj K j f,
                     logged w [request data_dir u150 j; OpenFile path])
        end
    end.
Proof.
  destruct (ensureLocal _ _ _ _) as [path|] eqn:Hloc.
  - destruct (openFile path) as [f|] eqn:Hopen.
    + apply load_jet_type_run. now split.
    + unfold key_of in Hloc. unfold load_jet_type. cbv zeta.
      erewrite bind_ok by (unfold lift; now rewrite record_lookup).
      erewrite bind_ok
        by (rewrite checkDownloadZenodoDataset_run; now rewrite Hloc).
      erewrite bind_raise by (rewrite h5py_File_run; now rewrite Hopen).
      now rewrite logged_logged.
  - unfold key_of in Hloc. unfold load_jet_type. cbv zeta.
    erewrite bind_ok by (unfold lift; now rewrite record_lookup).
    erewrite bind_raise
      by (rewrite checkDownloadZenodoDataset_run; now rewrite Hloc).
    reflexivity.
Qed.

Lemma failure_events_cases (data_dir : string) (pfeat jfeat : option (list string))
    (up uj u150 : bool) (K : Z) (j : string) (evs : list event) (w : world) :
  failure_events data_dir u150 j = Some evs ->
  load_jet_type data_dir pfeat jfeat up uj u150 K j w
  = (Raise RetrievalError, logged w evs).
Proof.
  unfold failure_events. rewrite load_jet_type_cases.
  destruct (ensureLocal _ _ _ _) as [path|]; [|now intros [= <-]].
  destruct (openFile path); [discriminate | now intros [= <-]].
Qed.

Lemma located_retrievable (data_dir : string) (u150 : bool)
    (loaded : list (string * hdf5)) (paths : list string) :
  located data_dir u150 loaded paths ->
  Forall (fun jf => exists path,
            available data_dir u150 (fst jf) path (snd jf)) loaded.
Proof.
  intros Hloc. induction Hloc as [|jf path loaded paths Hjf _ IH];
    constructor; [now exists path | exact IH].
Qed.

(** The loop over retrievable files whose iterations succeed: the
    values, and the world with one request and one open per type. *)
Lemma load_jet_types_world (data_dir : string) (pfeat jfeat : option (list string))
    (up uj u150 : bool) (K : Z) (loaded : list (string * hdf5))
    (paths : list string)
    (out : string * hdf5 -> option tensor3 * option tensor2) :
  located data_dir u150 loaded paths ->
  Forall (fun jf => processed pfeat jfeat up uj K (fst jf) (snd jf) = Ok (out jf))
    loaded ->
  forall w,
    load_jet_types data_dir pfeat jfeat up uj u150 K (map fst loaded) w
    = (Ok (map (fun jf => fst (out jf)) loaded,
           map (fun jf => snd (out jf)) loaded),
       logged w (visits data_dir u150 (combine (map fst loaded) paths))).
Proof.
  intros Hloc. induction Hloc as [|[j f] path loaded paths Hjf _ IH];
    intros Hout w.
  - cbn. unfold ret, logged. rewrite app_nil_r. now destruct w.
  - inversion Hout as [|? ? Hhead Htail]; subst. cbn [fst snd] in *.
    cbn [map load_jet_types fst combine].
    erewrite bind_ok by (rewrite (load_jet_type_run _ _ _ _ _ _ _ _ _ _ _ Hjf);
                         rewrite Hhead; reflexivity).
    destruct (out (j, f)) as [pf jf0] eqn:Hjout.
    erewrite bind_ok by (apply IH; exact Htail).
    rewrite logged_logged. reflexivity.
Qed.

Lemma gather_blocks {A X} (use : bool) (F : X -> list A) (l : list X)
    (w : world) :
  l <> [] ->
  gather use (map (fun x => if use then Some (F x) else None) l) w
  = (Ok (if use then Some (concat (map F l)) else None), w).
Proof.
  intros Hne. unfold gather. destruct use; [|reflexivity].
  rewrite <- (map_map F Some). apply concatenate_run.
  destruct l; [congruence | discriminate].
Qed.

Lemma processed_blocks (pfeat jfeat : option (list string)) (up uj : bool)
    (K : Z) (loaded : list (string * hdf5)) :
  Forall (fun jf => In (fst jf) jet_types) loaded ->
  Forall (fun jf => well_formed (snd jf)) loaded ->
  known (names pfeat) particle_features_order = true ->
  known (names jfeat) jet_features_order = true ->
  Forall
    (fun jf => processed pfeat jfeat up uj K (fst jf) (snd jf)
               = Ok (if up then Some (particle_block (names pfeat) K (snd jf))
                     else None,
                     if uj then Some (jet_block (names jfeat) K (fst jf) (snd jf))
                     else None))
    loaded.
Proof.
  intros Hin Hwf Hpk Hjk. rewrite Forall_forall in *. intros jf Hjf.
  destruct (Hwf jf Hjf) as (_ & Hprows & Hjrows).
  apply processed_ok; intros _; auto.
Qed.

(** [getData] up to the shuffle, for retrievable well-formed files and
    known feature names. *)
Lemma getData_until_shuffle (jet_type : selection) (data_dir : string)
    (particle_features jet_features : feature_arg) (num_particles : Z)
    (split : string) (fr : Q * Q * Q) (seed : Z)
    (loaded : list (string * hdf5)) (paths : list string) (w : world) :
  let pfeat := checkStrToList particle_features in
  let jfeat := checkStrToList jet_features in
  let up := checkListNotEmpty pfeat in
  let uj := checkListNotEmpty jfeat in
  let particle_data :=
    if up then Some (particle_rows (names pfeat) num_particles loaded) else None in
  let jet_data :=
    if uj then Some (jet_rows (names jfeat) num_particles loaded) else None in
  checkConvertElements jet_type jet_types = Ok (map fst loaded) ->
  loaded <> [] ->
  located data_dir (30 <? num_particles)%Z loaded paths ->
  Forall (fun jf => well_formed (snd jf)) loaded ->
  known (names pfeat) particle_features_order = true ->
  known (names jfeat) jet_features_order = true ->
  getData jet_type data_dir particle_features jet_features num_particles
    split fr seed w
  = bind (shuffle_and_split particle_data jet_data split fr seed)
      (select_rows up uj particle_data jet_data)
      (logged w (visits data_dir (30 <? num_particles)%Z
                   (combine (map fst loaded) paths))).
Proof.
  intros pfeat jfeat up uj particle_data jet_data Hcats Hne Hloc Hwf Hpk Hjk.
  pose proof (checkConvertElements_valid _ _ _ Hcats) as Hin.
  rewrite Forall_map in Hin.
  rewrite getData_stages. fold pfeat jfeat. fold up uj.
  erewrite bind_ok by (unfold lift; rewrite Hcats; reflexivity).
  pose proof (load_jet_types_world data_dir pfeat jfeat up uj
                (30 <? num_particles)%Z num_particles loaded paths
                (fun jf =>
                   (if up then Some (particle_block (names pfeat)
                                       num_particles (snd jf)) else None,
                    if uj then Some (jet_block (names jfeat)
                                       num_particles (fst jf) (snd jf))
                    else None))
                Hloc (processed_blocks pfeat jfeat up uj num_particles loaded
                        Hin Hwf Hpk Hjk) w) as Hrun.
  cbn [fst snd] in Hrun.
  erewrite bind_ok by exact Hrun.
  unfold after_loading. cbv beta iota.
  erewrite bind_ok
    by (apply (gather_blocks up
                 (fun jf : string * hdf5 =>
                    particle_block (names pfeat) num_particles (snd jf)));
        exact Hne).
  erewrite bind_ok
    by (apply (gather_blocks uj
                 (fun jf : string * hdf5 =>
                    jet_block (names jfeat) num_particles (fst jf) (snd jf)));
        exact Hne).
  reflexivity.
Qed.

End StageRuns.

(** ** The world after a run *)

Section Worlds.

Import Utils JetNet View Stages.
Context {S : RawSource} {G : Generator}.

Lemma present_length (up uj : bool) (P : tensor3) (J : tensor2) (N : nat) :
  up || uj = true -> length P = N -> length J = N ->
  exists a,
    firstNotNoneElement
      [option_map Rank3 (if up then Some P else None);
       option_map Rank2 (if uj then Some J else None)] = Some a
    /\ len a = N.
Proof.
  intros Huse HP HJ. destruct up, uj; try discriminate Huse; cbn.
  - now exists (Rank3 P).
  - now exists (Rank3 P).
  - now exists (Rank2 J).
Qed.

Lemma select_rows_run (up uj : bool) (P : tensor3) (J : tensor2)
    (lcut rcut : Z) (randperm : list nat) (N : nat) (w : world) :
  length P = N -> length J = N -> Permutation randperm (seq 0 N) ->
  select_rows up uj (if up then Some P else None) (if uj then Some J else None)
    (lcut, rcut, randperm) w
  = (Ok (if up then Some (shuffled randperm lcut rcut P) else None,
         if uj then Some (shuffled randperm lcut rcut J) else None), w).
Proof.
  intros HP HJ Hperm. unfold select_rows.
  destruct up, uj.
  - erewrite bind_ok by (apply (shuffle_slice_run _ _ _ _ N); assumption).
    erewrite bind_ok by (apply (shuffle_slice_run _ _ _ _ N); assumption).
    reflexivity.
  - erewrite bind_ok by (apply (shuffle_slice_run _ _ _ _ N); assumption).
    reflexivity.
  - erewrite bind_ok by reflexivity.
    erewrite bind_ok by (apply (shuffle_slice_run _ _ _ _ N); assumption).
    reflexivity.
  - reflexivity.
Qed.

(** A successful run, with the world it leaves. *)
Lemma getData_world (jet_type : selection) (data_dir : string)
    (particle_features jet_features : feature_arg) (num_particles : Z)
    (split : string) (fr : Q * Q * Q) (seed : Z)
    (loaded : list (string * hdf5)) (paths : list string) (w : world) :
  let pfeat := checkStrToList particle_features in
  let jfeat := checkStrToList jet_features in
  let up := checkListNotEmpty pfeat in
  let uj := checkListNotEmpty jfeat in
  let N := total loaded in
  let randperm := fst (permutation (seed_state seed) N) in
  checkConvertElements jet_type jet_types = Ok (map fst loaded) ->
  loaded <> [] ->
  located data_dir (30 <? num_particles)%Z loaded paths ->
  Forall (fun jf => well_formed (snd jf)) loaded ->
  known (names pfeat) particle_features_order = true ->
  known (names jfeat) jet_features_order = true ->
  up || uj = true ->
  forall lcut rcut,
    getSplitting N split splits fr = Ok (lcut, rcut) ->
    seed_accepted seed = true ->
    getData jet_type data_dir particle_features jet_features num_particles
      split fr seed w
    = (Ok (if up
           then Some (shuffled randperm lcut rcut
                        (particle_rows (names pfeat) num_particles loaded))
           else None,
           if uj
           then Some (shuffled randperm lcut rcut
                        (jet_rows (names jfeat) num_particles loaded))
           else None),
       {| rng := snd (permutation (seed_state seed) N);
          trace := trace w ++ visits data_dir (30 <? num_particles)%Z
                                (combine (map fst loaded) paths) |}).
Proof.
  intros pfeat jfeat up uj N randperm Hcats Hne Hloc Hwf Hpk Hjk Huse
    lcut rcut Hsplit Hseed.
  rewrite (getData_until_shuffle _ _ _ _ _ _ _ _ loaded paths) by assumption.
  fold pfeat jfeat. fold up uj.
  pose proof (particle_rows_length (names pfeat) num_particles loaded Hwf) as HP.
  pose proof (jet_rows_length (names jfeat) num_particles loaded) as HJ.
  fold N in HP, HJ.
  destruct (present_length up uj _ _ N Huse HP HJ) as (a & Ha & Hlen).
  erewrite bind_ok
    by (rewrite shuffle_and_split_run, Ha, Hlen, Hsplit, Hseed; reflexivity).
  rewrite (select_rows_run up uj _ _ lcut rcut _ N) by
    (try assumption; apply permutation_spec).
  reflexivity.
Qed.

End Worlds.

(** ** When things go wrong, and what has happened by then *)

Section Order.

Import Utils JetNet View Stages.
Context {S : RawSource} {G : Generator}.

(** X1.  A successful run has requested and opened exactly one file per
    selected jet type, in the order of the closed list of jet types and
    nothing else, and it leaves the global generator in the state that
    follows one draw of [N] indices from the generator seeded with
    [seed], where [N] is the number of jets loaded. *)
Theorem one_visit_per_jet_type (jet_type : selection) (data_dir : string)
    (particle_features jet_features : feature_arg) (num_particles : Z)
    (split : string) (fr : Q * Q * Q) (seed : Z)
    (loaded : list (string * hdf5)) (paths : list string) (lcut rcut : Z)
    (w : world) :
  let pfeat := checkStrToList particle_features in
  let jfeat := checkStrToList jet_features in
  checkConvertElements jet_type jet_types = Ok (map fst loaded) ->
  loaded <> [] ->
  located data_dir (30 <? num_particles)%Z loaded paths ->
  Forall (fun jf => well_formed (snd jf)) loaded ->
  known (names pfeat) particle_features_order = true ->
  known (names jfeat) jet_features_order = true ->
  checkListNotEmpty pfeat || checkListNotEmpty jfeat = true ->
  getSplitting (total loaded) split splits fr = Ok (lcut, rcut) ->
  seed_accepted seed = true ->
  snd (getData jet_type data_dir particle_features jet_features num_particles
         split fr seed w)
  = {| rng := snd (permutation (seed_state seed) (total loaded));
       trace := trace w ++ visits data_dir (30 <? num_particles)%Z
                             (combine (map fst loaded) paths) |}.
Proof.
  intros pfeat jfeat Hcats Hne Hloc Hwf Hpk Hjk Huse Hsplit Hseed.
  now rewrite (getData_world _ _ _ _ _ _ _ _ loaded paths w Hcats Hne Hloc Hwf
                 Hpk Hjk Huse lcut rcut Hsplit Hseed).
Qed.

(** X3.  The split configuration is only looked at after the loop: when
    [getSplitting] refuses it, [getData] raises that error after it has
    requested and opened the file of every selected jet type, and the
    generator is left untouched. *)
Theorem split_error_after_loading (jet_type : selection) (data_dir : string)
    (particle_features jet_features : feature_arg) (num_particles : Z)
    (split : string) (fr : Q * Q * Q) (seed : Z)
    (loaded : list (string * hdf5)) (paths : list string) (e : error)
    (w : world) :
  let pfeat := checkStrToList particle_features in
  let jfeat := checkStrToList jet_features in
  checkConvertElements jet_type jet_types = Ok (map fst loaded) ->
  loaded <> [] ->
  located data_dir (30 <? num_particles)%Z loaded paths ->
  Forall (fun jf => well_formed (snd jf)) loaded ->
  known (names pfeat) particle_features_order = true ->
  known (names jfeat) jet_features_order = true ->
  checkListNotEmpty pfeat || checkListNotEmpty jfeat = true ->
  getSplitting (total loaded) split splits fr = Raise e ->
  getData jet_type data_dir particle_features jet_features num_particles
    split fr seed w
  = (Raise e,
     logged w (visits data_dir (30 <? num_particles)%Z
                 (combine (map fst loaded) paths))).
Proof.
  intros pfeat jfeat Hcats Hne Hloc Hwf Hpk Hjk Huse Hsplit.
  rewrite (getData_until_shuffle _ _ _ _ _ _ _ _ loaded paths) by assumption.
  fold pfeat jfeat.
  pose proof (particle_rows_length (names pfeat) num_particles loaded Hwf) as HP.
  pose proof (jet_rows_length (names jfeat) num_particles loaded) as HJ.
  destruct (present_length _ _ _ _ _ Huse HP HJ) as (a & Ha & Hlen).
  erewrite bind_raise
    by (rewrite shuffle_and_split_run, Ha, Hlen, Hsplit; reflexivity).
  reflexivity.
Qed.

(** X13.  A seed outside [0, 2**32 - 1] is refused by numpy only at
    line 208: when [getSplitting] has accepted the split configuration,
    [getData] raises [ValueError] after it has requested and opened the
    file of every selected jet type, and the generator is left
    untouched. *)
Theorem rejected_seed_after_loading (jet_type : selection) (data_dir : string)
    (particle_features jet_features : feature_arg) (num_particles : Z)
    (split : string) (fr : Q * Q * Q) (seed : Z)
    (loaded : list (string * hdf5)) (paths : list string) (lcut rcut : Z)
    (w : world) :
  let pfeat := checkStrToList particle_features in
  let jfeat := checkStrToList jet_features in
  checkConvertElements jet_type jet_types = Ok (map fst loaded) ->
  loaded <> [] ->
  located data_dir (30 <? num_particles)%Z loaded paths ->
  Forall (fun jf => well_formed (snd jf)) loaded ->
  known (names pfeat) particle_features_order = true ->
  known (names jfeat) jet_features_order = true ->
  checkListNotEmpty pfeat || checkListNotEmpty jfeat = true ->
  getSplitting (total loaded) split splits fr = Ok (lcut, rcut) ->
  (seed < 0 \/ 2 ^ 32 <= seed)%Z ->
  getData jet_type data_dir particle_features jet_features num_particles
    split fr seed w
  = (Raise ValueError,
     logged w (visits data_dir (30 <? num_particles)%Z
                 (combine (map fst loaded) paths))).
Proof.
  intros pfeat jfeat Hcats Hne Hloc Hwf Hpk Hjk Huse Hsplit Hseed.
  assert (Hrej : seed_accepted seed = false).
  { unfold seed_accepted. apply andb_false_iff.
    destruct Hseed; [left; apply Z.leb_gt | right; apply Z.ltb_ge]; lia. }
  rewrite (getData_until_shuffle _ _ _ _ _ _ _ _ loaded paths) by assumption.
  fold pfeat jfeat.
  pose proof (particle_rows_length (names pfeat) num_particles loaded Hwf) as HP.
  pose proof (jet_rows_length (names jfeat) num_particles loaded) as HJ.
  destruct (present_length _ _ _ _ _ Huse HP HJ) as (a & Ha & Hlen).
  erewrite bind_raise
    by (rewrite shuffle_and_split_run, Ha, Hlen, Hsplit, Hrej; reflexivity).
  reflexivity.
Qed.

(** X4.  An empty selection of jet types with some features requested:
    the loop does not run, [np.concatenate] is handed an empty list at
    line 200 or 201, and [getData] raises [ValueError] without having
    touched a file or the generator. *)
Theorem empty_selection_fails (jet_type : selection) (data_dir : string)
    (particle_features jet_features : feature_arg) (num_particles : Z)
    (split : string) (fr : Q * Q * Q) (seed : Z) (w : world) :
  checkConvertElements jet_type jet_types = Ok [] ->
  checkListNotEmpty (checkStrToList particle_features)
  || checkListNotEmpty (checkStrToList jet_features) = true ->
  getData jet_type data_dir particle_features jet_features num_particles
    split fr seed w
  = (Raise ValueError, w).
Proof.
  intros Hcats Huse. rewrite getData_stages.
  erewrite bind_ok by (unfold lift; rewrite Hcats; reflexivity).
  cbn [load_jet_types].
  erewrite bind_ok by reflexivity.
  unfold after_loading, gather.
  destruct (checkListNotEmpty (checkStrToList particle_features)).
  - reflexivity.
  - cbn in Huse. rewrite Huse. reflexivity.
Qed.

(** The loop stops at the first file that cannot be retrieved. *)
Lemma load_jet_types_stops (data_dir : string) (pfeat jfeat : option (list string))
    (up uj u150 : bool) (K : Z) (done : list (string * hdf5))
    (paths : list string) (j : string) (rest : list string)
    (out : string * hdf5 -> option tensor3 * option tensor2)
    (evs : list event) :
  located data_dir u150 done paths ->
  Forall (fun jf => processed pfeat jfeat up uj K (fst jf) (snd jf) = Ok (out jf))
    done ->
  failure_events data_dir u150 j = Some evs ->
  forall w,
    load_jet_types data_dir pfeat jfeat up uj u150 K (map fst done ++ j :: rest) w
    = (Raise RetrievalError,
       logged w (visits data_dir u150 (combine (map fst done) paths) ++ evs)).
Proof.
  intros Hloc. induction Hloc as [|[j0 f] path done paths Hjf _ IH];
    intros Hout Hfail w.
  - cbn [map app load_jet_types combine visits flat_map].
    erewrite bind_raise by (apply failure_events_cases; exact Hfail).
    reflexivity.
  - inversion Hout as [|? ? Hhead Htail]; subst. cbn [fst snd] in *.
    cbn [map app load_jet_types fst combine].
    erewrite bind_ok by (rewrite (load_jet_type_run _ _ _ _ _ _ _ _ _ _ _ Hjf);
                         rewrite Hhead; reflexivity).
    destruct (out (j0, f)) as [pf jf0].
    erewrite bind_raise by (apply IH; assumption).
    rewrite logged_logged. reflexivity.
Qed.

(** X5.  When the file of a selected jet type cannot be retrieved or
    opened, [getData] raises [RetrievalError] at once: the files of the
    earlier types have been requested and opened, the failing one has
    been requested (and, if it was found, opened), no later type is
    asked for, and the generator is left untouched. *)
Theorem retrieval_failure_stops (jet_type : selection) (data_dir : string)
    (particle_features jet_features : feature_arg) (num_particles : Z)
    (split : string) (fr : Q * Q * Q) (seed : Z)
    (done : list (string * hdf5)) (paths : list string)
    (j : string) (rest : list string) (evs : list event) (w : world) :
  let pfeat := checkStrToList particle_features in
  let jfeat := checkStrToList jet_features in
  checkConvertElements jet_type jet_types = Ok (map fst done ++ j :: rest) ->
  located data_dir (30 <? num_particles)%Z done paths ->
  Forall (fun jf => well_formed (snd jf)) done ->
  known (names pfeat) particle_features_order = true ->
  known (names jfeat) jet_features_order = true ->
  failure_events data_dir (30 <? num_particles)%Z j = Some evs ->
  getData jet_type data_dir particle_features jet_features num_particles
    split fr seed w
  = (Raise RetrievalError,
     logged w (visits data_dir (30 <? num_particles)%Z
                 (combine (map fst done) paths) ++ evs)).
Proof.
  intros pfeat jfeat Hcats Hloc Hwf Hpk Hjk Hfail.
  pose proof (checkConvertElements_valid _ _ _ Hcats) as Hin.
  apply Forall_app in Hin. destruct Hin as [Hin _].
  rewrite Forall_map in Hin.
  rewrite getData_stages. fold pfeat jfeat.
  erewrite bind_ok by (unfold lift; rewrite Hcats; reflexivity).
  erewrite bind_raise; [reflexivity|].
  eapply load_jet_types_stops; try eassumption.
  apply processed_blocks; assumption.
Qed.

End Order.

(** ** What every run does to the world *)

Section Frames.

Import Utils JetNet View Stages.
Context {S : RawSource} {G : Generator}.

Lemma keeps_bind {A B} (m : M A) (k : A -> M B) :
  keeps_rng m -> (forall a, keeps_rng (k a)) -> keeps_rng (bind m k).
Proof.
  intros Hm Hk w. unfold bind. specialize (Hm w).
  destruct (m w) as [[a|e] w']; cbn [snd] in *; [|exact Hm].
  now rewrite Hk.
Qed.

Lemma keeps_load_jet_type (data_dir : string) (pfeat jfeat : option (list string))
    (up uj u150 : bool) (K : Z) (j : string) :
  keeps_rng (load_jet_type data_dir pfeat jfeat up uj u150 K j).
Proof.
  intros w. rewrite load_jet_type_cases.
  destruct (ensureLocal _ _ _ _) as [path|]; [|reflexivity].
  destruct (openFile path); reflexivity.
Qed.

Lemma keeps_load_jet_types (data_dir : string) (pfeat jfeat : option (list string))
    (up uj u150 : bool) (K : Z) (jet_type : list string) :
  keeps_rng (load_jet_types data_dir pfeat jfeat up uj u150 K jet_type).
Proof.
  induction jet_type as [|j rest IH]; cbn [load_jet_types].
  - intros w. reflexivity.
  - apply keeps_bind; [apply keeps_load_jet_type|]. intros [pf jf].
    apply keeps_bind; [exact IH|]. intros [ps js] w. reflexivity.
Qed.

Lemma gather_world {A} (use : bool) (arrays : list (option (list A))) (w : world) :
  snd (gather use arrays w) = w.
Proof.
  unfold gather, bind, lift, ret. destruct use; [|reflexivity].
  destruct (Np.concatenate arrays); reflexivity.
Qed.

Lemma select_rows_world (up uj : bool) (pd : option tensor3) (jd : option tensor2)
    (cut : Z * Z * list nat) (w : world) :
  snd (select_rows up uj pd jd cut w) = w.
Proof.
  destruct cut as [[lcut rcut] randperm].
  unfold select_rows, bind, lift, ret.
  destruct up, uj;
    repeat match goal with
           | |- context [Np.shuffle_slice ?a ?b ?c ?d] =>
               destruct (Np.shuffle_slice a b c d)
           end; reflexivity.
Qed.

(** The part after the loop: the generator is reseeded exactly when the
    shuffle step is reached and accepted. *)
Lemma after_loading_rng (up uj : bool) (split : string) (fr : Q * Q * Q)
    (seed : Z) (data : list (option tensor3) * list (option tensor2))
    (w : world) :
  (rng (snd (after_loading up uj split fr seed data w)) = rng w
   \/ exists n, rng (snd (after_loading up uj split fr seed data w))
                = snd (permutation (seed_state seed) n))
  /\ (forall x, fst (after_loading up uj split fr seed data w) = Ok x ->
        exists n, rng (snd (after_loading up uj split fr seed data w))
                  = snd (permutation (seed_state seed) n)).
Proof.
  remember (after_loading up uj split fr seed data w) as r eqn:Hr.
  destruct data as [ps js]. unfold after_loading in Hr.
  unfold bind at 1 in Hr.
  pose proof (gather_world up ps w) as Hg1.
  destruct (gather up ps w) as [[pd|e] w1]; cbn [snd] in Hg1; subst w1;
    [|subst r; cbn [fst snd]; split; [now left | discriminate]].
  unfold bind at 1 in Hr.
  pose proof (gather_world uj js w) as Hg2.
  destruct (gather uj js w) as [[jd|e] w2]; cbn [snd] in Hg2; subst w2;
    [|subst r; cbn [fst snd]; split; [now left | discriminate]].
  unfold bind in Hr. rewrite shuffle_and_split_run in Hr.
  destruct (firstNotNoneElement _) as [a|];
    [|subst r; cbn [fst snd]; split; [now left | discriminate]].
  destruct (getSplitting _ _ _ _) as [[lcut rcut]|e];
    [|subst r; cbn [fst snd]; split; [now left | discriminate]].
  destruct (seed_accepted seed);
    [|subst r; cbn [fst snd]; split; [now left | discriminate]].
  match type of Hr with
  | context [select_rows ?a ?b ?c ?d ?e ?f] =>
      pose proof (select_rows_world a b c d e f) as Hs
  end.
  rewrite <- Hr in Hs. rewrite Hs. cbn [rng].
  split; [right | intros x _]; now exists (len a).
Qed.

(** X2.  Whatever the request and whatever the outcome, [getData]
    leaves the global generator either untouched or in the state that
    follows one draw from the generator seeded with [seed]; and
    whenever it returns tensors, the generator has been reseeded: the
    caller's generator state is lost. *)
Theorem generator_untouched_or_reseeded (jet_type : selection)
    (data_dir : string) (particle_features jet_features : feature_arg)
    (num_particles : Z) (split : string) (fr : Q * Q * Q) (seed : Z)
    (w : world) :
  (rng (snd (getData jet_type data_dir particle_features jet_features
               num_particles split fr seed w)) = rng w
   \/ exists n,
        rng (snd (getData jet_type data_dir particle_features jet_features
                    num_particles split fr seed w))
        = snd (permutation (seed_state seed) n))
  /\ (forall x,
        fst (getData jet_type data_dir particle_features jet_features
               num_particles split fr seed w) = Ok x ->
        exists n,
          rng (snd (getData jet_type data_dir particle_features jet_features
                      num_particles split fr seed w))
          = snd (permutation (seed_state seed) n)).
Proof.
  remember (getData jet_type data_dir particle_features jet_features
              num_particles split fr seed w) as r eqn:Hr.
  rewrite getData_stages in Hr. unfold bind at 1 in Hr. unfold lift at 1 in Hr.
  destruct (checkConvertElements jet_type jet_types) as [cats|e];
    [|subst r; cbn [fst snd]; split; [now left | discriminate]].
  unfold bind at 1 in Hr.
  match type of Hr with
  | context [load_jet_types ?a ?b ?c ?d ?e ?f ?g ?h w] =>
      pose proof (keeps_load_jet_types a b c d e f g h w) as Hk;
      destruct (load_jet_types a b c d e f g h w) as [[data|e'] w1]
  end; cbn [snd] in Hk;
    [|subst r; cbn [fst snd]; split; [now left | discriminate]].
  subst r. rewrite <- Hk. apply after_loading_rng.
Qed.

End Frames.

(** ** Which files are asked for *)

Section Downloads.

Import Utils JetNet View Stages.
Context {S : RawSource} {G : Generator}.

Lemma after_loading_trace (up uj : bool) (split : string) (fr : Q * Q * Q)
    (seed : Z) (data : list (option tensor3) * list (option tensor2))
    (w : world) :
  trace (snd (after_loading up uj split fr seed data w)) = trace w.
Proof.
  destruct data as [ps js].
  destruct (appends_after_loading (fun _ => False) up uj split fr seed ps js w)
    as (evs & Ht & Hf).
  change (trace (snd (after_loading up uj split fr seed (ps, js) w))
          = trace w ++ evs) in Ht.
  destruct evs as [|e evs]; [now rewrite app_nil_r in Ht|].
  inversion Hf as [|? ? Hfalse _]. destruct Hfalse.
Qed.

(** The loop asks for the files of a prefix of the jet types, in
    order, and for all of them when it completes. *)
Lemma load_jet_types_downloads (data_dir : string)
    (pfeat jfeat : option (list string)) (up uj u150 : bool) (K : Z)
    (cats : list string) (w : world) :
  exists evs n,
    snd (load_jet_types data_dir pfeat jfeat up uj u150 K cats w) = logged w evs
    /\ filter is_download evs = map (request data_dir u150) (firstn n cats)
    /\ (forall x,
          fst (load_jet_types data_dir pfeat jfeat up uj u150 K cats w) = Ok x ->
          n = length cats).
Proof.
  revert w. induction cats as [|j rest IH]; intros w.
  - exists [], 0%nat. cbn. unfold logged. rewrite app_nil_r.
    split; [now destruct w | split; reflexivity].
  - remember (load_jet_types data_dir pfeat jfeat up uj u150 K (j :: rest) w)
      as r eqn:Hr.
    cbn [load_jet_types] in Hr. unfold bind at 1 in Hr.
    rewrite load_jet_type_cases in Hr.
    destruct (ensureLocal _ _ _ _) as [path|].
    2:{ subst r. exists [request data_dir u150 j], 1%nat.
        cbn [fst snd]. split; [reflexivity|]. split; [reflexivity | discriminate]. }
    destruct (openFile path) as [f|].
    2:{ subst r. exists [request data_dir u150 j; OpenFile path], 1%nat.
        cbn [fst snd]. split; [reflexivity|]. split; [reflexivity | discriminate]. }
    destruct (processed pfeat jfeat up uj K j f) as [[pf jf]|e].
    2:{ subst r. exists [request data_dir u150 j; OpenFile path], 1%nat.
        cbn [fst snd]. split; [reflexivity|]. split; [reflexivity | discriminate]. }
    destruct (IH (logged w [request data_dir u150 j; OpenFile path]))
      as (evs & n & Hw & Hd & Hok).
    unfold bind in Hr.
    destruct (load_jet_types _ _ _ _ _ _ _ rest _) as [[[ps js]|e] w'];
      cbn [fst snd] in *; subst r w'; cbn [fst snd];
      exists ([request data_dir u150 j; OpenFile path] ++ evs), (Datatypes.S n);
      rewrite logged_logged; (split; [reflexivity|]);
      (split; [cbn [app filter is_download request firstn map]; now rewrite Hd|]).
    + intros x _. cbn [length]. f_equal. now apply (Hok (ps, js)).
    + discriminate.
Qed.

(** X12.  A selection that is not accepted is refused before anything
    else happens: the world is untouched.  Otherwise the files
    [getData] asks for are those of a prefix of the selected jet types,
    each asked for once and in the order of the selection, and those of
    all selected types whenever [getData] returns tensors. *)
Theorem downloads_in_order (jet_type : selection) (data_dir : string)
    (particle_features jet_features : feature_arg) (num_particles : Z)
    (split : string) (fr : Q * Q * Q) (seed : Z) (w : world) :
  (forall e,
     checkConvertElements jet_type jet_types = Raise e ->
     getData jet_type data_dir particle_features jet_features num_particles
       split fr seed w = (Raise e, w))
  /\ (forall cats,
        checkConvertElements jet_type jet_types = Ok cats ->
        exists evs n,
          trace (snd (getData jet_type data_dir particle_features jet_features
                        num_particles split fr seed w)) = trace w ++ evs
          /\ filter is_download evs
             = map (request data_dir (30 <? num_particles)%Z) (firstn n cats)
          /\ (forall x,
                fst (getData jet_type data_dir particle_features jet_features
                       num_particles split fr seed w) = Ok x ->
                n = length cats)).
Proof.
  split.
  - intros e He. rewrite getData_stages.
    erewrite bind_raise; [reflexivity|]. unfold lift. now rewrite He.
  - intros cats Hcats.
    remember (getData jet_type data_dir particle_features jet_features
                num_particles split fr seed w) as r eqn:Hr.
    rewrite getData_stages in Hr.
    erewrite bind_ok in Hr by (unfold lift; rewrite Hcats; reflexivity).
    unfold bind in Hr.
    match type of Hr with
    | context [load_jet_types ?a ?b ?c ?d ?e ?f ?g ?h w] =>
        destruct (load_jet_types_downloads a b c d e f g h w)
          as (evs & n & Hw & Hd & Hok);
        destruct (load_jet_types a b c d e f g h w) as [[data|e'] w1]
    end; cbn [fst snd] in *; subst w1.
    + exists evs, n. subst r. rewrite after_loading_trace.
      split; [reflexivity|]. split; [exact Hd|].
      intros x _. now apply (Hok data).
    + exists evs, n. subst r. cbn [fst snd].
      split; [reflexivity|]. split; [exact Hd | discriminate].
Qed.

End Downloads.

(** ** The rows of the splits *)

Section Rows.

Import Utils JetNet View Stages.

Lemma nth_seq_all {A} (t : list A) (d : A) :
  map (fun i => nth i t d) (seq 0 (length t)) = t.
Proof.
  induction t as [|x t IH]; [reflexivity|].
  cbn [length seq map nth]. f_equal.
  rewrite <- seq_shift, map_map. exact IH.
Qed.

(** Picking rows by a permutation of the positions gives a permutation
    of the rows. *)
Lemma shuffle_permutation {A} (t : list (list A)) (randperm : list nat) :
  Permutation randperm (seq 0 (length t)) ->
  Permutation (map (fun i => nth i t []) randperm) t.
Proof.
  intros Hperm.
  apply Permutation_trans
    with (map (fun i => nth i t []) (seq 0 (length t))).
  - now apply Permutation_map.
  - now rewrite nth_seq_all.
Qed.

Lemma shuffled_whole {A} (t : list (list A)) (randperm : list nat) :
  shuffled randperm 0 (Z.of_nat (length randperm)) t
  = map (fun i => nth i t []) randperm.
Proof.
  unfold shuffled. rewrite slice_inside by (rewrite ?length_map; lia).
  rewrite Nat2Z.id. change (Z.to_nat 0) with 0%nat.
  rewrite Nat.sub_0_r. cbn [skipn].
  apply firstn_all2. now rewrite length_map.
Qed.

Lemma shuffled_cut_length {A} (t : list (list A)) (randperm : list nat)
    (lcut rcut : Z) :
  (0 <= lcut <= rcut)%Z -> (rcut <= Z.of_nat (length randperm))%Z ->
  length (shuffled randperm lcut rcut t) = Z.to_nat (rcut - lcut).
Proof.
  intros Hl Hr. unfold shuffled.
  rewrite slice_inside by (rewrite ?length_map; lia).
  rewrite length_firstn, length_skipn, length_map. lia.
Qed.

Lemma shuffled_cover {A} (t : list (list A)) (randperm : list nat) (c0 c1 : Z) :
  (0 <= c0 <= c1)%Z -> (c1 <= Z.of_nat (length randperm))%Z ->
  shuffled randperm 0 c0 t ++ shuffled randperm c0 c1 t
  ++ shuffled randperm c1 (Z.of_nat (length randperm)) t
  = map (fun i => nth i t []) randperm.
Proof.
  intros H0 H1. unfold shuffled.
  rewrite <- (length_map (fun i => nth i t []) randperm).
  apply slice_cover; rewrite ?length_map; lia.
Qed.

Lemma permutation_length (randperm : list nat) (N : nat) :
  Permutation randperm (seq 0 N) -> length randperm = N.
Proof.
  intros Hperm. apply Permutation_length in Hperm. now rewrite length_seq in Hperm.
Qed.

Lemma qmin_within (v bound : Q) : (v <= bound)%Q -> Qmin v bound = v.
Proof.
  intros Hle. unfold Qmin, GenericMinMax.gmin.
  destruct (v ?= bound)%Q eqn:Hc; try reflexivity.
  apply Qgt_alt in Hc. apply Qlt_not_le in Hc. contradiction.
Qed.

Lemma slice_prefix_negative {A} (xs : list A) (k : Z) :
  (k < 0)%Z ->
  Py.slice None (Some k) xs = firstn (length xs - Z.to_nat (- k)) xs.
Proof.
  intros Hk. unfold Py.slice, Py.bound.
  destruct (Z.ltb_spec k 0); [|lia].
  rewrite Nat.sub_0_r. cbn [skipn]. f_equal. lia.
Qed.

(** X10.  When every value after the third channel of every raw jet row
    is already within the cap, lines 185-193 only put the class index in
    front: the raw features pass through unchanged. *)
Theorem clamp_within_cap (class_index : nat) (num_particles : Z) (jf : tensor2) :
  Forall (fun r : row =>
            Forall (fun v => (v <= inject_Z num_particles)%Q) (skipn 3 r)) jf ->
  add_class_index class_index num_particles jf
  = map (fun r => inject_Z (Z.of_nat class_index) :: r) jf.
Proof.
  intros Hin. rewrite add_class_index_rows.
  apply map_ext_in. intros r Hr. rewrite Forall_forall in Hin.
  specialize (Hin r Hr). unfold labelled. f_equal.
  rewrite <- (firstn_skipn 3 r) at 3. f_equal.
  rewrite <- (map_id (skipn 3 r)) at 2.
  apply map_ext_in. intros v Hv. rewrite Forall_forall in Hin.
  now apply qmin_within, Hin.
Qed.

(** X14.  The ten files of the dataset never collide: two jet types of
    the closed list, each with a resolution variant, get the same
    dataset name or the same file key only if they are the same type
    with the same variant, and the two variants live in different
    records. *)
Theorem dataset_keys_distinct (u v : bool) (j k : string) :
  In j jet_types -> In k jet_types ->
  (dataset_name u j = dataset_name v k -> u = v /\ j = k)
  /\ (key_of u j = key_of v k -> u = v /\ j = k)
  /\ (record_of u = record_of v -> u = v).
Proof.
  intros Hj Hk. cbn in Hj, Hk.
  repeat match goal with
         | H : _ \/ _ |- _ => destruct H as [<-|H]
         | H : False |- _ => destruct H
         end;
    destruct u, v; cbn; repeat split; try discriminate; auto.
Qed.

End Rows.

(** ** What the splits return *)

Section Splits.

Import Utils JetNet View Stages.
Context {RS : RawSource} {G : Generator}.

Lemma retrievable_located (data_dir : string) (u150 : bool)
    (loaded : list (string * hdf5)) :
  Forall (fun jf => exists path,
            available data_dir u150 (fst jf) path (snd jf)) loaded ->
  exists paths, located data_dir u150 loaded paths.
Proof.
  intros Havail. induction Havail as [|jf loaded [path Hjf] _ [paths IH]].
  - exists []. apply Forall2_nil.
  - exists (path :: paths). now apply Forall2_cons.
Qed.

(** The tensors of a run whose range is [lcut, rcut). *)
Lemma getData_rows (jet_type : selection) (data_dir : string)
    (particle_features jet_features : feature_arg) (num_particles : Z)
    (split : string) (fr : Q * Q * Q) (seed : Z)
    (loaded : list (string * hdf5)) (lcut rcut : Z) (w : world) :
  let pfeat := names (checkStrToList particle_features) in
  let jfeat := names (checkStrToList jet_features) in
  let up := checkListNotEmpty (checkStrToList particle_features) in
  let uj := checkListNotEmpty (checkStrToList jet_features) in
  let randperm := fst (permutation (seed_state seed) (total loaded)) in
  checkConvertElements jet_type jet_types = Ok (map fst loaded) ->
  loaded <> [] ->
  retrievable data_dir (30 <? num_particles)%Z loaded ->
  known pfeat particle_features_order = true ->
  known jfeat jet_features_order = true ->
  up || uj = true ->
  seed_accepted seed = true ->
  getSplitting (total loaded) split splits fr = Ok (lcut, rcut) ->
  fst (getData jet_type data_dir particle_features jet_features
         num_particles split fr seed w)
  = Ok (if up
        then Some (shuffled randperm lcut rcut
                     (particle_rows pfeat num_particles loaded))
        else None,
        if uj
        then Some (shuffled randperm lcut rcut
                     (jet_rows jfeat num_particles loaded))
        else None).
Proof.
  intros pfeat jfeat up uj randperm Hcats Hne [Havail Hwf] Hpk Hjk Huse
    Hseed Hsplit.
  destruct (retrievable_located _ _ _ Havail) as [paths Hloc].
  now rewrite (getData_world _ _ _ _ _ _ _ _ loaded paths w Hcats Hne Hloc Hwf
                 Hpk Hjk Huse lcut rcut Hsplit Hseed).
Qed.

(** X6.  When the range of the split is the whole of [0, N), as it is
    for the split name all, a successful [getData] returns every loaded
    row exactly once: each returned tensor is a permutation of the
    concatenated per-type array. *)
Theorem all_split_returns_every_row (jet_type : selection) (data_dir : string)
    (particle_features jet_features : feature_arg) (num_particles : Z)
    (split : string) (fr : Q * Q * Q) (seed : Z)
    (loaded : list (string * hdf5)) (w : world) :
  let pfeat := names (checkStrToList particle_features) in
  let jfeat := names (checkStrToList jet_features) in
  let up := checkListNotEmpty (checkStrToList particle_features) in
  let uj := checkListNotEmpty (checkStrToList jet_features) in
  checkConvertElements jet_type jet_types = Ok (map fst loaded) ->
  loaded <> [] ->
  retrievable data_dir (30 <? num_particles)%Z loaded ->
  known pfeat particle_features_order = true ->
  known jfeat jet_features_order = true ->
  up || uj = true ->
  seed_accepted seed = true ->
  getSplitting (total loaded) split splits fr
  = Ok (0%Z, Z.of_nat (total loaded)) ->
  exists P J,
    fst (getData jet_type data_dir particle_features jet_features
           num_particles split fr seed w)
    = Ok (if up then Some P else None, if uj then Some J else None)
    /\ Permutation P (particle_rows pfeat num_particles loaded)
    /\ Permutation J (jet_rows jfeat num_particles loaded).
Proof.
  intros pfeat jfeat up uj Hcats Hne Hret Hpk Hjk Huse Hseed Hsplit.
  pose proof (getData_rows jet_type data_dir particle_features jet_features
                num_particles split fr seed loaded _ _ w Hcats Hne Hret Hpk Hjk
                Huse Hseed Hsplit) as Hrun.
  destruct Hret as [_ Hwf].
  pose proof (permutation_spec (seed_state seed) (total loaded)) as Hperm.
  pose proof (permutation_length _ _ Hperm) as Hlen.
  rewrite <- Hlen in Hrun at 2 4. rewrite !shuffled_whole in Hrun.
  eexists _, _. split; [exact Hrun|]. split.
  - apply shuffle_permutation. now rewrite particle_rows_length.
  - apply shuffle_permutation. now rewrite jet_rows_length.
Qed.

(** X7.  Calls of [getData] that differ only in the split name share
    one shuffle: when the ranges of three split names are the
    consecutive blocks [0, c0), [c0, c1) and [c1, N), as they are for
    train, valid and test, the three results, one after the other, are
    exactly the result of a call whose range is [0, N); so together they
    hold every loaded row exactly once and no row is in two splits. *)
Theorem splits_partition_the_data (jet_type : selection) (data_dir : string)
    (particle_features jet_features : feature_arg) (num_particles : Z)
    (train valid test all : string) (fr : Q * Q * Q) (seed : Z)
    (loaded : list (string * hdf5)) (c0 c1 : Z) (w : world) :
  let pfeat := names (checkStrToList particle_features) in
  let jfeat := names (checkStrToList jet_features) in
  let up := checkListNotEmpty (checkStrToList particle_features) in
  let uj := checkListNotEmpty (checkStrToList jet_features) in
  let N := Z.of_nat (total loaded) in
  let run := fun split =>
    fst (getData jet_type data_dir particle_features jet_features
           num_particles split fr seed w) in
  checkConvertElements jet_type jet_types = Ok (map fst loaded) ->
  loaded <> [] ->
  retrievable data_dir (30 <? num_particles)%Z loaded ->
  known pfeat particle_features_order = true ->
  known jfeat jet_features_order = true ->
  up || uj = true ->
  seed_accepted seed = true ->
  getSplitting (total loaded) train splits fr = Ok (0%Z, c0) ->
  getSplitting (total loaded) valid splits fr = Ok (c0, c1) ->
  getSplitting (total loaded) test splits fr = Ok (c1, N) ->
  getSplitting (total loaded) all splits fr = Ok (0%Z, N) ->
  (0 <= c0 <= c1)%Z -> (c1 <= N)%Z ->
  exists Ptr Pva Pte Jtr Jva Jte,
    run train
    = Ok (if up then Some Ptr else None, if uj then Some Jtr else None)
    /\ run valid
       = Ok (if up then Some Pva else None, if uj then Some Jva else None)
    /\ run test
       = Ok (if up then Some Pte else None, if uj then Some Jte else None)
    /\ run all
       = Ok (if up then Some (Ptr ++ Pva ++ Pte) else None,
             if uj then Some (Jtr ++ Jva ++ Jte) else None)
    /\ Permutation (Ptr ++ Pva ++ Pte) (particle_rows pfeat num_particles loaded)
    /\ Permutation (Jtr ++ Jva ++ Jte) (jet_rows jfeat num_particles loaded).
Proof.
  intros pfeat jfeat up uj N run Hcats Hne Hret Hpk Hjk Huse Hseed
    Htr Hva Hte Hall H01 H1N.
  pose proof (fun split lcut rcut =>
                getData_rows jet_type data_dir particle_features jet_features
                  num_particles split fr seed loaded lcut rcut w Hcats Hne Hret
                  Hpk Hjk Huse Hseed) as Hrun.
  destruct Hret as [_ Hwf].
  pose proof (permutation_spec (seed_state seed) (total loaded)) as Hperm.
  pose proof (permutation_length _ _ Hperm) as Hlen.
  set (randperm := fst (permutation (seed_state seed) (total loaded))) in *.
  eexists _, _, _, _, _, _.
  split; [apply (Hrun train _ _ Htr)|].
  split; [apply (Hrun valid _ _ Hva)|].
  split; [apply (Hrun test _ _ Hte)|].
  unfold N in *. rewrite <- Hlen in H1N |- *.
  rewrite (shuffled_cover (particle_rows pfeat num_particles loaded)) by lia.
  rewrite (shuffled_cover (jet_rows jfeat num_particles loaded)) by lia.
  split; [|split].
  - unfold run. rewrite (Hrun all _ _ Hall). fold randperm.
    rewrite <- Hlen. now rewrite !shuffled_whole.
  - apply shuffle_permutation. now rewrite particle_rows_length.
  - apply shuffle_permutation. now rewrite jet_rows_length.
Qed.

(** X8.  A successful [getData] whose range [lcut, rcut) lies inside
    [0, N] returns [rcut - lcut] rows; the particle tensor and the jet
    tensor have the same number of rows. *)
Theorem split_sizes (jet_type : selection) (data_dir : string)
    (particle_features jet_features : feature_arg) (num_particles : Z)
    (split : string) (fr : Q * Q * Q) (seed : Z)
    (loaded : list (string * hdf5)) (lcut rcut : Z) (w : world) :
  let pfeat := names (checkStrToList particle_features) in
  let jfeat := names (checkStrToList jet_features) in
  let up := checkListNotEmpty (checkStrToList particle_features) in
  let uj := checkListNotEmpty (checkStrToList jet_features) in
  checkConvertElements jet_type jet_types = Ok (map fst loaded) ->
  loaded <> [] ->
  retrievable data_dir (30 <? num_particles)%Z loaded ->
  known pfeat particle_features_order = true ->
  known jfeat jet_features_order = true ->
  up || uj = true ->
  seed_accepted seed = true ->
  getSplitting (total loaded) split splits fr = Ok (lcut, rcut) ->
  (0 <= lcut <= rcut)%Z -> (rcut <= Z.of_nat (total loaded))%Z ->
  exists P J,
    fst (getData jet_type data_dir particle_features jet_features
           num_particles split fr seed w)
    = Ok (if up then Some P else None, if uj then Some J else None)
    /\ length P = Z.to_nat (rcut - lcut)
    /\ length J = Z.to_nat (rcut - lcut).
Proof.
  intros pfeat jfeat up uj Hcats Hne Hret Hpk Hjk Huse Hseed Hsplit Hlr HrN.
  pose proof (getData_rows jet_type data_dir particle_features jet_features
                num_particles split fr seed loaded _ _ w Hcats Hne Hret Hpk Hjk
                Huse Hseed Hsplit) as Hrun.
  pose proof (permutation_length _ _
                (permutation_spec (seed_state seed) (total loaded))) as Hlen.
  eexists _, _. split; [exact Hrun|].
  split; apply shuffled_cut_length; rewrite ?Hlen; assumption.
Qed.

End Splits.

(** ** Shapes, odd caps and independence of the two tensors *)

Section Shapes.

Import Utils JetNet View Stages.
Context {RS : RawSource} {G : Generator}.

(** X11.  The shape of what a successful [getData] returns, for a cap
    that is a count: every particle example has at most [num_particles]
    elements, every element has one channel per requested particle
    feature, and every jet row has one channel per requested jet
    feature. *)
Theorem result_shapes (jet_type : selection) (data_dir : string)
    (particle_features jet_features : feature_arg) (num_particles : Z)
    (split : string) (fr : Q * Q * Q) (seed : Z)
    (loaded : list (string * hdf5)) (lcut rcut : Z) (w : world) :
  let pfeat := names (checkStrToList particle_features) in
  let jfeat := names (checkStrToList jet_features) in
  let up := checkListNotEmpty (checkStrToList particle_features) in
  let uj := checkListNotEmpty (checkStrToList jet_features) in
  (0 <= num_particles)%Z ->
  checkConvertElements jet_type jet_types = Ok (map fst loaded) ->
  loaded <> [] ->
  retrievable data_dir (30 <? num_particles)%Z loaded ->
  known pfeat particle_features_order = true ->
  known jfeat jet_features_order = true ->
  up || uj = true ->
  getSplitting (total loaded) split splits fr = Ok (lcut, rcut) ->
  seed_accepted seed = true ->
  exists P J,
    fst (getData jet_type data_dir particle_features jet_features
           num_particles split fr seed w)
    = Ok (if up then Some P else None, if uj then Some J else None)
    /\ Forall (fun example : list row =>
                 (length example <= Z.to_nat num_particles)%nat
                 /\ Forall (fun r : row => length r = length pfeat) example)
         P
    /\ Forall (fun r : row => length r = length jfeat) J.
Proof.
  intros pfeat jfeat up uj HK Hcats Hne Hret Hpk Hjk Huse Hsplit Hseed.
  pose proof (getData_rows jet_type data_dir particle_features jet_features
                num_particles split fr seed loaded _ _ w Hcats Hne Hret Hpk Hjk
                Huse Hseed Hsplit) as Hrun.
  destruct Hret as [_ Hwf].
  pose proof (permutation_in_range _ _
                (permutation_spec (seed_state seed) (total loaded))) as Hrange.
  eexists _, _. split; [exact Hrun|]. split.
  - eapply Forall_impl; [|apply shuffled_In].
    + intros p Hp. apply particle_rows_In in Hp.
      destruct Hp as (j & f & raw & _ & _ & ->).
      unfold particle_example. rewrite slice_prefix by lia. split.
      * rewrite length_map, length_firstn. lia.
      * apply Forall_map, Forall_forall. intros r _.
        unfold select. apply length_map.
    + now rewrite particle_rows_length.
  - eapply Forall_impl; [|apply shuffled_In].
    + intros r Hr. apply jet_rows_In in Hr.
      destruct Hr as (j & f & raw & _ & _ & ->).
      unfold jet_example, select. apply length_map.
    + now rewrite jet_rows_length.
Qed.

(** X9.  A negative cap is not rejected either: line 172 then cuts from
    the end, so for an otherwise valid request [getData] returns
    tensors in which every particle example has lost its last
    [- num_particles] elements (all of them when it has no more). *)
Theorem negative_cap_drops_the_tail (jet_type : selection) (data_dir : string)
    (particle_features jet_features : feature_arg) (num_particles : Z)
    (split : string) (fr : Q * Q * Q) (seed : Z)
    (loaded : list (string * hdf5)) (lcut rcut : Z) (w : world) :
  let pfeat := names (checkStrToList particle_features) in
  let jfeat := names (checkStrToList jet_features) in
  let up := checkListNotEmpty (checkStrToList particle_features) in
  let uj := checkListNotEmpty (checkStrToList jet_features) in
  (num_particles < 0)%Z ->
  checkConvertElements jet_type jet_types = Ok (map fst loaded) ->
  loaded <> [] ->
  retrievable data_dir false loaded ->
  known pfeat particle_features_order = true ->
  known jfeat jet_features_order = true ->
  up || uj = true ->
  getSplitting (total loaded) split splits fr = Ok (lcut, rcut) ->
  seed_accepted seed = true ->
  exists P J,
    fst (getData jet_type data_dir particle_features jet_features
           num_particles split fr seed w)
    = Ok (if up then Some P else None, if uj then Some J else None)
    /\ Forall (fun p : list row =>
                 exists j f raw,
                   In (j, f) loaded /\ In raw (Hdf5.particle_features f)
                   /\ p = map (select pfeat particle_features_order)
                            (firstn (length raw - Z.to_nat (- num_particles)) raw)
                   /\ length p = (length raw - Z.to_nat (- num_particles))%nat)
         P.
Proof.
  intros pfeat jfeat up uj HK Hcats Hne Hret Hpk Hjk Huse Hsplit Hseed.
  assert (H30 : (30 <? num_particles)%Z = false) by (apply Z.ltb_ge; lia).
  rewrite <- H30 in Hret.
  pose proof (getData_rows jet_type data_dir particle_features jet_features
                num_particles split fr seed loaded _ _ w Hcats Hne Hret Hpk Hjk
                Huse Hseed Hsplit) as Hrun.
  destruct Hret as [_ Hwf].
  pose proof (permutation_in_range _ _
                (permutation_spec (seed_state seed) (total loaded))) as Hrange.
  eexists _, _. split; [exact Hrun|].
  eapply Forall_impl; [|apply shuffled_In].
  - intros p Hp. apply particle_rows_In in Hp.
    destruct Hp as (j & f & raw & Hin & Hraw & ->).
    exists j, f, raw. split; [exact Hin|]. split; [exact Hraw|].
    unfold particle_example. rewrite slice_prefix_negative by lia.
    split; [reflexivity|]. rewrite length_map, length_firstn. lia.
  - now rewrite particle_rows_length.
Qed.

(** X15.  The two tensors do not influence each other: when a request
    for both kinds of features succeeds, asking for the particle
    features alone returns the same particle tensor, and asking for the
    jet features alone returns the same jet tensor. *)
Theorem tensors_independent (jet_type : selection) (data_dir : string)
    (particle_features jet_features : feature_arg) (num_particles : Z)
    (split : string) (fr : Q * Q * Q) (seed : Z)
    (loaded : list (string * hdf5)) (lcut rcut : Z) (w : world) :
  let pfeat := names (checkStrToList particle_features) in
  let jfeat := names (checkStrToList jet_features) in
  checkListNotEmpty (checkStrToList particle_features) = true ->
  checkListNotEmpty (checkStrToList jet_features) = true ->
  checkConvertElements jet_type jet_types = Ok (map fst loaded) ->
  loaded <> [] ->
  retrievable data_dir (30 <? num_particles)%Z loaded ->
  known pfeat particle_features_order = true ->
  known jfeat jet_features_order = true ->
  getSplitting (total loaded) split splits fr = Ok (lcut, rcut) ->
  seed_accepted seed = true ->
  exists P J,
    fst (getData jet_type data_dir particle_features jet_features
           num_particles split fr seed w) = Ok (Some P, Some J)
    /\ fst (getData jet_type data_dir particle_features NoFeatures
              num_particles split fr seed w) = Ok (Some P, None)
    /\ fst (getData jet_type data_dir NoFeatures jet_features
              num_particles split fr seed w) = Ok (None, Some J).
Proof.
  intros pfeat jfeat Hup Huj Hcats Hne Hret Hpk Hjk Hsplit Hseed.
  assert (Hboth := getData_rows jet_type data_dir particle_features jet_features
                     num_particles split fr seed loaded lcut rcut w Hcats Hne
                     Hret Hpk Hjk).
  assert (Hpart := getData_rows jet_type data_dir particle_features NoFeatures
                     num_particles split fr seed loaded lcut rcut w Hcats Hne
                     Hret Hpk eq_refl).
  assert (Hjet := getData_rows jet_type data_dir NoFeatures jet_features
                    num_particles split fr seed loaded lcut rcut w Hcats Hne
                    Hret eq_refl Hjk).
  cbv zeta in Hboth, Hpart, Hjet.
  cbn [checkStrToList checkListNotEmpty] in Hpart, Hjet.
  rewrite Hup, Huj in Hboth. rewrite Hup in Hpart. rewrite Huj in Hjet.
  eexists _, _.
  split; [apply Hboth; auto|]. split; [apply Hpart; auto | apply Hjet; auto].
Qed.

(** X16.  End to end, with the jet features requested in their
    canonical order: every returned jet row comes from a raw row of the
    file of a selected jet type; its first channel is the position of
    that type in the closed list of jet types, its next three channels
    are the raw ones, and its last channel, the particle count, is the
    raw count bounded by the cap. *)
Theorem labels_and_counts_returned (jet_type : selection) (data_dir : string)
    (particle_features : feature_arg) (num_particles : Z)
    (split : string) (fr : Q * Q * Q) (seed : Z)
    (loaded : list (string * hdf5)) (lcut rcut : Z) (w : world) :
  let pfeat := names (checkStrToList particle_features) in
  let up := checkListNotEmpty (checkStrToList particle_features) in
  checkConvertElements jet_type jet_types = Ok (map fst loaded) ->
  loaded <> [] ->
  retrievable data_dir (30 <? num_particles)%Z loaded ->
  known pfeat particle_features_order = true ->
  getSplitting (total loaded) split splits fr = Ok (lcut, rcut) ->
  seed_accepted seed = true ->
  exists P J,
    fst (getData jet_type data_dir particle_features
           (FeatureList jet_features_order) num_particles split fr seed w)
    = Ok (if up then Some P else None, Some J)
    /\ Forall (fun r : row =>
                 exists j f pt eta mass count,
                   In (j, f) loaded
                   /\ In [pt; eta; mass; count] (Hdf5.jet_features f)
                   /\ nth_error jet_types (class_of j) = Some j
                   /\ r = [inject_Z (Z.of_nat (class_of j)); pt; eta; mass;
                           Qmin count (inject_Z num_particles)]
                   /\ (Qmin count (inject_Z num_particles)
                       <= inject_Z num_particles)%Q)
         J.
Proof.
  intros pfeat up Hcats Hne Hret Hpk Hsplit Hseed.
  pose proof (getData_rows jet_type data_dir particle_features
                (FeatureList jet_features_order) num_particles split fr seed
                loaded lcut rcut w Hcats Hne Hret Hpk eq_refl) as Hrun.
  cbv zeta in Hrun. cbn [checkStrToList checkListNotEmpty names] in Hrun.
  fold pfeat up in Hrun.
  pose proof (checkConvertElements_valid _ _ _ Hcats) as Htypes.
  rewrite Forall_map in Htypes.
  destruct Hret as [_ Hwf].
  eexists _, _. split.
  { apply Hrun; [apply orb_true_r | exact Hseed | exact Hsplit]. }
  eapply Forall_impl; [|apply shuffled_In].
  - intros r Hr. apply jet_rows_In in Hr.
    destruct Hr as (j & f & raw & Hin & Hraw & ->).
    rewrite Forall_forall in Hwf, Htypes.
    destruct (Hwf _ Hin) as (_ & _ & Hrows). cbn [snd] in Hrows.
    rewrite Forall_forall in Hrows. specialize (Hrows raw Hraw).
    specialize (Htypes _ Hin). cbn [fst] in Htypes.
    destruct raw as [|pt [|eta [|mass [|count [|x raw]]]]]; try discriminate.
    exists j, f, pt, eta, mass, count.
    split; [exact Hin|]. split; [exact Hraw|].
    split.
    { destruct (column_index _ _ Htypes) as [Hc _].
      apply (index_Some _ _ _ Hc). }
    split; [reflexivity | apply Q.le_min_r].
  - rewrite jet_rows_length.
    apply permutation_in_range, permutation_spec.
Qed.

End Shapes.

(** ** The further properties on the sample world *)

Section MoreExamples.

Import Utils JetNet View Stages Sample.

Lemma located30 : located "./" false loaded30 paths30.
Proof.
  apply Forall2_cons; [split; reflexivity|].
  apply Forall2_cons; [split; reflexivity | apply Forall2_nil].
Qed.

Lemma well_formed30 : Forall (fun jf => well_formed (snd jf)) loaded30.
Proof. apply retrievable30. Qed.

Lemma loaded30_not_empty : loaded30 <> [].
Proof. discriminate. Qed.

Ltac side_conditions :=
  repeat match goal with |- _ /\ _ => split end;
  first [ assumption | reflexivity | lia | discriminate
        | exact located30 | exact well_formed30
        | exact retrievable30 | exact retrievable150
        | exact valid_train | exact valid_all
        | right; lia | left; lia | cbn; lia ].

Lemma one_visit_per_jet_type_witness :
  (checkConvertElements (Many ["t"; "g"]%string) jet_types = Ok (map fst loaded30)
   /\ loaded30 <> []
   /\ located "./" (30 <? 2)%Z loaded30 paths30
   /\ Forall (fun jf => well_formed (snd jf)) loaded30
   /\ known (names (checkStrToList (OneFeature "mask"))) particle_features_order
      = true
   /\ known (names (checkStrToList NoFeatures)) jet_features_order = true
   /\ checkListNotEmpty (checkStrToList (OneFeature "mask"))
      || checkListNotEmpty (checkStrToList NoFeatures) = true
   /\ getSplitting (total loaded30) "train" splits fractions = Ok (0%Z, 4%Z)
   /\ seed_accepted 42 = true)
  /\ snd (getData (Many ["t"; "g"]%string) "./" (OneFeature "mask") NoFeatures
            2 "train" fractions 42 w0)
     = {| rng := snd (permutation (seed_state 42) (total loaded30));
          trace := trace w0 ++ visits "./" (30 <? 2)%Z
                                 (combine (map fst loaded30) paths30) |}.
Proof.
  split; [side_conditions|].
  apply (one_visit_per_jet_type (Many ["t"; "g"]%string) "./"
           (OneFeature "mask") NoFeatures 2 "train" fractions 42
           loaded30 paths30 0 4 w0 eq_refl loaded30_not_empty located30
           well_formed30 eq_refl eq_refl eq_refl eq_refl eq_refl).
Defined.

Lemma generator_untouched_or_reseeded_witness :
  fst (getData (One "g") "./" (OneFeature "mask") NoFeatures 2 "all"
         fractions 42 later)
  = Ok (Some [[[1 # 1]; [1 # 1]]; [[1 # 1]; [1 # 1]]; [[1 # 1]; [0 # 1]]], None)
  /\ exists n,
       rng (snd (getData (One "g") "./" (OneFeature "mask") NoFeatures 2 "all"
                   fractions 42 later))
       = snd (permutation (seed_state 42) n).
Proof.
  split; [reflexivity|].
  destruct (generator_untouched_or_reseeded (One "g") "./" (OneFeature "mask")
              NoFeatures 2 "all" fractions 42 later) as [_ Hok].
  eapply Hok. reflexivity.
Defined.

Lemma split_error_after_loading_witness :
  (checkConvertElements (Many ["t"; "g"]%string) jet_types = Ok (map fst loaded30)
   /\ loaded30 <> []
   /\ located "./" (30 <? 2)%Z loaded30 paths30
   /\ Forall (fun jf => well_formed (snd jf)) loaded30
   /\ known (names (checkStrToList (OneFeature "mask"))) particle_features_order
      = true
   /\ known (names (checkStrToList NoFeatures)) jet_features_order = true
   /\ checkListNotEmpty (checkStrToList (OneFeature "mask"))
      || checkListNotEmpty (checkStrToList NoFeatures) = true
   /\ getSplitting (total loaded30) "tests" splits fractions
      = Raise InvalidSplitError)
  /\ getData (Many ["t"; "g"]%string) "./" (OneFeature "mask") NoFeatures
       2 "tests" fractions 42 w0
     = (Raise InvalidSplitError,
        logged w0 (visits "./" (30 <? 2)%Z (combine (map fst loaded30) paths30))).
Proof.
  split; [side_conditions|].
  apply (split_error_after_loading (Many ["t"; "g"]%string) "./"
           (OneFeature "mask") NoFeatures 2 "tests" fractions 42
           loaded30 paths30 InvalidSplitError w0 eq_refl loaded30_not_empty
           located30 well_formed30 eq_refl eq_refl eq_refl eq_refl).
Defined.

Lemma rejected_seed_after_loading_witness :
  (checkConvertElements (Many ["t"; "g"]%string) jet_types = Ok (map fst loaded30)
   /\ loaded30 <> []
   /\ located "./" (30 <? 2)%Z loaded30 paths30
   /\ Forall (fun jf => well_formed (snd jf)) loaded30
   /\ known (names (checkStrToList (OneFeature "mask"))) particle_features_order
      = true
   /\ known (names (checkStrToList NoFeatures)) jet_features_order = true
   /\ checkListNotEmpty (checkStrToList (OneFeature "mask"))
      || checkListNotEmpty (checkStrToList NoFeatures) = true
   /\ getSplitting (total loaded30) "train" splits fractions = Ok (0%Z, 4%Z)
   /\ (-1 < 0 \/ 2 ^ 32 <= -1)%Z)
  /\ getData (Many ["t"; "g"]%string) "./" (OneFeature "mask") NoFeatures
       2 "train" fractions (-1) w0
     = (Raise ValueError,
        logged w0 (visits "./" (30 <? 2)%Z (combine (map fst loaded30) paths30))).
Proof.
  assert (Hseed : (-1 < 0 \/ 2 ^ 32 <= -1)%Z) by (left; lia).
  split; [side_conditions|].
  apply (rejected_seed_after_loading (Many ["t"; "g"]%string) "./"
           (OneFeature "mask") NoFeatures 2 "train" fractions (-1)
           loaded30 paths30 0 4 w0 eq_refl loaded30_not_empty
           located30 well_formed30 eq_refl eq_refl eq_refl eq_refl Hseed).
Defined.

Lemma empty_selection_fails_witness :
  (checkConvertElements (Many []) jet_types = Ok []
   /\ checkListNotEmpty (checkStrToList NoFeatures)
      || checkListNotEmpty (checkStrToList (OneFeature "pt")) = true)
  /\ getData (Many []) "./" NoFeatures (OneFeature "pt") 30 "train"
       fractions 42 w0
     = (Raise ValueError, w0).
Proof.
  split; [side_conditions|].
  apply (empty_selection_fails (Many []) "./" NoFeatures (OneFeature "pt") 30
           "train" fractions 42 w0 eq_refl eq_refl).
Defined.

Lemma retrieval_failure_stops_witness :
  (checkConvertElements (Many ["q"; "g"]%string) jet_types
   = Ok (map fst [("g"%string, g30)] ++ "q"%string :: [])
   /\ located "./" (30 <? 30)%Z [("g"%string, g30)] ["./g.hdf5"%string]
   /\ Forall (fun jf => well_formed (snd jf)) [("g"%string, g30)]
   /\ known (names (checkStrToList (OneFeature "mask"))) particle_features_order
      = true
   /\ known (names (checkStrToList NoFeatures)) jet_features_order = true
   /\ failure_events "./" (30 <? 30)%Z "q"
      = Some [request "./" false "q"; OpenFile "./q.hdf5"])
  /\ getData (Many ["q"; "g"]%string) "./" (OneFeature "mask") NoFeatures
       30 "train" fractions 42 w0
     = (Raise RetrievalError,
        logged w0
          (visits "./" (30 <? 30)%Z
             (combine (map fst [("g"%string, g30)]) ["./g.hdf5"%string])
           ++ [request "./" false "q"; OpenFile "./q.hdf5"])).
Proof.
  assert (Hloc : located "./" (30 <? 30)%Z [("g"%string, g30)]
                   ["./g.hdf5"%string])
    by (apply Forall2_cons; [split; reflexivity | apply Forall2_nil]).
  assert (Hwf : Forall (fun jf => well_formed (snd jf)) [("g"%string, g30)])
    by (apply Forall_cons; [apply well_formed_g30 | apply Forall_nil]).
  split; [side_conditions|].
  apply (retrieval_failure_stops (Many ["q"; "g"]%string) "./"
           (OneFeature "mask") NoFeatures 30 "train" fractions 42
           [("g"%string, g30)] ["./g.hdf5"%string] "q" []
           [request "./" false "q"; OpenFile "./q.hdf5"] w0
           eq_refl Hloc Hwf eq_refl eq_refl eq_refl).
Defined.

Lemma all_split_returns_every_row_witness :
  (checkConvertElements (Many ["t"; "g"]%string) jet_types = Ok (map fst loaded30)
   /\ loaded30 <> []
   /\ retrievable "./" (30 <? 2)%Z loaded30
   /\ known ["mask"]%string particle_features_order = true
   /\ known ["pt"]%string jet_features_order = true
   /\ checkListNotEmpty (checkStrToList (OneFeature "mask"))
      || checkListNotEmpty (checkStrToList (OneFeature "pt")) = true
   /\ seed_accepted 42 = true
   /\ getSplitting (total loaded30) "all" splits fractions
      = Ok (0%Z, Z.of_nat (total loaded30)))
  /\ exists P J,
       fst (getData (Many ["t"; "g"]%string) "./" (OneFeature "mask")
              (OneFeature "pt") 2 "all" fractions 42 w0) = Ok (Some P, Some J)
       /\ Permutation P (particle_rows ["mask"]%string 2 loaded30)
       /\ Permutation J (jet_rows ["pt"]%string 2 loaded30).
Proof.
  split; [side_conditions|].
  apply (all_split_returns_every_row (Many ["t"; "g"]%string) "./"
           (OneFeature "mask") (OneFeature "pt") 2 "all" fractions 42
           loaded30 w0 eq_refl loaded30_not_empty retrievable30 eq_refl
           eq_refl eq_refl eq_refl eq_refl).
Defined.

Lemma splits_partition_the_data_witness :
  (checkConvertElements (Many ["t"; "g"]%string) jet_types = Ok (map fst loaded30)
   /\ loaded30 <> []
   /\ retrievable "./" (30 <? 2)%Z loaded30
   /\ known ["mask"]%string particle_features_order = true
   /\ known ["pt"]%string jet_features_order = true
   /\ checkListNotEmpty (checkStrToList (OneFeature "mask"))
      || checkListNotEmpty (checkStrToList (OneFeature "pt")) = true
   /\ seed_accepted 42 = true
   /\ getSplitting (total loaded30) "train" splits fractions = Ok (0%Z, 4%Z)
   /\ getSplitting (total loaded30) "valid" splits fractions = Ok (4%Z, 4%Z)
   /\ getSplitting (total loaded30) "test" splits fractions
      = Ok (4%Z, Z.of_nat (total loaded30))
   /\ getSplitting (total loaded30) "all" splits fractions
      = Ok (0%Z, Z.of_nat (total loaded30))
   /\ (0 <= 4 <= 4)%Z /\ (4 <= Z.of_nat (total loaded30))%Z)
  /\ exists Ptr Pva Pte Jtr Jva Jte,
       fst (getData (Many ["t"; "g"]%string) "./" (OneFeature "mask")
              (OneFeature "pt") 2 "train" fractions 42 w0)
       = Ok (Some Ptr, Some Jtr)
       /\ fst (getData (Many ["t"; "g"]%string) "./" (OneFeature "mask")
                 (OneFeature "pt") 2 "valid" fractions 42 w0)
          = Ok (Some Pva, Some Jva)
       /\ fst (getData (Many ["t"; "g"]%string) "./" (OneFeature "mask")
                 (OneFeature "pt") 2 "test" fractions 42 w0)
          = Ok (Some Pte, Some Jte)
       /\ fst (getData (Many ["t"; "g"]%string) "./" (OneFeature "mask")
                 (OneFeature "pt") 2 "all" fractions 42 w0)
          = Ok (Some (Ptr ++ Pva ++ Pte), Some (Jtr ++ Jva ++ Jte)).
Proof.
  split; [side_conditions|].
  destruct (splits_partition_the_data (Many ["t"; "g"]%string) "./"
              (OneFeature "mask") (OneFeature "pt") 2 "train" "valid" "test"
              "all" fractions 42 loaded30 4 4 w0
              eq_refl loaded30_not_empty retrievable30 eq_refl eq_refl eq_refl
              eq_refl eq_refl eq_refl eq_refl eq_refl ltac:(lia)
              ltac:(cbn; lia))
    as (Ptr & Pva & Pte & Jtr & Jva & Jte & H1 & H2 & H3 & H4 & _).
  exists Ptr, Pva, Pte, Jtr, Jva, Jte.
  split; [exact H1|]. split; [exact H2|]. split; [exact H3 | exact H4].
Defined.

Lemma split_sizes_witness :
  (checkConvertElements (Many ["t"; "g"]%string) jet_types = Ok (map fst loaded30)
   /\ loaded30 <> []
   /\ retrievable "./" (30 <? 2)%Z loaded30
   /\ known ["mask"]%string particle_features_order = true
   /\ known ["pt"]%string jet_features_order = true
   /\ checkListNotEmpty (checkStrToList (OneFeature "mask"))
      || checkListNotEmpty (checkStrToList (OneFeature "pt")) = true
   /\ seed_accepted 42 = true
   /\ getSplitting (total loaded30) "train" splits fractions = Ok (0%Z, 4%Z)
   /\ (0 <= 0 <= 4)%Z /\ (4 <= Z.of_nat (total loaded30))%Z)
  /\ exists P J,
       fst (getData (Many ["t"; "g"]%string) "./" (OneFeature "mask")
              (OneFeature "pt") 2 "train" fractions 42 w0)
       = Ok (Some P, Some J)
       /\ length P = Z.to_nat (4 - 0)
       /\ length J = Z.to_nat (4 - 0).
Proof.
  split; [side_conditions|].
  apply (split_sizes (Many ["t"; "g"]%string) "./" (OneFeature "mask")
           (OneFeature "pt") 2 "train" fractions 42 loaded30 0 4 w0
           eq_refl loaded30_not_empty retrievable30 eq_refl eq_refl eq_refl
           eq_refl eq_refl ltac:(lia) ltac:(cbn; lia)).
Defined.

Lemma negative_cap_drops_the_tail_witness :
  ((-1 < 0)%Z
   /\ checkConvertElements (Many ["t"; "g"]%string) jet_types
      = Ok (map fst loaded30)
   /\ loaded30 <> []
   /\ retrievable "./" false loaded30
   /\ known ["mask"]%string particle_features_order = true
   /\ known [] jet_features_order = true
   /\ checkListNotEmpty (checkStrToList (OneFeature "mask"))
      || checkListNotEmpty (checkStrToList NoFeatures) = true
   /\ getSplitting (total loaded30) "all" splits fractions = Ok (0%Z, 5%Z)
   /\ seed_accepted 42 = true)
  /\ exists P,
       fst (getData (Many ["t"; "g"]%string) "./" (OneFeature "mask")
              NoFeatures (-1) "all" fractions 42 w0) = Ok (Some P, None)
       /\ Forall (fun p : list row => length p = 2%nat) P.
Proof.
  split; [side_conditions|].
  destruct (negative_cap_drops_the_tail (Many ["t"; "g"]%string) "./"
              (OneFeature "mask") NoFeatures (-1) "all" fractions 42 loaded30
              0 5 w0 ltac:(lia) eq_refl loaded30_not_empty retrievable30
              eq_refl eq_refl eq_refl eq_refl eq_refl)
    as (P & J & Hrun & Hrows).
  exists P. split; [exact Hrun|].
  revert Hrows. apply Forall_impl.
  intros p (j & f & raw & Hin & Hraw & _ & Hlen). rewrite Hlen.
  cbn in Hin. destruct Hin as [[= <- <-]|[[= <- <-]|[]]]; cbn in Hraw;
    repeat destruct Hraw as [<-|Hraw]; try reflexivity; destruct Hraw.
Defined.

Lemma clamp_within_cap_witness :
  Forall (fun r : row => Forall (fun v => (v <= inject_Z 30)%Q) (skipn 3 r))
    (Hdf5.jet_features g30)
  /\ add_class_index 0 30 (Hdf5.jet_features g30)
     = map (fun r => inject_Z 0 :: r) (Hdf5.jet_features g30).
Proof.
  assert (H : Forall (fun r : row =>
                        Forall (fun v => (v <= inject_Z 30)%Q) (skipn 3 r))
                (Hdf5.jet_features g30)).
  { repeat (apply Forall_cons || apply Forall_nil); cbn [skipn];
      repeat (apply Forall_cons || apply Forall_nil);
      unfold Qle; cbn; lia. }
  split; [exact H|].
  apply (clamp_within_cap 0 30 (Hdf5.jet_features g30) H).
Defined.

Lemma result_shapes_witness :
  ((0 <= 2)%Z
   /\ checkConvertElements (Many ["t"; "g"]%string) jet_types
      = Ok (map fst loaded30)
   /\ loaded30 <> []
   /\ retrievable "./" (30 <? 2)%Z loaded30
   /\ known ["ptrel"; "mask"]%string particle_features_order = true
   /\ known ["pt"]%string jet_features_order = true
   /\ checkListNotEmpty (checkStrToList (FeatureList ["ptrel"; "mask"]%string))
      || checkListNotEmpty (checkStrToList (OneFeature "pt")) = true
   /\ getSplitting (total loaded30) "train" splits fractions = Ok (0%Z, 4%Z)
   /\ seed_accepted 42 = true)
  /\ exists P J,
       fst (getData (Many ["t"; "g"]%string) "./"
              (FeatureList ["ptrel"; "mask"]%string) (OneFeature "pt") 2
              "train" fractions 42 w0) = Ok (Some P, Some J)
       /\ Forall (fun example : list row =>
                    (length example <= 2)%nat
                    /\ Forall (fun r : row => length r = 2%nat) example) P
       /\ Forall (fun r : row => length r = 1%nat) J.
Proof.
  split; [side_conditions|].
  apply (result_shapes (Many ["t"; "g"]%string) "./"
           (FeatureList ["ptrel"; "mask"]%string) (OneFeature "pt") 2
           "train" fractions 42 loaded30 0 4 w0 ltac:(lia) eq_refl
           loaded30_not_empty retrievable30 eq_refl eq_refl eq_refl
           eq_refl eq_refl).
Defined.

Lemma downloads_in_order_witness :
  checkConvertElements (Many ["q"; "g"]%string) jet_types
  = Ok ["g"; "q"]%string
  /\ exists evs n,
       trace (snd (getData (Many ["q"; "g"]%string) "./" (OneFeature "mask")
                     NoFeatures 30 "train" fractions 42 w0)) = trace w0 ++ evs
       /\ filter is_download evs
          = map (request "./" (30 <? 30)%Z) (firstn n ["g"; "q"]%string).
Proof.
  split; [reflexivity|].
  destruct (downloads_in_order (Many ["q"; "g"]%string) "./" (OneFeature "mask")
              NoFeatures 30 "train" fractions 42 w0) as [_ Hok].
  destruct (Hok ["g"; "q"]%string eq_refl) as (evs & n & Ht & Hd & _).
  exists evs, n. split; [exact Ht | exact Hd].
Defined.

Lemma dataset_keys_distinct_witness :
  (In "g"%string jet_types /\ In "q"%string jet_types)
  /\ (key_of true "g" = key_of true "q" -> true = true /\ "g"%string = "q"%string).
Proof.
  assert (Hg : In "g"%string jet_types) by (cbn; tauto).
  assert (Hq : In "q"%string jet_types) by (cbn; tauto).
  split; [split; assumption|].
  apply (dataset_keys_distinct true true "g" "q" Hg Hq).
Defined.

Lemma tensors_independent_witness :
  (checkListNotEmpty (checkStrToList (OneFeature "mask")) = true
   /\ checkListNotEmpty (checkStrToList (OneFeature "pt")) = true
   /\ checkConvertElements (Many ["t"; "g"]%string) jet_types
      = Ok (map fst loaded30)
   /\ loaded30 <> []
   /\ retrievable "./" (30 <? 2)%Z loaded30
   /\ known ["mask"]%string particle_features_order = true
   /\ known ["pt"]%string jet_features_order = true
   /\ getSplitting (total loaded30) "train" splits fractions = Ok (0%Z, 4%Z)
   /\ seed_accepted 42 = true)
  /\ exists P J,
       fst (getData (Many ["t"; "g"]%string) "./" (OneFeature "mask")
              (OneFeature "pt") 2 "train" fractions 42 w0) = Ok (Some P, Some J)
       /\ fst (getData (Many ["t"; "g"]%string) "./" (OneFeature "mask")
                 NoFeatures 2 "train" fractions 42 w0) = Ok (Some P, None)
       /\ fst (getData (Many ["t"; "g"]%string) "./" NoFeatures
                 (OneFeature "pt") 2 "train" fractions 42 w0) = Ok (None, Some J).
Proof.
  split; [side_conditions|].
  apply (tensors_independent (Many ["t"; "g"]%string) "./" (OneFeature "mask")
           (OneFeature "pt") 2 "train" fractions 42 loaded30 0 4 w0
           eq_refl eq_refl eq_refl loaded30_not_empty retrievable30
           eq_refl eq_refl eq_refl eq_refl).
Defined.

Lemma labels_and_counts_returned_witness :
  (checkConvertElements (Many ["t"; "g"]%string) jet_types = Ok (map fst loaded30)
   /\ loaded30 <> []
   /\ retrievable "./" (30 <? 2)%Z loaded30
   /\ known [] particle_features_order = true
   /\ getSplitting (total loaded30) "train" splits fractions = Ok (0%Z, 4%Z)
   /\ seed_accepted 42 = true)
  /\ exists J,
       fst (getData (Many ["t"; "g"]%string) "./" NoFeatures
              (FeatureList jet_features_order) 2 "train" fractions 42 w0)
       = Ok (None, Some J)
       /\ Forall (fun r : row =>
                    exists j, In j ["g"; "t"]%string
                              /\ nth_error r 0
                                 = Some (inject_Z (Z.of_nat (class_of j)))) J.
Proof.
  split; [side_conditions|].
  destruct (labels_and_counts_returned (Many ["t"; "g"]%string) "./" NoFeatures
              2 "train" fractions 42 loaded30 0 4 w0 eq_refl loaded30_not_empty
              retrievable30 eq_refl eq_refl eq_refl)
    as (P & J & Hrun & Hrows).
  exists J. split; [exact Hrun|].
  revert Hrows. apply Forall_impl.
  intros r (j & f & pt & eta & mass & count & Hin & _ & _ & -> & _).
  exists j. split; [|reflexivity].
  apply (in_map fst) in Hin. exact Hin.
Defined.

End MoreExamples.

(** * The variant files, the loop body and the empty request *)

(** ** Which file is asked for *)

Section Variants.

Import Utils JetNet View.
Context {RS : RawSource} {G : Generator}.

Lemma append_empty (s : string) : append s EmptyString = s.
Proof. induction s as [|c s IH]; cbn; [reflexivity | now rewrite IH]. Qed.

Lemma append_append (s t u : string) :
  append (append s t) u = append s (append t u).
Proof. induction s as [|c s IH]; cbn; [reflexivity | now rewrite IH]. Qed.

Lemma request_coarse (data_dir j : string) :
  request data_dir true j = coarse_file data_dir j.
Proof.
  unfold request, coarse_file, key_of, dataset_name, record_of.
  now rewrite append_append.
Qed.

Lemma request_fine (data_dir j : string) :
  request data_dir false j = fine_file data_dir j.
Proof.
  unfold request, fine_file, key_of, dataset_name, record_of.
  now rewrite append_empty.
Qed.

Lemma appends_variant (jet_type : selection) (data_dir : string)
    (particle_features jet_features : feature_arg) (num_particles : Z)
    (split : string) (fr : Q * Q * Q) (seed : Z) :
  appends (asks_for (if (30 <? num_particles)%Z
                     then coarse_file data_dir else fine_file data_dir))
    (getData jet_type data_dir particle_features jet_features num_particles
       split fr seed).
Proof.
  unfold getData. apply appends_bind_lift. intros cats Hcats.
  apply checkConvertElements_valid in Hcats.
  apply appends_bind.
  - apply appends_load_jet_types; [|intros path; exact I].
    revert Hcats. apply Forall_impl. intros j Hj.
    destruct (30 <? num_particles)%Z;
      [rewrite request_coarse | rewrite request_fine]; cbn; now exists j.
  - intros [ps js]. apply appends_after_loading.
Qed.

Lemma coarse_not_fine (data_dir : string) (e : event) :
  asks_for (coarse_file data_dir) e -> forall j, e <> fine_file data_dir j.
Proof.
  destruct e as [d n r k|path]; [|discriminate].
  intros (j' & _ & ->) j. unfold coarse_file, fine_file. intros [= _ _].
Qed.

Lemma fine_not_coarse (data_dir : string) (e : event) :
  asks_for (fine_file data_dir) e -> forall j, e <> coarse_file data_dir j.
Proof.
  destruct e as [d n r k|path]; [|discriminate].
  intros (j' & _ & ->) j. unfold coarse_file, fine_file. intros [= _ _].
Qed.

(** C5.  Whatever the request, when the element cap is above 30 every
    download [getData] issues is the download of a file of the
    150-particle dataset (dataset [j150], record 6975117, key
    [j150.hdf5], for a jet type [j] of the closed list) and none is a
    download of the 30-particle dataset; when the cap is at most 30
    every download is one of the 30-particle dataset (dataset [j],
    record 6975118, key [j.hdf5]) and none is one of the 150-particle
    dataset.  When at least one jet type is selected, the first thing
    [getData] does to the file system is such a download for the first
    selected type. *)
Theorem variant_files_by_cap (jet_type : selection) (data_dir : string)
    (particle_features jet_features : feature_arg) (num_particles : Z)
    (split : string) (fr : Q * Q * Q) (seed : Z) (w : world) :
  exists evs,
    trace (snd (getData jet_type data_dir particle_features jet_features
                  num_particles split fr seed w)) = trace w ++ evs
    /\ ((30 < num_particles)%Z ->
        Forall (asks_for (coarse_file data_dir)) evs
        /\ Forall (fun e => forall j, e <> fine_file data_dir j) evs)
    /\ ((num_particles <= 30)%Z ->
        Forall (asks_for (fine_file data_dir)) evs
        /\ Forall (fun e => forall j, e <> coarse_file data_dir j) evs)
    /\ (forall j rest,
          checkConvertElements jet_type jet_types = Ok (j :: rest) ->
          exists evs',
            evs = (if (30 <? num_particles)%Z
                   then coarse_file data_dir j
                   else fine_file data_dir j) :: evs').
Proof.
  destruct (appends_variant jet_type data_dir particle_features jet_features
              num_particles split fr seed w) as (evs & Ht & Hf).
  exists evs. split; [exact Ht|].
  split; [|split].
  - intros HK. destruct (Z.ltb_spec 30 num_particles); [|lia].
    split; [exact Hf|]. revert Hf. apply Forall_impl.
    intros e. apply coarse_not_fine.
  - intros HK. destruct (Z.ltb_spec 30 num_particles); [lia|].
    split; [exact Hf|]. revert Hf. apply Forall_impl.
    intros e. apply fine_not_coarse.
  - intros j rest Hcats.
    destruct (starts_with_getData jet_type data_dir particle_features
                jet_features num_particles split fr seed j rest Hcats w)
      as (evs' & Ht').
    exists evs'. rewrite Ht in Ht'. apply app_inv_head in Ht'.
    rewrite Ht'. destruct (30 <? num_particles)%Z;
      [now rewrite request_coarse | now rewrite request_fine].
Qed.

End Variants.

(** ** What the loop body makes of a raw file *)

Section LoopBody.

Import Utils JetNet View Stages.
Context {RS : RawSource} {G : Generator}.

Lemma processed_parts (pfeat jfeat : option (list string)) (up uj : bool)
    (K : Z) (j : string) (f : hdf5) :
  processed pfeat jfeat up uj K j f
  = match particle_part pfeat up K f with
    | Raise e => Raise e
    | Ok pf =>
        match jet_part jfeat uj K j f with
        | Raise e => Raise e
        | Ok jf => Ok (pf, jf)
        end
    end.
Proof. reflexivity. Qed.

Lemma particle_part_first_elements (pfeat : option (list string)) (up : bool)
    (K : Z) (f : hdf5) :
  (0 <= K)%Z ->
  particle_part pfeat up K f
  = if up
    then match getOrderedFeatures3 (first_elements K f) (names pfeat)
                 particle_features_order with
         | Ok pf => Ok (Some pf)
         | Raise e => Raise e
         end
    else Ok None.
Proof.
  intros HK. unfold particle_part, first_elements.
  now rewrite truncate_counts.
Qed.

Lemma jet_part_label_first (jfeat : option (list string)) (uj : bool)
    (K : Z) (j : string) (f : hdf5) :
  In j jet_types ->
  jet_part jfeat uj K j f
  = if uj
    then match getOrderedFeatures2 (label_first K j f) (names jfeat)
                 jet_features_order with
         | Ok jf => Ok (Some jf)
         | Raise e => Raise e
         end
    else Ok None.
Proof.
  intros Hin. unfold jet_part, label_first.
  destruct (column_index _ _ Hin) as [Hc _]. rewrite Hc.
  now rewrite add_class_index_rows.
Qed.

Lemma reorder_same (data : tensor2) (canonical : list string) :
  Py.list_eqb canonical canonical = true ->
  reorder data canonical canonical = Ok data.
Proof. intros Heq. unfold reorder. now rewrite Heq. Qed.

Lemma canonical_particles (data : tensor3) :
  getOrderedFeatures3 data particle_features_order particle_features_order
  = Ok data.
Proof.
  unfold getOrderedFeatures3.
  replace (validate particle_features_order particle_features_order)
    with (Ok particle_features_order) by reflexivity.
  induction data as [|example data IH]; [reflexivity|].
  cbn [reorder_each]. rewrite reorder_same by reflexivity.
  now rewrite IH.
Qed.

Lemma canonical_jets (data : tensor2) :
  getOrderedFeatures2 data jet_features_order jet_features_order = Ok data.
Proof.
  unfold getOrderedFeatures2.
  replace (validate jet_features_order jet_features_order)
    with (Ok jet_features_order) by reflexivity.
  now apply reorder_same.
Qed.

Lemma names_present (features : option (list string)) (x : string)
    (l : list string) :
  names features = x :: l -> checkListNotEmpty features = true.
Proof. destruct features as [[|y l']|]; try discriminate; reflexivity. Qed.

(** The cut array, example by example. *)
Lemma first_elements_examples (K : Z) (f : hdf5) :
  length (first_elements K f) = length (Hdf5.particle_features f)
  /\ forall k example,
       nth_error (Hdf5.particle_features f) k = Some example ->
       exists kept,
         nth_error (first_elements K f) k = Some kept
         /\ length kept = Nat.min (Z.to_nat K) (length example)
         /\ (forall i, (i < Z.to_nat K)%nat ->
               nth_error kept i = nth_error example i)
         /\ (forall i, (Z.to_nat K <= i)%nat -> nth_error kept i = None).
Proof.
  unfold first_elements. split; [apply length_map|].
  intros k example Hk. exists (firstn (Z.to_nat K) example).
  rewrite nth_error_map, Hk. split; [reflexivity|].
  split; [apply length_firstn|]. split; intros i Hi; rewrite nth_error_firstn.
  - destruct (Nat.ltb_spec i (Z.to_nat K)); [reflexivity | lia].
  - destruct (Nat.ltb_spec i (Z.to_nat K)); [lia | reflexivity].
Qed.

(** The built array, row by row. *)
Lemma label_first_rows (K : Z) (j : string) (f : hdf5) :
  length (label_first K j f) = length (Hdf5.jet_features f)
  /\ forall k raw,
       nth_error (Hdf5.jet_features f) k = Some raw ->
       exists r,
         nth_error (label_first K j f) k = Some r
         /\ nth_error r 0 = Some (inject_Z (Z.of_nat (class_of j)))
         /\ (forall i, (i < 3)%nat -> nth_error r (S i) = nth_error raw i)
         /\ (forall i, (3 <= i)%nat ->
               nth_error r (S i)
               = option_map (fun v => Qmin v (inject_Z K)) (nth_error raw i))
         /\ (forall i v, (3 <= i)%nat -> nth_error r (S i) = Some v ->
               (v <= inject_Z K)%Q).
Proof.
  unfold label_first. split; [apply length_map|].
  intros k raw Hk. exists (labelled (class_of j) K raw).
  rewrite nth_error_map, Hk.
  split; [reflexivity|]. split; [apply labelled_head|].
  split; [intros i Hi; now apply labelled_verbatim|].
  split; [intros i Hi; now apply labelled_clamped|].
  intros i v Hi Hv. rewrite labelled_clamped in Hv by assumption.
  destruct (nth_error raw i) as [x|]; [|discriminate].
  injection Hv as <-. apply Q.le_min_r.
Qed.

Lemma particle_rows_first_elements (requested : list string) (K : Z)
    (loaded : list (string * hdf5)) :
  (0 <= K)%Z ->
  particle_rows requested K loaded
  = concat (map (fun jf => map (map (select requested particle_features_order))
                             (first_elements K (snd jf))) loaded).
Proof.
  intros HK. unfold particle_rows. f_equal. apply map_ext. intros [j f].
  unfold particle_block, first_elements. rewrite map_map.
  apply map_ext. intros example. now rewrite slice_prefix.
Qed.

Lemma jet_rows_label_first (requested : list string) (K : Z)
    (loaded : list (string * hdf5)) :
  jet_rows requested K loaded
  = concat (map (fun jf => map (select requested jet_features_order)
                             (label_first K (fst jf) (snd jf))) loaded).
Proof.
  unfold jet_rows. f_equal. apply map_ext. intros [j f].
  unfold jet_block, label_first. now rewrite map_map.
Qed.

Lemma canonical_first_elements (K : Z) (loaded : list (string * hdf5)) :
  Forall (fun jf => well_formed (snd jf)) loaded ->
  map (fun jf => map (map (select particle_features_order particle_features_order))
                   (first_elements K (snd jf))) loaded
  = map (fun jf => first_elements K (snd jf)) loaded.
Proof.
  intros Hwf. apply map_ext_in. intros [j f] Hin.
  rewrite Forall_forall in Hwf. destruct (Hwf _ Hin) as (_ & Hrows & _).
  cbn [snd] in *. unfold first_elements. rewrite map_map.
  apply map_ext_in. intros example Hex.
  rewrite Forall_forall in Hrows. specialize (Hrows _ Hex).
  apply (Forall_firstn _ (Z.to_nat K)) in Hrows.
  induction Hrows as [|r rs Hr _ IH]; [reflexivity|].
  cbn [map]. now rewrite particle_identity, IH.
Qed.

Lemma canonical_label_first (K : Z) (loaded : list (string * hdf5)) :
  Forall (fun jf => well_formed (snd jf)) loaded ->
  map (fun jf => map (select jet_features_order jet_features_order)
                   (label_first K (fst jf) (snd jf))) loaded
  = map (fun jf => label_first K (fst jf) (snd jf)) loaded.
Proof.
  intros Hwf. apply map_ext_in. intros [j f] Hin.
  rewrite Forall_forall in Hwf. destruct (Hwf _ Hin) as (_ & _ & Hrows).
  cbn [fst snd] in *. unfold label_first. rewrite map_map.
  apply map_ext_in. intros raw Hraw.
  rewrite Forall_forall in Hrows.
  apply jet_identity. apply (labelled_length (class_of j) K raw).
  now apply Hrows.
Qed.

(** One iteration of the loop on a retrievable file, with the particle
    array in closed form. *)
Lemma load_particles (data_dir : string) (pfeat jfeat : option (list string))
    (up uj u150 : bool) (K : Z) (j path : string) (f : hdf5) (w : world) :
  (0 <= K)%Z ->
  available data_dir u150 j path f ->
  fst (load_jet_type data_dir pfeat jfeat up uj u150 K j w)
  = match (if up
           then match getOrderedFeatures3 (first_elements K f) (names pfeat)
                        particle_features_order with
                | Ok pf => Ok (Some pf)
                | Raise e => Raise e
                end
           else Ok None) with
    | Raise e => Raise e
    | Ok pf =>
        match jet_part jfeat uj K j f with
        | Raise e => Raise e
        | Ok jfo => Ok (pf, jfo)
        end
    end.
Proof.
  intros HK Havail.
  rewrite (load_jet_type_run _ _ _ _ _ _ _ _ _ _ _ Havail). cbn [fst].
  rewrite processed_parts. now rewrite particle_part_first_elements.
Qed.

(** One iteration of the loop on a retrievable file, with the jet array
    in closed form. *)
Lemma load_jets (data_dir : string) (pfeat jfeat : option (list string))
    (up uj u150 : bool) (K : Z) (j path : string) (f : hdf5) (w : world) :
  In j jet_types ->
  available data_dir u150 j path f ->
  fst (load_jet_type data_dir pfeat jfeat up uj u150 K j w)
  = match particle_part pfeat up K f with
    | Raise e => Raise e
    | Ok pf =>
        match (if uj
               then match getOrderedFeatures2 (label_first K j f) (names jfeat)
                            jet_features_order with
                    | Ok jf => Ok (Some jf)
                    | Raise e => Raise e
                    end
               else Ok None) with
        | Raise e => Raise e
        | Ok jfo => Ok (pf, jfo)
        end
    end.
Proof.
  intros Hin Havail.
  rewrite (load_jet_type_run _ _ _ _ _ _ _ _ _ _ _ Havail). cbn [fst].
  rewrite processed_parts. now rewrite jet_part_label_first.
Qed.

(** C8.  For every jet type with a retrievable file and every element
    cap [K] (a count), the loop body of [getData] hands to reordering
    the raw particle array of the file with every example cut to its
    first [K] elements when particle features are requested, and makes
    no particle array when they are not: the number of examples is
    unchanged, an example of [n] elements keeps [min K n] of them, and
    every kept element is the raw element at the same position.
    Requested in the canonical order, the cut array is what the loop
    body returns.  On a valid request [getData] returns the cut arrays
    of the selected types, reordered, concatenated, shuffled and split;
    requested in the canonical order, the feature values are the raw
    ones. *)
Theorem particles_truncated_when_requested
    (jet_type : selection) (data_dir : string)
    (particle_features jet_features : feature_arg) (num_particles : Z)
    (split : string) (fr : Q * Q * Q) (seed : Z)
    (loaded : list (string * hdf5)) (lcut rcut : Z) (w : world) :
  let pfeat := checkStrToList particle_features in
  let jfeat := checkStrToList jet_features in
  let up := checkListNotEmpty pfeat in
  let uj := checkListNotEmpty jfeat in
  let u150 := (30 <? num_particles)%Z in
  let randperm := fst (permutation (seed_state seed) (total loaded)) in
  (0 <= num_particles)%Z ->
  Forall (fun jf => exists path, available data_dir u150 (fst jf) path (snd jf))
    loaded ->
  Forall
    (fun jf =>
       let run := fst (load_jet_type data_dir pfeat jfeat up uj u150
                         num_particles (fst jf) w) in
       let kept := first_elements num_particles (snd jf) in
       run = match (if up
                    then match getOrderedFeatures3 kept (names pfeat)
                                 particle_features_order with
                         | Ok pf => Ok (Some pf)
                         | Raise e => Raise e
                         end
                    else Ok None) with
             | Raise e => Raise e
             | Ok pf =>
                 match jet_part jfeat uj num_particles (fst jf) (snd jf) with
                 | Raise e => Raise e
                 | Ok jfo => Ok (pf, jfo)
                 end
             end
       /\ (names pfeat = particle_features_order -> uj = false ->
           run = Ok (Some kept, None))
       /\ length kept = length (Hdf5.particle_features (snd jf))
       /\ (forall k example,
             nth_error (Hdf5.particle_features (snd jf)) k = Some example ->
             exists cut,
               nth_error kept k = Some cut
               /\ length cut = Nat.min (Z.to_nat num_particles) (length example)
               /\ (forall i, (i < Z.to_nat num_particles)%nat ->
                     nth_error cut i = nth_error example i)
               /\ (forall i, (Z.to_nat num_particles <= i)%nat ->
                     nth_error cut i = None)))
    loaded
  /\ (checkConvertElements jet_type jet_types = Ok (map fst loaded) ->
      loaded <> [] ->
      Forall (fun jf => well_formed (snd jf)) loaded ->
      known (names pfeat) particle_features_order = true ->
      known (names jfeat) jet_features_order = true ->
      up || uj = true ->
      getSplitting (total loaded) split splits fr = Ok (lcut, rcut) ->
      seed_accepted seed = true ->
      exists P J,
        fst (getData jet_type data_dir particle_features jet_features
               num_particles split fr seed w)
        = Ok (if up then Some P else None, if uj then Some J else None)
        /\ P = shuffled randperm lcut rcut
                 (concat
                    (map (fun jf =>
                            map (map (select (names pfeat) particle_features_order))
                              (first_elements num_particles (snd jf)))
                       loaded))
        /\ (names pfeat = particle_features_order ->
            P = shuffled randperm lcut rcut
                  (concat (map (fun jf => first_elements num_particles (snd jf))
                             loaded)))).
Proof.
  intros pfeat jfeat up uj u150 randperm HK Havail. split.
  - revert Havail. apply Forall_impl. intros [j f] [path Hjf].
    cbn [fst snd] in *. cbv zeta.
    pose proof (load_particles data_dir pfeat jfeat up uj u150 num_particles
                  j path f w HK Hjf) as Hrun.
    split; [exact Hrun|]. split; [|apply first_elements_examples].
    intros Hnames Huj. rewrite Hrun.
    assert (Hup : up = true)
      by (unfold up; eapply names_present; exact Hnames).
    rewrite Hup, Hnames, canonical_particles, Huj. reflexivity.
  - intros Hcats Hne Hwf Hpk Hjk Huse Hsplit Hseed.
    pose proof (getData_rows jet_type data_dir particle_features jet_features
                  num_particles split fr seed loaded lcut rcut w Hcats Hne
                  (conj Havail Hwf) Hpk Hjk Huse Hseed Hsplit) as Hrun.
    cbv zeta in Hrun. fold pfeat jfeat up uj randperm in Hrun.
    eexists _, _. split; [exact Hrun|].
    rewrite particle_rows_first_elements by assumption.
    split; [reflexivity|].
    intros Hnames. rewrite Hnames. now rewrite canonical_first_elements.
Qed.

(** C4.  For every jet type of the closed list with a retrievable file,
    the loop body of [getData] hands to reordering, when jet features
    are requested, the array built from the raw jet array of the file
    row by row: the ordinal of the jet type in the list of jet types as
    a new leading channel, the first three raw channels unchanged, and
    every remaining raw channel bounded by the element cap,
    [min value cap], hence at most the cap; when jet features are not
    requested it makes no jet array.  Requested in the canonical order,
    the built array is what the loop body returns.  On a valid request
    [getData] returns the built arrays of the selected types, reordered,
    concatenated, shuffled and split. *)
Theorem jets_labelled_and_clamped
    (jet_type : selection) (data_dir : string)
    (particle_features jet_features : feature_arg) (num_particles : Z)
    (split : string) (fr : Q * Q * Q) (seed : Z)
    (loaded : list (string * hdf5)) (lcut rcut : Z) (w : world) :
  let pfeat := checkStrToList particle_features in
  let jfeat := checkStrToList jet_features in
  let up := checkListNotEmpty pfeat in
  let uj := checkListNotEmpty jfeat in
  let u150 := (30 <? num_particles)%Z in
  let randperm := fst (permutation (seed_state seed) (total loaded)) in
  Forall (fun jf => In (fst jf) jet_types) loaded ->
  Forall (fun jf => exists path, available data_dir u150 (fst jf) path (snd jf))
    loaded ->
  Forall
    (fun jf =>
       let run := fst (load_jet_type data_dir pfeat jfeat up uj u150
                         num_particles (fst jf) w) in
       let built := label_first num_particles (fst jf) (snd jf) in
       nth_error jet_types (class_of (fst jf)) = Some (fst jf)
       /\ run = match particle_part pfeat up num_particles (snd jf) with
                | Raise e => Raise e
                | Ok pf =>
                    match (if uj
                           then match getOrderedFeatures2 built (names jfeat)
                                        jet_features_order with
                                | Ok jf' => Ok (Some jf')
                                | Raise e => Raise e
                                end
                           else Ok None) with
                    | Raise e => Raise e
                    | Ok jfo => Ok (pf, jfo)
                    end
                end
       /\ (names jfeat = jet_features_order -> up = false ->
           run = Ok (None, Some built))
       /\ length built = length (Hdf5.jet_features (snd jf))
       /\ (forall k raw,
             nth_error (Hdf5.jet_features (snd jf)) k = Some raw ->
             exists r,
               nth_error built k = Some r
               /\ nth_error r 0 = Some (inject_Z (Z.of_nat (class_of (fst jf))))
               /\ (forall i, (i < 3)%nat -> nth_error r (S i) = nth_error raw i)
               /\ (forall i, (3 <= i)%nat ->
                     nth_error r (S i)
                     = option_map (fun v => Qmin v (inject_Z num_particles))
                         (nth_error raw i))
               /\ (forall i v, (3 <= i)%nat -> nth_error r (S i) = Some v ->
                     (v <= inject_Z num_particles)%Q)))
    loaded
  /\ (checkConvertElements jet_type jet_types = Ok (map fst loaded) ->
      loaded <> [] ->
      Forall (fun jf => well_formed (snd jf)) loaded ->
      known (names pfeat) particle_features_order = true ->
      known (names jfeat) jet_features_order = true ->
      up || uj = true ->
      getSplitting (total loaded) split splits fr = Ok (lcut, rcut) ->
      seed_accepted seed = true ->
      exists P J,
        fst (getData jet_type data_dir particle_features jet_features
               num_particles split fr seed w)
        = Ok (if up then Some P else None, if uj then Some J else None)
        /\ J = shuffled randperm lcut rcut
                 (concat
                    (map (fun jf =>
                            map (select (names jfeat) jet_features_order)
                              (label_first num_particles (fst jf) (snd jf)))
                       loaded))
        /\ (names jfeat = jet_features_order ->
            J = shuffled randperm lcut rcut
                  (concat (map (fun jf => label_first num_particles
                                            (fst jf) (snd jf))
                             loaded)))).
Proof.
  intros pfeat jfeat up uj u150 randperm Htypes Havail. split.
  - rewrite Forall_forall in *. intros [j f] Hin.
    destruct (Havail _ Hin) as [path Hjf]. specialize (Htypes _ Hin).
    cbn [fst snd] in *. cbv zeta.
    pose proof (load_jets data_dir pfeat jfeat up uj u150 num_particles
                  j path f w Htypes Hjf) as Hrun.
    split.
    { destruct (column_index _ _ Htypes) as [Hc _].
      apply (index_Some _ _ _ Hc). }
    split; [exact Hrun|]. split; [|apply label_first_rows].
    intros Hnames Hup. rewrite Hrun.
    assert (Huj : uj = true)
      by (unfold uj; eapply names_present; exact Hnames).
    unfold particle_part.
    rewrite Hup, Huj, Hnames, canonical_jets. reflexivity.
  - intros Hcats Hne Hwf Hpk Hjk Huse Hsplit Hseed.
    pose proof (getData_rows jet_type data_dir particle_features jet_features
                  num_particles split fr seed loaded lcut rcut w Hcats Hne
                  (conj Havail Hwf) Hpk Hjk Huse Hseed Hsplit) as Hrun.
    cbv zeta in Hrun. fold pfeat jfeat up uj randperm in Hrun.
    eexists _, _. split; [exact Hrun|].
    rewrite jet_rows_label_first.
    split; [reflexivity|].
    intros Hnames. rewrite Hnames. now rewrite canonical_label_first.
Qed.

End LoopBody.

(** ** A request for neither kind of features *)

Section EmptyRequest.

Import Utils JetNet View Stages.
Context {RS : RawSource} {G : Generator}.






End EmptyRequest.

(** ** These properties on the sample world *)

Section LoopExamples.

Import Utils JetNet View Stages Sample.

Lemma available30 :
  Forall (fun jf => exists path,
            available "./" (30 <? 2)%Z (fst jf) path (snd jf)) loaded30.
Proof. apply retrievable30. Qed.

Lemma selected30 : Forall (fun jf => In (fst jf) jet_types) loaded30.
Proof.
  apply Forall_cons; [cbn; tauto|].
  apply Forall_cons; [cbn; tauto | apply Forall_nil].
Qed.


Lemma variant_files_by_cap_witness :
  (30 < 200)%Z
  /\ exists evs',
       trace (snd (getData (One "g") "./" NoFeatures (OneFeature "pt") 200
                     "all" fractions 42 w0))
       = trace w0 ++ Download "./" "g150" 6975117 "g150.hdf5" :: evs'
       /\ Forall (asks_for (coarse_file "./")) evs'.
Proof.
  split; [lia|].
  destruct (variant_files_by_cap (One "g") "./" NoFeatures
              (OneFeature "pt") 200 "all" fractions 42 w0)
    as (evs & Htrace & Hcoarse & _ & Hfirst).
  destruct (Hfirst "g"%string [] eq_refl) as (evs' & Hevs).
  exists evs'. rewrite Htrace, Hevs. split; [reflexivity|].
  assert (HK : (30 < 200)%Z) by lia.
  destruct (Hcoarse HK) as [Hall _]. rewrite Hevs in Hall.
  inversion Hall; assumption.
Defined.

Lemma particles_truncated_when_requested_witness :
  ((0 <= 2)%Z
   /\ Forall (fun jf => exists path,
                available "./" (30 <? 2)%Z (fst jf) path (snd jf)) loaded30)
  /\ fst (load_jet_type "./" (Some particle_features_order) None true false
            false 2 "g" w0)
     = Ok (Some (first_elements 2 g30), None)
  /\ exists P,
       fst (getData (Many ["t"; "g"]%string) "./"
              (FeatureList particle_features_order) NoFeatures 2 "train"
              fractions 42 w0) = Ok (Some P, None)
       /\ P = shuffled (fst (permutation (seed_state 42) (total loaded30))) 0 4
                (concat (map (fun jf => first_elements 2 (snd jf)) loaded30)).
Proof.
  assert (HK : (0 <= 2)%Z) by lia.
  split; [split; [exact HK | exact available30]|].
  destruct (particles_truncated_when_requested (Many ["t"; "g"]%string) "./"
              (FeatureList particle_features_order) NoFeatures 2 "train"
              fractions 42 loaded30 0 4 w0 HK available30) as [Hloop Hdata].
  split.
  - inversion Hloop as [|? ? (_ & Hrun & _) _]. apply Hrun; reflexivity.
  - destruct (Hdata eq_refl loaded30_not_empty well_formed30 eq_refl eq_refl
                eq_refl eq_refl eq_refl) as (P & J & Hrun & _ & Hcanon).
    exists P. split; [exact Hrun | apply Hcanon; reflexivity].
Defined.

Lemma jets_labelled_and_clamped_witness :
  (Forall (fun jf => In (fst jf) jet_types) loaded30
   /\ Forall (fun jf => exists path,
                available "./" (30 <? 2)%Z (fst jf) path (snd jf)) loaded30)
  /\ fst (load_jet_type "./" None (Some jet_features_order) false true
            false 2 "g" w0)
     = Ok (None, Some (label_first 2 "g" g30))
  /\ exists J,
       fst (getData (Many ["t"; "g"]%string) "./" NoFeatures
              (FeatureList jet_features_order) 2 "train" fractions 42 w0)
       = Ok (None, Some J)
       /\ J = shuffled (fst (permutation (seed_state 42) (total loaded30))) 0 4
                (concat (map (fun jf => label_first 2 (fst jf) (snd jf))
                           loaded30)).
Proof.
  split; [split; [exact selected30 | exact available30]|].
  destruct (jets_labelled_and_clamped (Many ["t"; "g"]%string) "./"
              NoFeatures (FeatureList jet_features_order) 2 "train"
              fractions 42 loaded30 0 4 w0 selected30 available30)
    as [Hloop Hdata].
  split.
  - inversion Hloop as [|? ? (_ & _ & Hrun & _) _]. apply Hrun; reflexivity.
  - destruct (Hdata eq_refl loaded30_not_empty well_formed30 eq_refl eq_refl
                eq_refl eq_refl eq_refl) as (P & J & Hrun & _ & Hcanon).
    exists J. split; [exact Hrun | apply Hcanon; reflexivity].
Defined.


End LoopExamples.
